(** * Xilinx AXI DMA scatter-gather driver: ring, submission, completion sweep

    A shallow embedding of [drivers/dma/dma_xilinx_axi_dma.c] and the
    properties of its descriptor ring, of submission, of the completion
    sweep, of configuration and of initialisation.

    Conventions of the embedding:
    - 32-bit hardware words ([uint32_t]) are [Z]; masks are applied with
      [Z.land], [Z.lor]; the cast [(uint32_t)x] is [x mod 2^32];
    - ring indices and [num_descriptors] ([size_t]) are [nat]; an array is a
      [list] read with [!!] and written with [<[i:=x]>];
    - an access past the end of an array is undefined in C, and a failed
      [__ASSERT] does not return: the functions that could do either
      return [None] there;
    - memory-mapped register reads are inputs of the functions that perform
      them; register writes, sleeps, interrupt wiring, callback invocations
      and the release of a descriptor are recorded, in program order, in the
      [trace] of the device;
    - cache maintenance and barriers do not change the contents of memory
      as the CPU sees it and are not represented;
    - the DMA engine shares the descriptor memory with the driver: its
      stores are steps of their own, taken between two operations of the
      driver. *)

From stdpp Require Import base numbers list.
From Stdlib Require Import ZArith Lia.

Local Open Scope Z_scope.

(** ** Constants *)

Definition UINT32_MAX : Z := 0xFFFFFFFF.

(** errno values of Zephyr's libc, and [DMA_STATUS_COMPLETE] of
    [zephyr/drivers/dma.h]. *)
Definition EIO : Z := 5.
Definition EFAULT : Z := 14.
Definition EBUSY : Z := 16.
Definition EINVAL : Z := 22.
Definition ENOTSUP : Z := 134.
Definition DMA_STATUS_COMPLETE : Z := 0.

(** SG descriptors are aligned to 64 bytes *)
Definition XILINX_AXI_DMA_SG_DESCRIPTOR_ADDRESS_MASK : Z := 0x3f.

(** masks for the control field of an SG descriptor *)
Definition XILINX_AXI_DMA_SG_DESCRIPTOR_CTRL_SOF_MASK : Z := 0x08000000.
Definition XILINX_AXI_DMA_SG_DESCRIPTOR_CTRL_EOF_MASK : Z := 0x04000000.
Definition XILINX_AXI_DMA_SG_DESCRIPTOR_CTRL_LENGTH_MASK : Z := 0x03FFFFFF.
Definition XILINX_AXI_DMA_SG_DESCRIPTOR_STATUS_LENGTH_MASK : Z := 0x03FFFFFF.

(** masks for the status field of an SG descriptor *)
Definition XILINX_AXI_DMA_SG_DESCRIPTOR_STATUS_COMPLETE_MASK : Z := 0x80000000.
Definition XILINX_AXI_DMA_SG_DESCRIPTOR_STATUS_DEC_ERR_MASK : Z := 0x40000000.
Definition XILINX_AXI_DMA_SG_DESCRIPTOR_STATUS_SLV_ERR_MASK : Z := 0x20000000.
Definition XILINX_AXI_DMA_SG_DESCRIPTOR_STATUS_INT_ERR_MASK : Z := 0x10000000.
Definition XILINX_AXI_DMA_SG_DESCRIPTOR_STATUS_TRANSFERRED_MASK : Z := 0x03FFFFFF.

Definition XILINX_AXI_DMA_SG_DESCRIPTOR_APP0_CHECKSUM_OFFLOAD_FULL : Z := 0x00000002.
Definition XILINX_AXI_DMA_SG_DESCRIPTOR_APP0_CHECKSUM_OFFLOAD_NONE : Z := 0x00000000.
Definition XILINX_AXI_DMA_SG_DESCRIPTOR_APP2_FCS_ERR_MASK : Z := 0x00000100.
Definition XILINX_AXI_DMA_SG_DESCRIPTOR_APP2_IP_ERR_MASK : Z := 0x00000028.
Definition XILINX_AXI_DMA_SG_DESCRIPTOR_APP2_UDP_ERR_MASK : Z := 0x00000030.
Definition XILINX_AXI_DMA_SG_DESCRIPTOR_APP2_TCP_ERR_MASK : Z := 0x00000038.

(** masks and shifts for the DMACR and DMASR registers *)
Definition XILINX_AXI_DMA_REGS_DMACR_IRQTHRESH_SHIFT_BITS : Z := 16.
Definition XILINX_AXI_DMA_REGS_DMACR_IRQDELAY_SHIFT_BITS : Z := 24.
Definition XILINX_AXI_DMA_REGS_DMACR_ERR_IRQEN : Z := 0x00004000.
Definition XILINX_AXI_DMA_REGS_DMACR_DLY_IRQEN : Z := 0x00002000.
Definition XILINX_AXI_DMA_REGS_DMACR_IOC_IRQEN : Z := 0x00001000.
Definition XILINX_AXI_DMA_REGS_DMACR_CYC_BD_EN : Z := 0x00000010.
Definition XILINX_AXI_DMA_REGS_DMACR_KEYHOLE : Z := 0x00000008.
Definition XILINX_AXI_DMA_REGS_DMACR_RESET : Z := 0x00000004.
Definition XILINX_AXI_DMA_REGS_DMACR_RS : Z := 0x00000001.

Definition XILINX_AXI_DMA_REGS_DMASR_ERR_IRQ : Z := 0x00004000.
Definition XILINX_AXI_DMA_REGS_DMASR_DLY_IRQ : Z := 0x00002000.
Definition XILINX_AXI_DMA_REGS_DMASR_IOC_IRQ : Z := 0x00001000.
Definition XILINX_AXI_DMA_REGS_DMASR_IDLE : Z := 0x00000002.
Definition XILINX_AXI_DMA_REGS_DMASR_HALTED : Z := 0x00000001.

(** [enum AxiDmaDirectionRegister]: byte offsets of the per-channel
    registers. *)
Definition XILINX_AXI_DMA_REG_DMACR : Z := 0x00.
Definition XILINX_AXI_DMA_REG_DMASR : Z := 0x04.
Definition XILINX_AXI_DMA_REG_CURDESC : Z := 0x08.
Definition XILINX_AXI_DMA_REG_CURDESC_MSB : Z := 0x0C.
Definition XILINX_AXI_DMA_REG_TAILDESC : Z := 0x10.
Definition XILINX_AXI_DMA_REG_TAILDESC_MSB : Z := 0x14.

Definition XILINX_AXI_DMA_MM2S_REG_OFFSET : Z := 0x00.
Definition XILINX_AXI_DMA_S2MM_REG_OFFSET : Z := 0x30.

(** From [dma_xilinx_axi_dma.h]; the source says "TX is 0, RX is 1" and
    "this should always be 2". *)
Definition XILINX_AXI_DMA_NUM_CHANNELS : Z := 2.
Definition XILINX_AXI_DMA_TX_CHANNEL_NUM : Z := 0.
Definition XILINX_AXI_DMA_RX_CHANNEL_NUM : Z := 1.

(** [enum dma_addr_adj] of [zephyr/drivers/dma.h]. *)
Definition DMA_ADDR_ADJ_INCREMENT : Z := 0.
Definition DMA_ADDR_ADJ_DECREMENT : Z := 1.
Definition DMA_ADDR_ADJ_NO_CHANGE : Z := 2.

(** [enum dma_channel_direction] of [zephyr/drivers/dma.h]; the first
    constructor is the value 0 that zero-initialised storage holds. *)
Inductive dma_channel_direction :=
  | MEMORY_TO_MEMORY
  | MEMORY_TO_PERIPHERAL
  | PERIPHERAL_TO_MEMORY
  | PERIPHERAL_TO_PERIPHERAL
  | HOST_TO_MEMORY
  | MEMORY_TO_HOST.

Definition direction_eqb (a b : dma_channel_direction) : bool :=
  match a, b with
  | MEMORY_TO_MEMORY, MEMORY_TO_MEMORY
  | MEMORY_TO_PERIPHERAL, MEMORY_TO_PERIPHERAL
  | PERIPHERAL_TO_MEMORY, PERIPHERAL_TO_MEMORY
  | PERIPHERAL_TO_PERIPHERAL, PERIPHERAL_TO_PERIPHERAL
  | HOST_TO_MEMORY, HOST_TO_MEMORY
  | MEMORY_TO_HOST, MEMORY_TO_HOST => true
  | _, _ => false
  end.

(** C truth value of [x & mask]. *)
Definition tst (x mask : Z) : bool := negb (Z.land x mask =? 0).

(** [~mask] on 32 bits. *)
Definition not32 (mask : Z) : Z := Z.lxor mask UINT32_MAX.

(** ** Data model *)

(** [struct dma_xilinx_axi_dma_sg_descriptor]: 13 words, padded to 64
    bytes by its alignment. *)
Record sg_descriptor := {
  nxtdesc : Z;
  nxtdesc_msb : Z;
  buffer_address : Z;
  buffer_address_msb : Z;
  reserved1 : Z;
  reserved2 : Z;
  control : Z;
  status : Z;
  app0 : Z;
  app1 : Z;
  app2 : Z;
  app3 : Z;
  app4 : Z
}.

Definition SG_DESCRIPTOR_SIZE : Z := 64.

Definition zero_descriptor : sg_descriptor :=
  {| nxtdesc := 0; nxtdesc_msb := 0; buffer_address := 0;
     buffer_address_msb := 0; reserved1 := 0; reserved2 := 0;
     control := 0; status := 0; app0 := 0; app1 := 0; app2 := 0;
     app3 := 0; app4 := 0 |}.

Definition set_nxtdesc (v : Z) (d : sg_descriptor) : sg_descriptor :=
  {| nxtdesc := v; nxtdesc_msb := nxtdesc_msb d;
     buffer_address := buffer_address d;
     buffer_address_msb := buffer_address_msb d;
     reserved1 := reserved1 d; reserved2 := reserved2 d;
     control := control d; status := status d; app0 := app0 d;
     app1 := app1 d; app2 := app2 d; app3 := app3 d; app4 := app4 d |}.

Definition set_nxtdesc_msb (v : Z) (d : sg_descriptor) : sg_descriptor :=
  {| nxtdesc := nxtdesc d; nxtdesc_msb := v;
     buffer_address := buffer_address d;
     buffer_address_msb := buffer_address_msb d;
     reserved1 := reserved1 d; reserved2 := reserved2 d;
     control := control d; status := status d; app0 := app0 d;
     app1 := app1 d; app2 := app2 d; app3 := app3 d; app4 := app4 d |}.

Definition set_buffer_address (v : Z) (d : sg_descriptor) : sg_descriptor :=
  {| nxtdesc := nxtdesc d; nxtdesc_msb := nxtdesc_msb d;
     buffer_address := v;
     buffer_address_msb := buffer_address_msb d;
     reserved1 := reserved1 d; reserved2 := reserved2 d;
     control := control d; status := status d; app0 := app0 d;
     app1 := app1 d; app2 := app2 d; app3 := app3 d; app4 := app4 d |}.

Definition set_buffer_address_msb (v : Z) (d : sg_descriptor) : sg_descriptor :=
  {| nxtdesc := nxtdesc d; nxtdesc_msb := nxtdesc_msb d;
     buffer_address := buffer_address d;
     buffer_address_msb := v;
     reserved1 := reserved1 d; reserved2 := reserved2 d;
     control := control d; status := status d; app0 := app0 d;
     app1 := app1 d; app2 := app2 d; app3 := app3 d; app4 := app4 d |}.

Definition set_control (v : Z) (d : sg_descriptor) : sg_descriptor :=
  {| nxtdesc := nxtdesc d; nxtdesc_msb := nxtdesc_msb d;
     buffer_address := buffer_address d;
     buffer_address_msb := buffer_address_msb d;
     reserved1 := reserved1 d; reserved2 := reserved2 d;
     control := v; status := status d; app0 := app0 d;
     app1 := app1 d; app2 := app2 d; app3 := app3 d; app4 := app4 d |}.

Definition set_status (v : Z) (d : sg_descriptor) : sg_descriptor :=
  {| nxtdesc := nxtdesc d; nxtdesc_msb := nxtdesc_msb d;
     buffer_address := buffer_address d;
     buffer_address_msb := buffer_address_msb d;
     reserved1 := reserved1 d; reserved2 := reserved2 d;
     control := control d; status := v; app0 := app0 d;
     app1 := app1 d; app2 := app2 d; app3 := app3 d; app4 := app4 d |}.

Definition set_app0 (v : Z) (d : sg_descriptor) : sg_descriptor :=
  {| nxtdesc := nxtdesc d; nxtdesc_msb := nxtdesc_msb d;
     buffer_address := buffer_address d;
     buffer_address_msb := buffer_address_msb d;
     reserved1 := reserved1 d; reserved2 := reserved2 d;
     control := control d; status := status d; app0 := v;
     app1 := app1 d; app2 := app2 d; app3 := app3 d; app4 := app4 d |}.

(** [struct dma_xilinx_axi_dma_channel].  [descriptors] is the array the C
    pointer designates and [descriptors_addr] the value of that pointer;
    [completion_callback] is a function pointer, [None] when it is NULL. *)
Record dma_xilinx_axi_dma_channel := {
  descriptors : list sg_descriptor;
  descriptors_addr : Z;
  num_descriptors : nat;
  populated_desc_index : nat;
  completion_desc_index : nat;
  channel_regs : Z;
  irq : Z;
  direction : dma_channel_direction;
  completion_callback : option Z;
  completion_callback_user_data : Z;
  last_rx_size : Z;
  sg_desc_app0 : Z;
  check_csum_in_isr : bool
}.

Definition set_descriptors (v : list sg_descriptor) (c : dma_xilinx_axi_dma_channel) :=
  {| descriptors := v; descriptors_addr := descriptors_addr c;
     num_descriptors := num_descriptors c;
     populated_desc_index := populated_desc_index c;
     completion_desc_index := completion_desc_index c;
     channel_regs := channel_regs c; irq := irq c; direction := direction c;
     completion_callback := completion_callback c;
     completion_callback_user_data := completion_callback_user_data c;
     last_rx_size := last_rx_size c; sg_desc_app0 := sg_desc_app0 c;
     check_csum_in_isr := check_csum_in_isr c |}.

Definition set_populated_desc_index (v : nat) (c : dma_xilinx_axi_dma_channel) :=
  {| descriptors := descriptors c; descriptors_addr := descriptors_addr c;
     num_descriptors := num_descriptors c;
     populated_desc_index := v;
     completion_desc_index := completion_desc_index c;
     channel_regs := channel_regs c; irq := irq c; direction := direction c;
     completion_callback := completion_callback c;
     completion_callback_user_data := completion_callback_user_data c;
     last_rx_size := last_rx_size c; sg_desc_app0 := sg_desc_app0 c;
     check_csum_in_isr := check_csum_in_isr c |}.

Definition set_completion_desc_index (v : nat) (c : dma_xilinx_axi_dma_channel) :=
  {| descriptors := descriptors c; descriptors_addr := descriptors_addr c;
     num_descriptors := num_descriptors c;
     populated_desc_index := populated_desc_index c;
     completion_desc_index := v;
     channel_regs := channel_regs c; irq := irq c; direction := direction c;
     completion_callback := completion_callback c;
     completion_callback_user_data := completion_callback_user_data c;
     last_rx_size := last_rx_size c; sg_desc_app0 := sg_desc_app0 c;
     check_csum_in_isr := check_csum_in_isr c |}.

Definition set_last_rx_size (v : Z) (c : dma_xilinx_axi_dma_channel) :=
  {| descriptors := descriptors c; descriptors_addr := descriptors_addr c;
     num_descriptors := num_descriptors c;
     populated_desc_index := populated_desc_index c;
     completion_desc_index := completion_desc_index c;
     channel_regs := channel_regs c; irq := irq c; direction := direction c;
     completion_callback := completion_callback c;
     completion_callback_user_data := completion_callback_user_data c;
     last_rx_size := v; sg_desc_app0 := sg_desc_app0 c;
     check_csum_in_isr := check_csum_in_isr c |}.

Definition set_sg_desc_app0 (v : Z) (c : dma_xilinx_axi_dma_channel) :=
  {| descriptors := descriptors c; descriptors_addr := descriptors_addr c;
     num_descriptors := num_descriptors c;
     populated_desc_index := populated_desc_index c;
     completion_desc_index := completion_desc_index c;
     channel_regs := channel_regs c; irq := irq c; direction := direction c;
     completion_callback := completion_callback c;
     completion_callback_user_data := completion_callback_user_data c;
     last_rx_size := last_rx_size c; sg_desc_app0 := v;
     check_csum_in_isr := check_csum_in_isr c |}.

Definition set_check_csum_in_isr (v : bool) (c : dma_xilinx_axi_dma_channel) :=
  {| descriptors := descriptors c; descriptors_addr := descriptors_addr c;
     num_descriptors := num_descriptors c;
     populated_desc_index := populated_desc_index c;
     completion_desc_index := completion_desc_index c;
     channel_regs := channel_regs c; irq := irq c; direction := direction c;
     completion_callback := completion_callback c;
     completion_callback_user_data := completion_callback_user_data c;
     last_rx_size := last_rx_size c; sg_desc_app0 := sg_desc_app0 c;
     check_csum_in_isr := v |}.

Definition set_completion_callback (cb : option Z) (ud : Z)
    (c : dma_xilinx_axi_dma_channel) :=
  {| descriptors := descriptors c; descriptors_addr := descriptors_addr c;
     num_descriptors := num_descriptors c;
     populated_desc_index := populated_desc_index c;
     completion_desc_index := completion_desc_index c;
     channel_regs := channel_regs c; irq := irq c; direction := direction c;
     completion_callback := cb;
     completion_callback_user_data := ud;
     last_rx_size := last_rx_size c; sg_desc_app0 := sg_desc_app0 c;
     check_csum_in_isr := check_csum_in_isr c |}.

Definition set_irq (v : Z) (c : dma_xilinx_axi_dma_channel) :=
  {| descriptors := descriptors c; descriptors_addr := descriptors_addr c;
     num_descriptors := num_descriptors c;
     populated_desc_index := populated_desc_index c;
     completion_desc_index := completion_desc_index c;
     channel_regs := channel_regs c; irq := v; direction := direction c;
     completion_callback := completion_callback c;
     completion_callback_user_data := completion_callback_user_data c;
     last_rx_size := last_rx_size c; sg_desc_app0 := sg_desc_app0 c;
     check_csum_in_isr := check_csum_in_isr c |}.

Definition set_direction (v : dma_channel_direction) (c : dma_xilinx_axi_dma_channel) :=
  {| descriptors := descriptors c; descriptors_addr := descriptors_addr c;
     num_descriptors := num_descriptors c;
     populated_desc_index := populated_desc_index c;
     completion_desc_index := completion_desc_index c;
     channel_regs := channel_regs c; irq := irq c; direction := v;
     completion_callback := completion_callback c;
     completion_callback_user_data := completion_callback_user_data c;
     last_rx_size := last_rx_size c; sg_desc_app0 := sg_desc_app0 c;
     check_csum_in_isr := check_csum_in_isr c |}.

(** The three assignments [init] makes to bind a channel to its storage and
    its register window. *)
Definition bind_storage (ring : list sg_descriptor) (addr regs : Z)
    (c : dma_xilinx_axi_dma_channel) :=
  {| descriptors := ring; descriptors_addr := addr;
     num_descriptors := length ring;
     populated_desc_index := populated_desc_index c;
     completion_desc_index := completion_desc_index c;
     channel_regs := regs; irq := irq c; direction := direction c;
     completion_callback := completion_callback c;
     completion_callback_user_data := completion_callback_user_data c;
     last_rx_size := last_rx_size c; sg_desc_app0 := sg_desc_app0 c;
     check_csum_in_isr := check_csum_in_isr c |}.

(** What the driver does that is visible outside its own memory (the
    acquisition and release of the interrupt exclusion, register writes,
    sleeps, the wiring of an interrupt line, callback invocations), plus
    the release of a descriptor (the store [control = status = 0]). *)
Inductive event :=
  | EvLockIrq (channel_num key : Z)
  | EvUnlockIrq (channel_num key : Z)
  | EvWriteReg (addr val : Z)
  | EvSleep (ms : Z)
  | EvIrqConnect (irqn isr_channel : Z)
  | EvCallback (user_data channel status : Z)
  | EvDescRelease (desc_addr : Z).

(** [struct dma_xilinx_axi_dma_data] (the two channel states and the static
    descriptor storage, with its addresses), the state of the interrupt
    controller ([irq_enabled] per line, [irqs_locked] for the CPU-wide
    lock of [irq_lock]) and the trace. *)
Record device := {
  channels_tx : dma_xilinx_axi_dma_channel;
  channels_rx : dma_xilinx_axi_dma_channel;
  descriptors_tx : list sg_descriptor;
  descriptors_tx_addr : Z;
  descriptors_rx : list sg_descriptor;
  descriptors_rx_addr : Z;
  irq_enabled : Z -> bool;
  irqs_locked : bool;
  trace : list event
}.

Definition set_channels_tx (c : dma_xilinx_axi_dma_channel) (d : device) :=
  {| channels_tx := c; channels_rx := channels_rx d;
     descriptors_tx := descriptors_tx d; descriptors_tx_addr := descriptors_tx_addr d;
     descriptors_rx := descriptors_rx d; descriptors_rx_addr := descriptors_rx_addr d;
     irq_enabled := irq_enabled d; irqs_locked := irqs_locked d;
     trace := trace d |}.

Definition set_channels_rx (c : dma_xilinx_axi_dma_channel) (d : device) :=
  {| channels_tx := channels_tx d; channels_rx := c;
     descriptors_tx := descriptors_tx d; descriptors_tx_addr := descriptors_tx_addr d;
     descriptors_rx := descriptors_rx d; descriptors_rx_addr := descriptors_rx_addr d;
     irq_enabled := irq_enabled d; irqs_locked := irqs_locked d;
     trace := trace d |}.

Definition set_irq_enabled (f : Z -> bool) (d : device) :=
  {| channels_tx := channels_tx d; channels_rx := channels_rx d;
     descriptors_tx := descriptors_tx d; descriptors_tx_addr := descriptors_tx_addr d;
     descriptors_rx := descriptors_rx d; descriptors_rx_addr := descriptors_rx_addr d;
     irq_enabled := f; irqs_locked := irqs_locked d;
     trace := trace d |}.

Definition set_irqs_locked (b : bool) (d : device) :=
  {| channels_tx := channels_tx d; channels_rx := channels_rx d;
     descriptors_tx := descriptors_tx d; descriptors_tx_addr := descriptors_tx_addr d;
     descriptors_rx := descriptors_rx d; descriptors_rx_addr := descriptors_rx_addr d;
     irq_enabled := irq_enabled d; irqs_locked := b;
     trace := trace d |}.

Definition emit (e : event) (d : device) :=
  {| channels_tx := channels_tx d; channels_rx := channels_rx d;
     descriptors_tx := descriptors_tx d; descriptors_tx_addr := descriptors_tx_addr d;
     descriptors_rx := descriptors_rx d; descriptors_rx_addr := descriptors_rx_addr d;
     irq_enabled := irq_enabled d; irqs_locked := irqs_locked d;
     trace := trace d ++ [e] |}.

(** [&data->channels[channel]]; the array has two elements. *)
Definition channel_data (d : device) (channel : Z) : option dma_xilinx_axi_dma_channel :=
  if channel =? XILINX_AXI_DMA_TX_CHANNEL_NUM then Some (channels_tx d)
  else if channel =? XILINX_AXI_DMA_RX_CHANNEL_NUM then Some (channels_rx d)
  else None.

Definition set_channel_data (channel : Z) (c : dma_xilinx_axi_dma_channel)
    (d : device) : device :=
  if channel =? XILINX_AXI_DMA_TX_CHANNEL_NUM then set_channels_tx c d
  else if channel =? XILINX_AXI_DMA_RX_CHANNEL_NUM then set_channels_rx c d
  else d.

(** Address of [descriptors[i]]. *)
Definition desc_addr (c : dma_xilinx_axi_dma_channel) (i : nat) : Z :=
  descriptors_addr c + SG_DESCRIPTOR_SIZE * Z.of_nat i.

(** ** Interrupt controller (Zephyr kernel API) *)

Definition irq_is_enabled (d : device) (n : Z) : bool := irq_enabled d n.

Definition irq_disable (n : Z) (d : device) : device :=
  set_irq_enabled (fun x => if x =? n then false else irq_enabled d x) d.

Definition irq_enable (n : Z) (d : device) : device :=
  set_irq_enabled (fun x => if x =? n then true else irq_enabled d x) d.

(** [irq_lock] masks every interrupt and returns the previous state as its
    key; [irq_unlock] restores the state the key records. *)
Definition irq_lock (d : device) : Z * device :=
  (Z.b2z (irqs_locked d), set_irqs_locked true d).

Definition irq_unlock (key : Z) (d : device) : device :=
  set_irqs_locked (negb (key =? 0)) d.

(** The build-time choice between [CONFIG_DMA_XILINX_AXI_DMA_LOCK_ALL_IRQS],
    [..._LOCK_DMA_IRQS] and [..._LOCK_CHANNEL_IRQ]. *)
Inductive lock_policy := LOCK_ALL_IRQS | LOCK_DMA_IRQS | LOCK_CHANNEL_IRQ.

(** Kconfig options, the cache line size and the largest [size_t] of the
    platform, and the constants of [dma_xilinx_axi_dma.h] that select the
    checksum-offload mode.  [CONFIG_ASSERT] compiles the [__ASSERT]s in. *)
Record build_config := {
  CONFIG_DMA_64BIT : bool;
  CONFIG_ASSERT : bool;
  SIZE_MAX : Z;
  CONFIG_DMA_XILINX_AXI_DMA_LOCK : lock_policy;
  CONFIG_DMA_XILINX_AXI_DMA_DISABLE_CACHE_WHEN_ACCESSING_SG_DESCRIPTORS : bool;
  sys_cache_data_line_size : Z;
  CONFIG_DMA_XILINX_AXI_DMA_INTERRUPT_THRESHOLD : Z;
  CONFIG_DMA_XILINX_AXI_DMA_INTERRUPT_TIMEOUT : Z;
  XILINX_AXI_DMA_LINKED_CHANNEL_FULL_CSUM_OFFLOAD : Z;
  XILINX_AXI_DMA_LINKED_CHANNEL_NO_CSUM_OFFLOAD : Z
}.

(** [struct dma_xilinx_axi_dma_config], with the two interrupt lines that
    the instance's generated [irq_configure] takes from the devicetree. *)
Record dma_xilinx_axi_dma_config := {
  reg : Z;
  channels : Z;
  irqn_tx : Z;
  irqn_rx : Z
}.

(** [struct dma_block_config] (the fields the driver reads); the chain
    linked by [next_block] is a list. *)
Record dma_block_config := {
  source_address : Z;
  dest_address : Z;
  block_size : Z;
  source_addr_adj : Z;
  dest_addr_adj : Z
}.

(** [struct dma_config] (the fields the driver reads): [head_block] is
    dereferenced unconditionally, so the chain is [head_block] followed by
    [next_blocks]. *)
Record dma_config := {
  channel_direction : dma_channel_direction;
  linked_channel : Z;
  head_block : dma_block_config;
  next_blocks : list dma_block_config;
  dma_callback : option Z;
  user_data : Z
}.

(** [struct dma_status]: [get_status] zeroes it and fills these two. *)
Record dma_status := {
  busy : bool;
  dir : dma_channel_direction
}.

(** ** The driver *)

Section Driver.

Variable bc : build_config.

(** [data->channels[channel_num].irq]; [None] is a read past the
    two-element array. *)
Definition chan_irq (d : device) (channel_num : Z) : option Z :=
  match channel_data d channel_num with
  | Some c => Some (irq c)
  | None => None
  end.

(** [None]: the channel's line was read past the array (only the
    per-channel policy reads [channels[channel_num]]). *)
Definition dma_xilinx_axi_dma_lock_irq (d : device) (channel_num : Z)
    : option (Z * device) :=
  let r :=
    match CONFIG_DMA_XILINX_AXI_DMA_LOCK bc with
    | LOCK_ALL_IRQS => Some (irq_lock d)
    | LOCK_DMA_IRQS =>
        let ret := Z.b2z (irq_is_enabled d (irq (channels_tx d))) in
        let ret := Z.lor ret (Z.shiftl (Z.b2z (irq_is_enabled d (irq (channels_rx d)))) 1) in
        Some (ret, irq_disable (irq (channels_rx d)) (irq_disable (irq (channels_tx d)) d))
    | LOCK_CHANNEL_IRQ =>
        match chan_irq d channel_num with
        | None => None
        | Some line => Some (Z.b2z (irq_is_enabled d line), irq_disable line d)
        end
    end in
  match r with
  | None => None
  | Some (ret, d') => Some (ret, emit (EvLockIrq channel_num ret) d')
  end.

Definition dma_xilinx_axi_dma_unlock_irq (d : device) (channel_num key : Z)
    : option device :=
  let r :=
    match CONFIG_DMA_XILINX_AXI_DMA_LOCK bc with
    | LOCK_ALL_IRQS => Some (irq_unlock key d)
    | LOCK_DMA_IRQS =>
        let d1 := if tst key 0x1 then irq_enable (irq (channels_tx d)) d else d in
        Some (if tst key 0x2 then irq_enable (irq (channels_rx d1)) d1 else d1)
    | LOCK_CHANNEL_IRQ =>
        if negb (key =? 0)
        then match chan_irq d channel_num with
             | None => None
             | Some line => Some (irq_enable line d)
             end
        else Some d
    end in
  match r with
  | None => None
  | Some d' => Some (emit (EvUnlockIrq channel_num key) d')
  end.

(** [dma_xilinx_axi_dma_unlock_irq(dev, channel, irq_key); return r;] *)
Definition unlock_and_return (d : device) (channel_num key r : Z)
    : option (Z * device) :=
  match dma_xilinx_axi_dma_unlock_irq d channel_num key with
  | None => None
  | Some d' => Some (r, d')
  end.

Definition dma_xilinx_axi_dma_write_reg (c : dma_xilinx_axi_dma_channel)
    (r val : Z) (d : device) : device :=
  emit (EvWriteReg (channel_regs c + r) val) d.

(** *** Completion sweep *)

(** The classification of one reclaimed descriptor (the value handed to the
    callback), split into the checks the source makes. *)
Definition status_has_error (current_status : Z) : bool :=
  tst current_status XILINX_AXI_DMA_SG_DESCRIPTOR_STATUS_DEC_ERR_MASK
  || tst current_status XILINX_AXI_DMA_SG_DESCRIPTOR_STATUS_SLV_ERR_MASK
  || tst current_status XILINX_AXI_DMA_SG_DESCRIPTOR_STATUS_INT_ERR_MASK.

Definition csum_fcs_err (checksum_status : Z) : bool :=
  tst checksum_status XILINX_AXI_DMA_SG_DESCRIPTOR_APP2_FCS_ERR_MASK.

Definition csum_ip_err (checksum_status : Z) : bool :=
  Z.land checksum_status XILINX_AXI_DMA_SG_DESCRIPTOR_APP2_IP_ERR_MASK
  =? XILINX_AXI_DMA_SG_DESCRIPTOR_APP2_IP_ERR_MASK.

Definition csum_udp_err (checksum_status : Z) : bool :=
  Z.land checksum_status XILINX_AXI_DMA_SG_DESCRIPTOR_APP2_UDP_ERR_MASK
  =? XILINX_AXI_DMA_SG_DESCRIPTOR_APP2_UDP_ERR_MASK.

Definition csum_tcp_err (checksum_status : Z) : bool :=
  Z.land checksum_status XILINX_AXI_DMA_SG_DESCRIPTOR_APP2_TCP_ERR_MASK
  =? XILINX_AXI_DMA_SG_DESCRIPTOR_APP2_TCP_ERR_MASK.

Definition descriptor_retval (check_csum : bool) (current_status checksum_status : Z) : Z :=
  let retval := DMA_STATUS_COMPLETE in
  let retval := if status_has_error current_status then - EFAULT else retval in
  if check_csum then
    let retval := if csum_fcs_err checksum_status then - EFAULT else retval in
    let retval := if csum_ip_err checksum_status then - EFAULT else retval in
    let retval := if csum_udp_err checksum_status then - EFAULT else retval in
    let retval := if csum_tcp_err checksum_status then - EFAULT else retval in
    retval
  else retval.

(** The loop condition: any status bit outside the transferred-length
    field. *)
Definition status_flagged (current_status : Z) : bool :=
  tst current_status (not32 XILINX_AXI_DMA_SG_DESCRIPTOR_STATUS_TRANSFERRED_MASK).

(** [i++; if (i >= num) i = 0;] *)
Definition next_index (num i : nat) : nat :=
  if (num <=? S i)%nat then 0%nat else S i.

(** One iteration of the [while] loop on the descriptor [cur] found at
    [completion_desc_index].  The callback is the caller's function: its
    invocation is recorded with the arguments it receives, and it is taken
    not to call back into the driver. *)
Definition sweep_body (channel : Z) (cd : dma_xilinx_axi_dma_channel)
    (cur : sg_descriptor) (d : device) : device :=
  let current_status := status cur in
  let i := completion_desc_index cd in
  let cd := set_last_rx_size
              (Z.land current_status XILINX_AXI_DMA_SG_DESCRIPTOR_STATUS_LENGTH_MASK) cd in
  let retval := descriptor_retval (check_csum_in_isr cd) current_status (app2 cur) in
  let d :=
    match completion_callback cd with
    | Some cb =>
        emit (EvCallback (completion_callback_user_data cd)
                (if direction_eqb (direction cd) MEMORY_TO_PERIPHERAL
                 then XILINX_AXI_DMA_TX_CHANNEL_NUM
                 else XILINX_AXI_DMA_RX_CHANNEL_NUM)
                retval) d
    | None => d
    end in
  let cd := set_descriptors (<[i := set_control 0 (set_status 0 cur)]> (descriptors cd)) cd in
  let d := emit (EvDescRelease (desc_addr cd i)) d in
  let cd := set_completion_desc_index (next_index (num_descriptors cd) i) cd in
  set_channel_data channel cd d.

(** The [while] loop.  [None] stands for a read outside the ring
    (undefined in C) or for exhausted fuel; [clean_up_total] shows that on
    a well-formed channel neither occurs. *)
Fixpoint sweep_loop (fuel : nat) (channel : Z) (processed_packets : nat)
    (d : device) : option (nat * device) :=
  match fuel with
  | O => None
  | S fuel' =>
      match channel_data d channel with
      | None => None
      | Some cd =>
          match descriptors cd !! completion_desc_index cd with
          | None => None
          | Some cur =>
              if status_flagged (status cur)
              then sweep_loop fuel' channel (S processed_packets)
                     (sweep_body channel cd cur d)
              else Some (processed_packets, d)
          end
      end
  end.

(** [channel] selects the [channel_data] the ISR passes. *)
Definition dma_xilinx_axi_dma_clean_up_sg_descriptors (d : device) (channel : Z)
    : option (nat * device) :=
  match channel_data d channel with
  | None => None
  | Some cd => sweep_loop (S (length (descriptors cd))) channel 0%nat d
  end.

(** [dma_xilinx_axi_dma_tx_isr] and [dma_xilinx_axi_dma_rx_isr] differ only
    in the channel; [dmasr] is the value read from the status register. *)
Definition channel_isr (channel : Z) (d : device) (dmasr : Z) : option device :=
  match channel_data d channel with
  | None => None
  | Some cd =>
      let was_enabled := irq_is_enabled d (irq cd) in
      let d := irq_disable (irq cd) d in
      let d :=
        if tst dmasr XILINX_AXI_DMA_REGS_DMASR_ERR_IRQ
        then dma_xilinx_axi_dma_write_reg cd XILINX_AXI_DMA_REG_DMASR
               XILINX_AXI_DMA_REGS_DMASR_ERR_IRQ d
        else d in
      let cause := Z.lor XILINX_AXI_DMA_REGS_DMASR_IOC_IRQ XILINX_AXI_DMA_REGS_DMASR_DLY_IRQ in
      let r :=
        if tst dmasr cause
        then
          match dma_xilinx_axi_dma_clean_up_sg_descriptors
                  (dma_xilinx_axi_dma_write_reg cd XILINX_AXI_DMA_REG_DMASR
                     (Z.land dmasr cause) d) channel with
          | None => None
          | Some (_, d') => Some d'
          end
        else Some d in
      match r with
      | None => None
      | Some d => Some (if was_enabled then irq_enable (irq cd) d else d)
      end
  end.

Definition dma_xilinx_axi_dma_tx_isr := channel_isr XILINX_AXI_DMA_TX_CHANNEL_NUM.
Definition dma_xilinx_axi_dma_rx_isr := channel_isr XILINX_AXI_DMA_RX_CHANNEL_NUM.

(** *** Submission *)

Definition rx_misaligned (buffer_addr block_size : Z) : bool :=
  CONFIG_DMA_XILINX_AXI_DMA_DISABLE_CACHE_WHEN_ACCESSING_SG_DESCRIPTORS bc
  && (negb (Z.land buffer_addr (sys_cache_data_line_size bc - 1) =? 0)
      || negb (Z.land block_size (sys_cache_data_line_size bc - 1) =? 0)).

Definition write_buffer_address (buffer_addr : Z) (cur : sg_descriptor) : sg_descriptor :=
  if CONFIG_DMA_64BIT bc
  then set_buffer_address_msb (Z.shiftr buffer_addr 32 mod 2^32)
         (set_buffer_address (Z.land buffer_addr 0xffffffff) cur)
  else set_buffer_address (buffer_addr mod 2^32) cur.

Definition control_word (block_size : Z) (is_first is_last : bool) : Z :=
  let c := block_size mod 2^32 in
  let c := if is_first then Z.lor c XILINX_AXI_DMA_SG_DESCRIPTOR_CTRL_SOF_MASK else c in
  if is_last then Z.lor c XILINX_AXI_DMA_SG_DESCRIPTOR_CTRL_EOF_MASK else c.

(** [None]: [channel] is not one of the two channels, or the next slot
    lies outside the array; both are accesses outside an array in C. *)
Definition dma_xilinx_axi_dma_transfer_block (d : device) (channel : Z)
    (buffer_addr block_size : Z) (is_first is_last : bool) : option (Z * device) :=
  match channel_data d channel with
  | None => None
  | Some channel_data0 =>
      match dma_xilinx_axi_dma_lock_irq d channel with
      | None => None
      | Some (irq_key, d) =>
          let next_desc_index :=
            next_index (num_descriptors channel_data0)
              (populated_desc_index channel_data0) in
          match descriptors channel_data0 !! next_desc_index with
          | None => None
          | Some cur =>
              if negb (control cur =? 0) || negb (status cur =? 0)
              then unlock_and_return d channel irq_key (- EBUSY)
              else if negb (channel =? XILINX_AXI_DMA_TX_CHANNEL_NUM)
                      && rx_misaligned buffer_addr block_size
              then unlock_and_return d channel irq_key (- EINVAL)
              else
                let cur := write_buffer_address buffer_addr cur in
                let cur := set_app0 (sg_desc_app0 channel_data0) cur in
                if block_size >? UINT32_MAX
                then
                  let cd := set_descriptors
                              (<[next_desc_index := cur]> (descriptors channel_data0))
                              channel_data0 in
                  unlock_and_return (set_channel_data channel cd d) channel irq_key
                    (- EINVAL)
                else
                  let cur := set_control (control_word block_size is_first is_last) cur in
                  let cd := set_descriptors
                              (<[next_desc_index := cur]> (descriptors channel_data0))
                              channel_data0 in
                  let cd := set_populated_desc_index next_desc_index cd in
                  unlock_and_return (set_channel_data channel cd d) channel irq_key 0
          end
      end
  end.

Definition dma_xilinx_axi_dma_config_reload (cfg : dma_xilinx_axi_dma_config)
    (d : device) (channel src dst size : Z) : option (Z * device) :=
  if channel >=? channels cfg then Some (- EINVAL, d)
  else dma_xilinx_axi_dma_transfer_block d channel
         (if channel =? XILINX_AXI_DMA_TX_CHANNEL_NUM then src else dst)
         size true true.

(** *** Start, stop, status *)

Definition start_control : Z :=
  let new_control := 0 in
  let new_control := Z.lor new_control XILINX_AXI_DMA_REGS_DMACR_RS in
  let new_control := Z.land new_control (not32 XILINX_AXI_DMA_REGS_DMACR_RESET) in
  let new_control := Z.land new_control (not32 XILINX_AXI_DMA_REGS_DMACR_KEYHOLE) in
  let new_control := Z.land new_control (not32 XILINX_AXI_DMA_REGS_DMACR_CYC_BD_EN) in
  let new_control := Z.lor new_control XILINX_AXI_DMA_REGS_DMACR_IOC_IRQEN in
  let new_control := Z.lor new_control XILINX_AXI_DMA_REGS_DMACR_DLY_IRQEN in
  let new_control := Z.lor new_control XILINX_AXI_DMA_REGS_DMACR_ERR_IRQEN in
  let new_control :=
    Z.lor new_control
      (Z.shiftl (CONFIG_DMA_XILINX_AXI_DMA_INTERRUPT_THRESHOLD bc)
         XILINX_AXI_DMA_REGS_DMACR_IRQTHRESH_SHIFT_BITS) in
  Z.lor new_control
    (Z.shiftl (CONFIG_DMA_XILINX_AXI_DMA_INTERRUPT_TIMEOUT bc)
       XILINX_AXI_DMA_REGS_DMACR_IRQDELAY_SHIFT_BITS).

(** Writes the address [a] of a descriptor to the register pair at [r]. *)
Definition write_desc_reg (c : dma_xilinx_axi_dma_channel) (r r_msb a : Z)
    (d : device) : device :=
  if CONFIG_DMA_64BIT bc
  then dma_xilinx_axi_dma_write_reg c r_msb (Z.shiftr a 32 mod 2^32)
         (dma_xilinx_axi_dma_write_reg c r (Z.land a 0xffffffff) d)
  else dma_xilinx_axi_dma_write_reg c r (a mod 2^32) d.

(** [dmasr] is the value read from the status register.  The exclusion
    is acquired before [channel] is checked. *)
Definition dma_xilinx_axi_dma_start (cfg : dma_xilinx_axi_dma_config) (d : device)
    (channel : Z) (dmasr : Z) : option (Z * device) :=
  match dma_xilinx_axi_dma_lock_irq d channel with
  | None => None
  | Some (irq_key, d) =>
      if channel >=? channels cfg
      then unlock_and_return d channel irq_key (- EINVAL)
      else
        match channel_data d channel with
        | None => None
        | Some cd =>
            let current_descriptor := desc_addr cd (populated_desc_index cd) in
            let d :=
              if tst dmasr XILINX_AXI_DMA_REGS_DMASR_HALTED
              then dma_xilinx_axi_dma_write_reg cd XILINX_AXI_DMA_REG_DMACR
                     start_control d
              else d in
            let d := write_desc_reg cd XILINX_AXI_DMA_REG_TAILDESC
                       XILINX_AXI_DMA_REG_TAILDESC_MSB current_descriptor d in
            unlock_and_return d channel irq_key 0
        end
  end.

(** [dmacr] is the value read from the control register. *)
Definition dma_xilinx_axi_dma_stop (cfg : dma_xilinx_axi_dma_config) (d : device)
    (channel : Z) (dmacr : Z) : option (Z * device) :=
  if channel >=? channels cfg then Some (- EINVAL, d)
  else
    match channel_data d channel with
    | None => None
    | Some cd =>
        let new_control := Z.land dmacr (not32 XILINX_AXI_DMA_REGS_DMACR_RS) in
        Some (0, dma_xilinx_axi_dma_write_reg cd XILINX_AXI_DMA_REG_DMACR new_control d)
    end.

(** [dmasr1] and [dmasr2] are the two reads of the status register; [stat]
    is the caller's structure, returned unchanged on rejection. *)
Definition dma_xilinx_axi_dma_get_status (cfg : dma_xilinx_axi_dma_config)
    (d : device) (channel : Z) (stat : dma_status) (dmasr1 dmasr2 : Z)
    : option (Z * dma_status) :=
  if channel >=? channels cfg then Some (- EINVAL, stat)
  else
    match channel_data d channel with
    | None => None
    | Some cd =>
        Some (0, {| busy := negb (tst dmasr1 XILINX_AXI_DMA_REGS_DMASR_IDLE)
                            && negb (tst dmasr2 XILINX_AXI_DMA_REGS_DMASR_HALTED);
                    dir := direction cd |})
    end.

(** *** Configuration *)

(** [n - 1] on [size_t]: 0 wraps around to [SIZE_MAX]. *)
Definition size_t_pred (n : nat) : nat :=
  if (n =? 0)%nat then Z.to_nat (SIZE_MAX bc) else (n - 1)%nat.

(** The address [nextdesc] that the [for] loop of [configure] computes for
    [descriptors[i]]. *)
Definition next_link (c : dma_xilinx_axi_dma_channel) (i : nat) : Z :=
  if (S i <? num_descriptors c)%nat then desc_addr c (S i) else desc_addr c 0.

(** The stores of the loop body into [descriptors[i]]. *)
Definition linked (c : dma_xilinx_axi_dma_channel) (i : nat)
    (cur : sg_descriptor) : sg_descriptor :=
  let nextdesc := next_link c i in
  let cur := set_nxtdesc (Z.land nextdesc 0xffffffff) cur in
  if CONFIG_DMA_64BIT bc
  then set_nxtdesc_msb (Z.land (Z.shiftr nextdesc 32) 0xffffffff) cur
  else cur.

(** The test of the loop's [__ASSERT] as C parses it: [==] binds tighter
    than [&], so it is [nextdesc & (ADDRESS_MASK == 0)]. *)
Definition link_assert_test (nextdesc : Z) : bool :=
  tst nextdesc (Z.b2z (XILINX_AXI_DMA_SG_DESCRIPTOR_ADDRESS_MASK =? 0)).

(** The body of the loop on [descriptors[i]].  [None]: the [__ASSERT],
    compiled in by [CONFIG_ASSERT], failed, and the call does not
    return. *)
Definition link_descriptor (c : dma_xilinx_axi_dma_channel) (i : nat)
    (cur : sg_descriptor) : option sg_descriptor :=
  if CONFIG_ASSERT bc && negb (link_assert_test (next_link c i)) then None
  else Some (linked c i cur).

(** [count] iterations of the loop, from index [i]. *)
Fixpoint link_descriptors (count i : nat) (c : dma_xilinx_axi_dma_channel)
    : option dma_xilinx_axi_dma_channel :=
  match count with
  | O => Some c
  | S count' =>
      match descriptors c !! i with
      | None => None
      | Some cur =>
          match link_descriptor c i cur with
          | None => None
          | Some cur =>
              link_descriptors count' (S i)
                (set_descriptors (<[i := cur]> (descriptors c)) c)
          end
      end
  end.

(** From the reset of the two cursors to the write of the current-descriptor
    register: everything [configure] does to the ring before the first
    submission. *)
Definition configure_ring (d : device) (channel : Z) : option device :=
  match channel_data d channel with
  | None => None
  | Some cd =>
      let cd := set_populated_desc_index (size_t_pred (num_descriptors cd)) cd in
      let cd := set_completion_desc_index 0%nat cd in
      match link_descriptors (num_descriptors cd) 0%nat cd with
      | None => None
      | Some cd =>
          let d := set_channel_data channel cd d in
          Some (write_desc_reg cd XILINX_AXI_DMA_REG_CURDESC
                  XILINX_AXI_DMA_REG_CURDESC_MSB (desc_addr cd 0) d)
      end
  end.

(** The [switch] on [linked_channel]; [None] is its [default] branch. *)
Definition configure_offload (channel linked : Z) (cd : dma_xilinx_axi_dma_channel)
    : option dma_xilinx_axi_dma_channel :=
  let cd := set_check_csum_in_isr false cd in
  if linked =? XILINX_AXI_DMA_LINKED_CHANNEL_FULL_CSUM_OFFLOAD bc then
    if channel =? XILINX_AXI_DMA_TX_CHANNEL_NUM
    then Some (set_sg_desc_app0
                 XILINX_AXI_DMA_SG_DESCRIPTOR_APP0_CHECKSUM_OFFLOAD_FULL cd)
    else Some (set_check_csum_in_isr true cd)
  else if linked =? XILINX_AXI_DMA_LINKED_CHANNEL_NO_CSUM_OFFLOAD bc then
    Some (set_sg_desc_app0 XILINX_AXI_DMA_SG_DESCRIPTOR_APP0_CHECKSUM_OFFLOAD_NONE cd)
  else None.

Definition block_address (channel : Z) (b : dma_block_config) : Z :=
  if channel =? XILINX_AXI_DMA_TX_CHANNEL_NUM then source_address b else dest_address b.

(** The [do ... while] loop over the block chain; [ret = ret || f(...)]
    leaves 0 or 1 in [ret] and does not call [f] once [ret] is non-zero. *)
Fixpoint transfer_chain (d : device) (channel ret : Z) (block_count : nat)
    (current_block : dma_block_config) (rest : list dma_block_config)
    : option (Z * device) :=
  let step :=
    if negb (ret =? 0) then Some (1, d)
    else
      match dma_xilinx_axi_dma_transfer_block d channel
              (block_address channel current_block) (block_size current_block)
              (block_count =? 0)%nat
              (match rest with [] => true | _ => false end) with
      | None => None
      | Some (r, d') => Some (if r =? 0 then 0 else 1, d')
      end in
  match step with
  | None => None
  | Some (ret, d) =>
      match rest with
      | [] => Some (ret, d)
      | next_block :: rest' =>
          if ret =? 0
          then transfer_chain d channel ret (S block_count) next_block rest'
          else Some (ret, d)
      end
  end.

(** The checks [configure] makes before it touches the device; [Some e] is
    the error returned. *)
Definition configure_rejects (cfg : dma_xilinx_axi_dma_config) (channel : Z)
    (dma_cfg : dma_config) : option Z :=
  let hb := head_block dma_cfg in
  if channel >=? channels cfg then Some (- EINVAL)
  else if source_addr_adj hb =? DMA_ADDR_ADJ_DECREMENT then Some (- ENOTSUP)
  else if dest_addr_adj hb =? DMA_ADDR_ADJ_DECREMENT then Some (- ENOTSUP)
  else if negb (source_addr_adj hb =? DMA_ADDR_ADJ_INCREMENT)
          && negb (source_addr_adj hb =? DMA_ADDR_ADJ_NO_CHANGE) then Some (- ENOTSUP)
  else if negb (dest_addr_adj hb =? DMA_ADDR_ADJ_INCREMENT)
          && negb (dest_addr_adj hb =? DMA_ADDR_ADJ_NO_CHANGE) then Some (- ENOTSUP)
  else if (channel =? XILINX_AXI_DMA_TX_CHANNEL_NUM)
          && negb (direction_eqb (channel_direction dma_cfg) MEMORY_TO_PERIPHERAL)
       then Some (- ENOTSUP)
  else if (channel =? XILINX_AXI_DMA_RX_CHANNEL_NUM)
          && negb (direction_eqb (channel_direction dma_cfg) PERIPHERAL_TO_MEMORY)
       then Some (- ENOTSUP)
  else None.

(** [configure] up to its [do ... while] loop: [inl (e, d)] is an early
    return of [e], [inr d] the device on which the loop starts. *)
Definition configure_setup (cfg : dma_xilinx_axi_dma_config)
    (d : device) (channel : Z) (dma_cfg : dma_config)
    : option (Z * device + device) :=
  match configure_rejects cfg channel dma_cfg with
  | Some e => Some (inl (e, d))
  | None =>
      match configure_ring d channel with
      | None => None
      | Some d =>
          match channel_data d channel with
          | None => None
          | Some cd =>
              match configure_offload channel (linked_channel dma_cfg) cd with
              | None =>
                  Some (inl (- EINVAL,
                             set_channel_data channel
                               (set_check_csum_in_isr false cd) d))
              | Some cd =>
                  Some (inr (set_channel_data channel
                               (set_completion_callback (dma_callback dma_cfg)
                                  (user_data dma_cfg) cd) d))
              end
          end
      end
  end.

Definition dma_xilinx_axi_dma_configure (cfg : dma_xilinx_axi_dma_config)
    (d : device) (channel : Z) (dma_cfg : dma_config) : option (Z * device) :=
  match configure_setup cfg d channel dma_cfg with
  | None => None
  | Some (inl early) => Some early
  | Some (inr d) =>
      transfer_chain d channel 0 0%nat (head_block dma_cfg) (next_blocks dma_cfg)
  end.

(** *** Initialisation *)

(** The instance's [irq_configure], generated by [XILINX_AXI_DMA_INIT]. *)
Definition irq_configure (cfg : dma_xilinx_axi_dma_config) (d : device) : device :=
  let d := set_channels_tx (set_irq (irqn_tx cfg) (channels_tx d)) d in
  let d := emit (EvIrqConnect (irqn_tx cfg) XILINX_AXI_DMA_TX_CHANNEL_NUM) d in
  let d := irq_enable (irqn_tx cfg) d in
  let d := set_channels_rx (set_irq (irqn_rx cfg) (channels_rx d)) d in
  let d := emit (EvIrqConnect (irqn_rx cfg) XILINX_AXI_DMA_RX_CHANNEL_NUM) d in
  irq_enable (irqn_rx cfg) d.

(** The bounded poll: [count] iterations remain, [i] reads were made;
    [dmacr_reads i] is the value of the [i]-th read of the control
    register. *)
Fixpoint reset_poll (count i : nat) (dmacr_reads : nat -> Z) (d : device)
    : bool * device :=
  match count with
  | O => (false, d)
  | S count' =>
      if tst (dmacr_reads i) XILINX_AXI_DMA_REGS_DMACR_RESET
      then reset_poll count' (S i) dmacr_reads (emit (EvSleep 1) d)
      else (true, d)
  end.

Definition RESET_POLL_RETRIES : nat := 1000.

Definition dma_xilinx_axi_dma_init (cfg : dma_xilinx_axi_dma_config) (d : device)
    (dmacr_reads : nat -> Z) : Z * device :=
  if negb (channels cfg =? XILINX_AXI_DMA_NUM_CHANNELS) then (- EINVAL, d)
  else
    let tx := bind_storage (descriptors_tx d) (descriptors_tx_addr d)
                (reg cfg + XILINX_AXI_DMA_MM2S_REG_OFFSET) (channels_tx d) in
    let tx := set_direction MEMORY_TO_PERIPHERAL tx in
    let rx := bind_storage (descriptors_rx d) (descriptors_rx_addr d)
                (reg cfg + XILINX_AXI_DMA_S2MM_REG_OFFSET) (channels_rx d) in
    (* the source assigns to channels[XILINX_AXI_DMA_TX_CHANNEL_NUM] here *)
    let tx := set_direction PERIPHERAL_TO_MEMORY tx in
    let d := set_channels_rx rx (set_channels_tx tx d) in
    let d := dma_xilinx_axi_dma_write_reg rx XILINX_AXI_DMA_REG_DMACR
               XILINX_AXI_DMA_REGS_DMACR_RESET d in
    let '(reset, d) := reset_poll RESET_POLL_RETRIES 0%nat dmacr_reads d in
    if negb reset then (- EIO, d)
    else (0, irq_configure cfg d).

End Driver.

(** ** Vocabulary of the properties *)

(** A slot is free when its control and status words are both zero. *)
Definition slot_free (cur : sg_descriptor) : Prop :=
  control cur = 0 /\ status cur = 0.

Definition slot_freeb (cur : sg_descriptor) : bool :=
  (control cur =? 0) && (status cur =? 0).

(** The ring is fully drained. *)
Definition ring_drained (c : dma_xilinx_axi_dma_channel) : Prop :=
  forall i cur, descriptors c !! i = Some cur -> slot_free cur.

Definition ring_drainedb (c : dma_xilinx_axi_dma_channel) : bool :=
  forallb slot_freeb (descriptors c).

(** The channel's array has the length it records, and both cursors lie
    inside it: what [init] and [configure] establish. *)
Definition channel_wf (c : dma_xilinx_axi_dma_channel) : Prop :=
  num_descriptors c = length (descriptors c)
  /\ (populated_desc_index c < num_descriptors c)%nat
  /\ (completion_desc_index c < num_descriptors c)%nat.

(** The interrupt controller is in the same state in [d'] as in [d]. *)
Definition irq_state_restored (d d' : device) : Prop :=
  (forall n, irq_enabled d' n = irq_enabled d n)
  /\ irqs_locked d' = irqs_locked d.

Definition is_lock_event (e : event) : bool :=
  match e with
  | EvLockIrq _ _ | EvUnlockIrq _ _ => true
  | _ => false
  end.

(** The events of [d'] that follow those of [d] are one acquisition of the
    exclusion, events that neither acquire nor release it, and one release
    with the key the acquisition returned. *)
Definition locked_section (channel : Z) (d d' : device) : Prop :=
  exists key middle,
    trace d' = trace d ++ EvLockIrq channel key :: middle ++ [EvUnlockIrq channel key]
    /\ forallb (fun e => negb (is_lock_event e)) middle = true.

(** What may happen to the device between acquisition and release without
    disturbing the exclusion: the controller and the lines recorded in the
    channels are untouched. *)
Definition exclusion_kept (dl dm : device) : Prop :=
  irq_enabled dm = irq_enabled dl
  /\ irqs_locked dm = irqs_locked dl
  /\ irq (channels_tx dm) = irq (channels_tx dl)
  /\ irq (channels_rx dm) = irq (channels_rx dl).

(** The descriptor a successful submission stores over [cur], and the one
    left behind when the length check rejects the block. *)
Definition populated_descriptor (bc : build_config) (cd : dma_xilinx_axi_dma_channel)
    (buffer_addr block_size : Z) (is_first is_last : bool) (cur : sg_descriptor)
    : sg_descriptor :=
  set_control (control_word block_size is_first is_last)
    (set_app0 (sg_desc_app0 cd) (write_buffer_address bc buffer_addr cur)).

Definition addressed_descriptor (bc : build_config) (cd : dma_xilinx_axi_dma_channel)
    (buffer_addr : Z) (cur : sg_descriptor) : sg_descriptor :=
  set_app0 (sg_desc_app0 cd) (write_buffer_address bc buffer_addr cur).

(** The results handed to the completion callback, in order. *)
Definition callback_results (tr : list event) : list Z :=
  flat_map (fun e => match e with EvCallback _ _ s => [s] | _ => [] end) tr.

Definition is_irq_connect (e : event) : bool :=
  match e with
  | EvIrqConnect _ _ => true
  | _ => false
  end.

(** *** The block chain as the specification words it *)

(** Each block with its [is_first] and [is_last] flags: the first block
    only is first, the last block only is last. *)
Definition mark_chain (blocks : list dma_block_config)
    : list (dma_block_config * bool * bool) :=
  imap (fun i b => (b, (i =? 0)%nat, (S i =? length blocks)%nat)) blocks.

(** Submit the marked blocks in order and stop at the first one that is
    not accepted. *)
Fixpoint submit_marked (bc : build_config) (d : device) (channel : Z)
    (l : list (dma_block_config * bool * bool)) : option (Z * device) :=
  match l with
  | [] => Some (0, d)
  | (b, is_first, is_last) :: l' =>
      match dma_xilinx_axi_dma_transfer_block bc d channel
              (block_address channel b) (block_size b) is_first is_last with
      | None => None
      | Some (r, d') => if r =? 0 then submit_marked bc d' channel l' else Some (1, d')
      end
  end.

(** *** Runs of one channel against the DMA engine *)

(** The operations on one channel: a submission, a completion sweep, and
    the DMA engine storing a status word into slot [i]. *)
Inductive ring_op :=
  | OpSubmit (buffer_addr block_size : Z) (is_first is_last : bool)
  | OpSweep
  | OpHardware (i : nat) (st : Z).

(** A device together with the number of submissions accepted and the
    number of descriptors reclaimed since the ring was configured; the
    two counters are computed from the return values of the driver. *)
Record ring_run := {
  run_dev : device;
  submitted : nat;
  completed : nat
}.

(** Slot [i] holds one of the descriptors submitted and not yet
    reclaimed. *)
Definition in_flight (n completed_ submitted_ i : nat) : bool :=
  existsb (fun k => (k mod n =? i)%nat) (seq completed_ (submitted_ - completed_)).

Definition hardware_store (channel : Z) (i : nat) (st : Z) (d : device) : device :=
  match channel_data d channel with
  | None => d
  | Some cd =>
      match descriptors cd !! i with
      | None => d
      | Some cur =>
          set_channel_data channel
            (set_descriptors (<[i := set_status st cur]> (descriptors cd)) cd) d
      end
  end.

(** The engine is trusted to write only the status of descriptors that are
    in flight; a store elsewhere is not a behaviour of the engine and is
    dropped. *)
Definition run_op (bc : build_config) (channel : Z) (s : ring_run) (op : ring_op)
    : option ring_run :=
  match op with
  | OpSubmit buffer_addr block_size is_first is_last =>
      match dma_xilinx_axi_dma_transfer_block bc (run_dev s) channel
              buffer_addr block_size is_first is_last with
      | None => None
      | Some (r, d') =>
          Some {| run_dev := d';
                  submitted := if r =? 0 then S (submitted s) else submitted s;
                  completed := completed s |}
      end
  | OpSweep =>
      match dma_xilinx_axi_dma_clean_up_sg_descriptors (run_dev s) channel with
      | None => None
      | Some (k, d') =>
          Some {| run_dev := d'; submitted := submitted s;
                  completed := (completed s + k)%nat |}
      end
  | OpHardware i st =>
      match channel_data (run_dev s) channel with
      | None => None
      | Some cd =>
          if in_flight (num_descriptors cd) (completed s) (submitted s) i
          then Some {| run_dev := hardware_store channel i st (run_dev s);
                       submitted := submitted s; completed := completed s |}
          else Some s
      end
  end.

Fixpoint run_ops (bc : build_config) (channel : Z) (s : ring_run)
    (ops : list ring_op) : option ring_run :=
  match ops with
  | [] => Some s
  | op :: ops' =>
      match run_op bc channel s op with
      | None => None
      | Some s' => run_ops bc channel s' ops'
      end
  end.

(** A channel as [configure] leaves the ring of a device whose storage is
    still zero-initialised: cursors reset, every slot free. *)
Definition freshly_configured (c : dma_xilinx_axi_dma_channel) : Prop :=
  num_descriptors c = length (descriptors c)
  /\ (0 < num_descriptors c)%nat
  /\ populated_desc_index c = (num_descriptors c - 1)%nat
  /\ completion_desc_index c = 0%nat
  /\ ring_drained c.


(** *** Reclaiming *)

Definition is_release (e : event) : bool :=
  match e with
  | EvDescRelease _ => true
  | _ => false
  end.

(** Every slot of [c] that is not free has the same control and status
    words in [c']. *)
Definition keeps_busy_slots (c c' : dma_xilinx_axi_dma_channel) : Prop :=
  forall i cur,
    descriptors c !! i = Some cur -> ~ slot_free cur ->
    exists cur', descriptors c' !! i = Some cur'
                 /\ control cur' = control cur /\ status cur' = status cur.

(** Between [d] and [d'] no descriptor was released. *)
Definition no_reclaim (d d' : device) : Prop :=
  keeps_busy_slots (channels_tx d) (channels_tx d')
  /\ keeps_busy_slots (channels_rx d) (channels_rx d')
  /\ List.filter is_release (trace d') = List.filter is_release (trace d).

Definition same_completion_index (d d' : device) : Prop :=
  completion_desc_index (channels_tx d') = completion_desc_index (channels_tx d)
  /\ completion_desc_index (channels_rx d') = completion_desc_index (channels_rx d).

(** The channel number the sweep hands to the callback. *)
Definition callback_channel (c : dma_xilinx_axi_dma_channel) : Z :=
  if direction_eqb (direction c) MEMORY_TO_PERIPHERAL
  then XILINX_AXI_DMA_TX_CHANNEL_NUM
  else XILINX_AXI_DMA_RX_CHANNEL_NUM.

(** The events of reclaiming slot [i] of [c]: the callback invocation, if
    a callback is registered, then the release of the slot. *)
Definition reclaim_events (c : dma_xilinx_axi_dma_channel) (i : nat) : list event :=
  match descriptors c !! i with
  | None => []
  | Some cur =>
      match completion_callback c with
      | Some _ =>
          [EvCallback (completion_callback_user_data c) (callback_channel c)
             (descriptor_retval (check_csum_in_isr c) (status cur) (app2 cur))]
      | None => []
      end
      ++ [EvDescRelease (desc_addr c i)]
  end.

(** [k] consecutive slots of a ring of [num] slots, from slot [i] on. *)
Fixpoint ring_walk (num i k : nat) : list nat :=
  match k with
  | O => []
  | S k' => i :: ring_walk num (next_index num i) k'
  end.

(** The [k] slots from the consumer cursor of [c] on, in ring order. *)
Definition swept_slots (c : dma_xilinx_axi_dma_channel) (k : nat) : list nat :=
  ring_walk (num_descriptors c) (completion_desc_index c) k.

(** The store [control = status = 0]. *)
Definition released (cur : sg_descriptor) : sg_descriptor :=
  set_control 0 (set_status 0 cur).

(** The number of descriptors whose status the sweep would act on. *)
Definition count_flagged (ring : list sg_descriptor) : nat :=
  length (List.filter (fun cur => status_flagged (status cur)) ring).

Definition slot_flagged (c : dma_xilinx_axi_dma_channel) (i : nat) : Prop :=
  exists cur, descriptors c !! i = Some cur /\ status_flagged (status cur) = true.

(** The consumer cursors of [d'] are those of [d], or were reset to 0. *)
Definition completion_kept_or_reset (d d' : device) : Prop :=
  (completion_desc_index (channels_tx d') = completion_desc_index (channels_tx d)
   \/ completion_desc_index (channels_tx d') = 0%nat)
  /\ (completion_desc_index (channels_rx d') = completion_desc_index (channels_rx d)
      \/ completion_desc_index (channels_rx d') = 0%nat).

(** The ring invariant, for a channel on which [submitted_] submissions
    were accepted and [completed_] descriptors reclaimed: the cursors are
    the two counters modulo the capacity, the consumer has not overtaken
    the producer, and every slot that is not in flight is free. *)
Definition ring_inv (c : dma_xilinx_axi_dma_channel) (submitted_ completed_ : nat)
    : Prop :=
  num_descriptors c = length (descriptors c)
  /\ (0 < num_descriptors c)%nat
  /\ completion_desc_index c = (completed_ mod num_descriptors c)%nat
  /\ populated_desc_index c
     = ((submitted_ + num_descriptors c - 1) mod num_descriptors c)%nat
  /\ (completed_ <= submitted_)%nat
  /\ (forall i cur,
        descriptors c !! i = Some cur ->
        in_flight (num_descriptors c) completed_ submitted_ i = false ->
        slot_free cur).

(** What holds in addition when every accepted submission stored a
    non-zero control word: at most a ring-full of descriptors is in
    flight, and each of them has a non-zero control word. *)
Definition ring_inv_strict (c : dma_xilinx_axi_dma_channel)
    (submitted_ completed_ : nat) : Prop :=
  (submitted_ <= completed_ + num_descriptors c)%nat
  /\ (forall i cur,
        descriptors c !! i = Some cur ->
        in_flight (num_descriptors c) completed_ submitted_ i = true ->
        control cur <> 0).

(** ** Concrete devices *)

Definition zero_channel : dma_xilinx_axi_dma_channel :=
  {| descriptors := []; descriptors_addr := 0; num_descriptors := 0;
     populated_desc_index := 0; completion_desc_index := 0;
     channel_regs := 0; irq := 0; direction := MEMORY_TO_MEMORY;
     completion_callback := None; completion_callback_user_data := 0;
     last_rx_size := 0; sg_desc_app0 := 0; check_csum_in_isr := false |}.

(** The device as the loader leaves it: zero-initialised storage with
    [ntx] and [nrx] descriptors, no interrupt line enabled. *)
Definition zero_device (ntx nrx : nat) : device :=
  {| channels_tx := zero_channel; channels_rx := zero_channel;
     descriptors_tx := replicate ntx zero_descriptor;
     descriptors_tx_addr := 0x10000;
     descriptors_rx := replicate nrx zero_descriptor;
     descriptors_rx_addr := 0x20000;
     irq_enabled := fun _ => false; irqs_locked := false; trace := [] |}.

Definition sample_build : build_config :=
  {| CONFIG_DMA_64BIT := false;
     CONFIG_ASSERT := false;
     SIZE_MAX := 0xFFFFFFFF;
     CONFIG_DMA_XILINX_AXI_DMA_LOCK := LOCK_CHANNEL_IRQ;
     CONFIG_DMA_XILINX_AXI_DMA_DISABLE_CACHE_WHEN_ACCESSING_SG_DESCRIPTORS := true;
     sys_cache_data_line_size := 64;
     CONFIG_DMA_XILINX_AXI_DMA_INTERRUPT_THRESHOLD := 1;
     CONFIG_DMA_XILINX_AXI_DMA_INTERRUPT_TIMEOUT := 16;
     XILINX_AXI_DMA_LINKED_CHANNEL_FULL_CSUM_OFFLOAD := 1;
     XILINX_AXI_DMA_LINKED_CHANNEL_NO_CSUM_OFFLOAD := 0 |}.

(** The same build with the policy that disables both lines of the
    device, which reads no channel by its number. *)
Definition shared_lock_build : build_config :=
  {| CONFIG_DMA_64BIT := false;
     CONFIG_ASSERT := false;
     SIZE_MAX := 0xFFFFFFFF;
     CONFIG_DMA_XILINX_AXI_DMA_LOCK := LOCK_DMA_IRQS;
     CONFIG_DMA_XILINX_AXI_DMA_DISABLE_CACHE_WHEN_ACCESSING_SG_DESCRIPTORS := true;
     sys_cache_data_line_size := 64;
     CONFIG_DMA_XILINX_AXI_DMA_INTERRUPT_THRESHOLD := 1;
     CONFIG_DMA_XILINX_AXI_DMA_INTERRUPT_TIMEOUT := 16;
     XILINX_AXI_DMA_LINKED_CHANNEL_FULL_CSUM_OFFLOAD := 1;
     XILINX_AXI_DMA_LINKED_CHANNEL_NO_CSUM_OFFLOAD := 0 |}.

(** The sample build with assertions compiled in. *)
Definition assert_build : build_config :=
  {| CONFIG_DMA_64BIT := false;
     CONFIG_ASSERT := true;
     SIZE_MAX := 0xFFFFFFFF;
     CONFIG_DMA_XILINX_AXI_DMA_LOCK := LOCK_CHANNEL_IRQ;
     CONFIG_DMA_XILINX_AXI_DMA_DISABLE_CACHE_WHEN_ACCESSING_SG_DESCRIPTORS := true;
     sys_cache_data_line_size := 64;
     CONFIG_DMA_XILINX_AXI_DMA_INTERRUPT_THRESHOLD := 1;
     CONFIG_DMA_XILINX_AXI_DMA_INTERRUPT_TIMEOUT := 16;
     XILINX_AXI_DMA_LINKED_CHANNEL_FULL_CSUM_OFFLOAD := 1;
     XILINX_AXI_DMA_LINKED_CHANNEL_NO_CSUM_OFFLOAD := 0 |}.

Definition sample_config : dma_xilinx_axi_dma_config :=
  {| reg := 0x40400000; channels := 2; irqn_tx := 29; irqn_rx := 30 |}.

(** Reads of the control register that show the reset bit cleared at
    once, and reads that never show it cleared. *)
Definition reset_done : nat -> Z := fun _ => 0.
Definition reset_stuck : nat -> Z := fun _ => XILINX_AXI_DMA_REGS_DMACR_RESET.

(** The device after a successful [init]. *)
Definition booted_device (ntx nrx : nat) : device :=
  snd (dma_xilinx_axi_dma_init sample_config (zero_device ntx nrx) reset_done).

Definition sample_block (size : Z) : dma_block_config :=
  {| source_address := 0x80000000; dest_address := 0x80001000;
     block_size := size; source_addr_adj := DMA_ADDR_ADJ_INCREMENT;
     dest_addr_adj := DMA_ADDR_ADJ_INCREMENT |}.

(** A send configuration whose chain is a block of 100 bytes followed by
    [blocks]. *)
Definition sample_dma_config (linked : Z) (cb : option Z)
    (blocks : list dma_block_config) : dma_config :=
  {| channel_direction := MEMORY_TO_PERIPHERAL;
     linked_channel := linked;
     head_block := sample_block 100;
     next_blocks := blocks;
     dma_callback := cb;
     user_data := 7 |}.

(** The device after [init] and the ring set-up of [configure] on the send
    channel. *)
Definition ready_device (ntx nrx : nat) : device :=
  match configure_ring sample_build (booted_device ntx nrx)
          XILINX_AXI_DMA_TX_CHANNEL_NUM with
  | Some d => d
  | None => booted_device ntx nrx
  end.

(** A send ring of four slots in use: configured with checksum offload and
    two blocks, of which the first was completed and reclaimed and the
    second completed but not yet reclaimed. *)
Definition stale_device : device :=
  match dma_xilinx_axi_dma_configure sample_build sample_config (booted_device 4 2)
          XILINX_AXI_DMA_TX_CHANNEL_NUM
          (sample_dma_config 1 None [sample_block 200]) with
  | Some (_, d) =>
      match dma_xilinx_axi_dma_clean_up_sg_descriptors
              (hardware_store 0 0 0x80000064 d) 0 with
      | Some (_, d') => hardware_store 0 1 0x800000C8 d'
      | None => d
      end
  | None => booted_device 4 2
  end.

(** The device on which [configure] starts to submit when [stale_device]
    is configured again. *)
Definition reconfigured_device : device :=
  match configure_setup sample_build sample_config stale_device
          XILINX_AXI_DMA_TX_CHANNEL_NUM (sample_dma_config 0 None []) with
  | Some (inr d) => d
  | _ => stale_device
  end.

(** A chain of three blocks for a send ring of two slots, and the device
    on which [configure] starts to submit it. *)
Definition long_chain_config : dma_config :=
  sample_dma_config 0 (Some 5) [sample_block 200; sample_block 300].

Definition chain_start_device : device :=
  match configure_setup sample_build sample_config (booted_device 2 2)
          XILINX_AXI_DMA_TX_CHANNEL_NUM long_chain_config with
  | Some (inr d) => d
  | _ => booted_device 2 2
  end.

(** A send ring of four slots with two blocks submitted, both finished by
    the engine (the second with a decode error) and neither reclaimed yet;
    [cb] is the completion callback given to [configure]. *)
Definition completed_device (cb : option Z) : device :=
  match dma_xilinx_axi_dma_configure sample_build sample_config (booted_device 4 2)
          XILINX_AXI_DMA_TX_CHANNEL_NUM
          (sample_dma_config 0 cb [sample_block 200]) with
  | Some (_, d) => hardware_store 0 1 0xC00000C8 (hardware_store 0 0 0x80000064 d)
  | None => booted_device 4 2
  end.

(** Four submissions fill a ring of four slots, a fifth is refused; the
    engine finishes the first descriptor, the sweep reclaims it, and a
    submission is accepted again. *)
Definition full_ring_scenario : list ring_op :=
  [OpSubmit 0x80000000 64 true true; OpSubmit 0x80000040 64 true true;
   OpSubmit 0x80000080 64 true true; OpSubmit 0x800000C0 64 true true;
   OpSubmit 0x80000100 64 true true; OpHardware 0 0x80000040; OpSweep;
   OpSubmit 0x80000100 64 true true].

(** ** Further functions and vocabulary *)

Definition dma_xilinx_axi_dma_last_received_frame_length (d : device) : Z :=
  last_rx_size (channels_rx d).

(** The control and status words of the ring, slot by slot. *)
Definition words_of (c : dma_xilinx_axi_dma_channel) : list (Z * Z) :=
  map (fun cur => (control cur, status cur)) (descriptors c).

(** The next-descriptor links of the ring, slot by slot. *)
Definition links_of (c : dma_xilinx_axi_dma_channel) : list (Z * Z) :=
  map (fun cur => (nxtdesc cur, nxtdesc_msb cur)) (descriptors c).

(** The register writes by which [start] hands the descriptor at address
    [a] to the engine. *)
Definition tail_writes (bc : build_config) (c : dma_xilinx_axi_dma_channel) (a : Z)
    : list event :=
  if CONFIG_DMA_64BIT bc
  then [EvWriteReg (channel_regs c + XILINX_AXI_DMA_REG_TAILDESC) (Z.land a 0xffffffff);
        EvWriteReg (channel_regs c + XILINX_AXI_DMA_REG_TAILDESC_MSB)
          (Z.shiftr a 32 mod 2 ^ 32)]
  else [EvWriteReg (channel_regs c + XILINX_AXI_DMA_REG_TAILDESC) (a mod 2 ^ 32)].

(** The block passes the checks [transfer_block] makes on a free slot. *)
Definition block_acceptable (bc : build_config) (channel buffer_addr block_size : Z)
    : Prop :=
  block_size <= UINT32_MAX
  /\ (channel = XILINX_AXI_DMA_TX_CHANNEL_NUM
      \/ rx_misaligned bc buffer_addr block_size = false).

(** The interrupt causes on which the ISR sweeps, and the writes by which it
    acknowledges what it read in [dmasr]. *)
Definition isr_cause : Z :=
  Z.lor XILINX_AXI_DMA_REGS_DMASR_IOC_IRQ XILINX_AXI_DMA_REGS_DMASR_DLY_IRQ.

Definition isr_acknowledgements (c : dma_xilinx_axi_dma_channel) (dmasr : Z)
    : list event :=
  (if tst dmasr XILINX_AXI_DMA_REGS_DMASR_ERR_IRQ
   then [EvWriteReg (channel_regs c + XILINX_AXI_DMA_REG_DMASR)
           XILINX_AXI_DMA_REGS_DMASR_ERR_IRQ]
   else [])
  ++ (if tst dmasr isr_cause
      then [EvWriteReg (channel_regs c + XILINX_AXI_DMA_REG_DMASR)
              (Z.land dmasr isr_cause)]
      else []).

(** What [configure] refuses as unsupported before it touches the device. *)
Definition unsupported_config (channel : Z) (dma_cfg : dma_config) : Prop :=
  (source_addr_adj (head_block dma_cfg) <> DMA_ADDR_ADJ_INCREMENT
   /\ source_addr_adj (head_block dma_cfg) <> DMA_ADDR_ADJ_NO_CHANGE)
  \/ (dest_addr_adj (head_block dma_cfg) <> DMA_ADDR_ADJ_INCREMENT
      /\ dest_addr_adj (head_block dma_cfg) <> DMA_ADDR_ADJ_NO_CHANGE)
  \/ (channel = XILINX_AXI_DMA_TX_CHANNEL_NUM
      /\ channel_direction dma_cfg <> MEMORY_TO_PERIPHERAL)
  \/ (channel = XILINX_AXI_DMA_RX_CHANNEL_NUM
      /\ channel_direction dma_cfg <> PERIPHERAL_TO_MEMORY).

(** The events [d'] records after those of [d]. *)
Definition new_events (d d' : device) : list event :=
  drop (length (trace d)) (trace d').

(** Reads of the control register that show the reset bit for the first
    three reads and cleared from then on. *)
Definition reset_after_three : nat -> Z :=
  fun i => if (i <? 3)%nat then XILINX_AXI_DMA_REGS_DMACR_RESET else 0.

(** ** Properties *)

(** *** Records, traces and channel selection *)

Lemma trace_set_channel_data channel c d :
  trace (set_channel_data channel c d) = trace d.
Proof.
  unfold set_channel_data.
  destruct (channel =? _); [reflexivity|].
  destruct (channel =? _); reflexivity.
Qed.

Lemma irq_enabled_set_channel_data channel c d :
  irq_enabled (set_channel_data channel c d) = irq_enabled d.
Proof.
  unfold set_channel_data.
  destruct (channel =? _); [reflexivity|].
  destruct (channel =? _); reflexivity.
Qed.

Lemma irqs_locked_set_channel_data channel c d :
  irqs_locked (set_channel_data channel c d) = irqs_locked d.
Proof.
  unfold set_channel_data.
  destruct (channel =? _); [reflexivity|].
  destruct (channel =? _); reflexivity.
Qed.

Lemma channel_data_set_same channel c c0 d :
  channel_data d channel = Some c0 ->
  channel_data (set_channel_data channel c d) channel = Some c.
Proof.
  unfold channel_data, set_channel_data.
  destruct (channel =? XILINX_AXI_DMA_TX_CHANNEL_NUM) eqn:Htx.
  - intros _. unfold set_channels_tx. cbn [channels_tx]. reflexivity.
  - destruct (channel =? XILINX_AXI_DMA_RX_CHANNEL_NUM) eqn:Hrx.
    + intros _. unfold set_channels_rx. cbn [channels_rx]. reflexivity.
    + discriminate.
Qed.

Lemma channel_data_valid d channel c :
  channel_data d channel = Some c ->
  channel = XILINX_AXI_DMA_TX_CHANNEL_NUM \/ channel = XILINX_AXI_DMA_RX_CHANNEL_NUM.
Proof.
  unfold channel_data.
  destruct (Z.eqb_spec channel XILINX_AXI_DMA_TX_CHANNEL_NUM); [auto|].
  destruct (Z.eqb_spec channel XILINX_AXI_DMA_RX_CHANNEL_NUM); [auto|discriminate].
Qed.

Lemma channel_data_emit e d channel :
  channel_data (emit e d) channel = channel_data d channel.
Proof. reflexivity. Qed.

Lemma channel_data_set_other channel channel' c d :
  channel' <> channel ->
  channel_data (set_channel_data channel c d) channel' = channel_data d channel'.
Proof.
  intros Hne. unfold channel_data, set_channel_data.
  destruct (Z.eqb_spec channel XILINX_AXI_DMA_TX_CHANNEL_NUM);
    destruct (Z.eqb_spec channel XILINX_AXI_DMA_RX_CHANNEL_NUM);
    destruct (Z.eqb_spec channel' XILINX_AXI_DMA_TX_CHANNEL_NUM);
    destruct (Z.eqb_spec channel' XILINX_AXI_DMA_RX_CHANNEL_NUM);
    try reflexivity; congruence.
Qed.

(** *** Checksum classification *)

Lemma callback_results_app tr1 tr2 :
  callback_results (tr1 ++ tr2) = callback_results tr1 ++ callback_results tr2.
Proof. unfold callback_results. apply flat_map_app. Qed.

Lemma descriptor_retval_csum_udp st a :
  csum_udp_err a = true -> csum_tcp_err a = false ->
  descriptor_retval true st a = - EFAULT.
Proof.
  intros Hu Ht. unfold descriptor_retval. rewrite Hu, Ht. reflexivity.
Qed.

Lemma descriptor_retval_csum_tcp st a :
  csum_tcp_err a = true -> descriptor_retval true st a = - EFAULT.
Proof.
  intros Ht. unfold descriptor_retval. rewrite Ht. reflexivity.
Qed.

Lemma sweep_body_callback channel cd cur d cb :
  completion_callback cd = Some cb ->
  callback_results (trace (sweep_body channel cd cur d))
  = callback_results (trace d)
    ++ [descriptor_retval (check_csum_in_isr cd) (status cur) (app2 cur)].
Proof.
  intros Hcb. unfold sweep_body. rewrite trace_set_channel_data. simpl.
  rewrite Hcb. simpl. rewrite !callback_results_app. simpl.
  rewrite app_nil_r. reflexivity.
Qed.

(** C7. On a channel that inspects checksums and has a callback, a
    reclaimed descriptor whose APP2 word is 0x38 satisfies the TCP test and
    is reported to the callback as failed; one whose APP2 word is 0x30
    satisfies the UDP test, which reports it as failed, and does not
    satisfy the TCP test. *)
Theorem checksum_masking channel cd cur_tcp cur_udp d cb :
  check_csum_in_isr cd = true ->
  completion_callback cd = Some cb ->
  app2 cur_tcp = 0x00000038 ->
  app2 cur_udp = 0x00000030 ->
  (csum_tcp_err (app2 cur_tcp) = true
   /\ callback_results (trace (sweep_body channel cd cur_tcp d))
      = callback_results (trace d) ++ [- EFAULT])
  /\ (csum_udp_err (app2 cur_udp) = true
      /\ csum_tcp_err (app2 cur_udp) = false
      /\ callback_results (trace (sweep_body channel cd cur_udp d))
         = callback_results (trace d) ++ [- EFAULT]).
Proof.
  intros Hck Hcb Htcp Hudp.
  rewrite !(sweep_body_callback _ _ _ _ _ Hcb), Hck, Htcp, Hudp.
  repeat split;
    first [ reflexivity
          | rewrite descriptor_retval_csum_tcp; reflexivity
          | rewrite descriptor_retval_csum_udp; reflexivity ].
Qed.

Lemma checksum_masking_witness :
  let cd := set_check_csum_in_isr true
              (set_completion_callback (Some 5) 7 (channels_rx (booted_device 2 2))) in
  let cur a := {| nxtdesc := 0; nxtdesc_msb := 0; buffer_address := 0x80001000;
                  buffer_address_msb := 0; reserved1 := 0; reserved2 := 0;
                  control := 64; status := 0x80000040; app0 := 0; app1 := 0;
                  app2 := a; app3 := 0; app4 := 0 |} in
  (csum_tcp_err 0x38 = true
   /\ callback_results (trace (sweep_body 1 cd (cur 0x38) (booted_device 2 2)))
      = callback_results (trace (booted_device 2 2)) ++ [- EFAULT])
  /\ (csum_udp_err 0x30 = true
      /\ csum_tcp_err 0x30 = false
      /\ callback_results (trace (sweep_body 1 cd (cur 0x30) (booted_device 2 2)))
         = callback_results (trace (booted_device 2 2)) ++ [- EFAULT]).
Proof.
  intros cd cur.
  apply (checksum_masking 1 cd (cur 0x38) (cur 0x30) (booted_device 2 2) 5);
    reflexivity.
Defined.

(** *** Initialisation *)

(** C4. After a successful [init] of a zero-initialised device the send
    channel's direction is peripheral-to-memory and the receive channel's
    direction is still the zero value, memory-to-memory; [get_status]
    reports these. *)
Theorem init_channel_directions :
  let r := dma_xilinx_axi_dma_init sample_config (zero_device 4 4) reset_done in
  let st0 := {| busy := false; dir := MEMORY_TO_MEMORY |} in
  fst r = 0
  /\ direction (channels_tx (snd r)) = PERIPHERAL_TO_MEMORY
  /\ direction (channels_rx (snd r)) = MEMORY_TO_MEMORY
  /\ dma_xilinx_axi_dma_get_status sample_config (snd r)
       XILINX_AXI_DMA_TX_CHANNEL_NUM st0 0 0
     = Some (0, {| busy := true; dir := PERIPHERAL_TO_MEMORY |})
  /\ dma_xilinx_axi_dma_get_status sample_config (snd r)
       XILINX_AXI_DMA_RX_CHANNEL_NUM st0 0 0
     = Some (0, {| busy := true; dir := MEMORY_TO_MEMORY |}).
Proof. vm_compute. repeat split; reflexivity. Qed.

(** *** Oversized blocks *)

(** C3. A block of 2^26 bytes, one more than the length field holds, is
    accepted on a free ring: the call returns 0, moves
    [populated_desc_index] from 3 to 0, and the stored control word is the
    end-of-frame bit although [is_last] is false. *)
Theorem transfer_block_accepts_2pow26 :
  exists d',
    dma_xilinx_axi_dma_transfer_block sample_build (ready_device 4 2)
      XILINX_AXI_DMA_TX_CHANNEL_NUM 0x80000000 (2 ^ 26) false false = Some (0, d')
    /\ populated_desc_index (channels_tx (ready_device 4 2)) = 3%nat
    /\ populated_desc_index (channels_tx d') = 0%nat
    /\ control <$> descriptors (channels_tx d') !! 0%nat
       = Some XILINX_AXI_DMA_SG_DESCRIPTOR_CTRL_EOF_MASK.
Proof.
  eexists. split; [vm_compute; reflexivity|].
  vm_compute. repeat split; reflexivity.
Qed.

(** *** Soft reset *)

Lemma iter_emit_trace n e d :
  trace (Nat.iter n (emit e) d) = trace d ++ replicate n e.
Proof.
  induction n as [|n IH]; simpl.
  - symmetry. apply app_nil_r.
  - rewrite IH, <- app_assoc. f_equal.
    clear IH. induction n as [|n IH]; [reflexivity|].
    simpl. f_equal. exact IH.
Qed.

Lemma iter_emit_frame n e d :
  irq_enabled (Nat.iter n (emit e) d) = irq_enabled d
  /\ irqs_locked (Nat.iter n (emit e) d) = irqs_locked d
  /\ channels_tx (Nat.iter n (emit e) d) = channels_tx d
  /\ channels_rx (Nat.iter n (emit e) d) = channels_rx d.
Proof.
  induction n as [|n IH]; simpl; [repeat split|exact IH].
Qed.

Lemma iter_emit_shift n e d :
  Nat.iter n (emit e) (emit e d) = emit e (Nat.iter n (emit e) d).
Proof.
  induction n as [|n IH]; simpl; [reflexivity|]. rewrite IH. reflexivity.
Qed.

Lemma reset_poll_stuck count i reads d :
  (forall k, (k < count)%nat ->
             tst (reads (i + k)%nat) XILINX_AXI_DMA_REGS_DMACR_RESET = true) ->
  reset_poll count i reads d = (false, Nat.iter count (emit (EvSleep 1)) d).
Proof.
  revert i d. induction count as [|count IH]; intros i d Hall; [reflexivity|].
  cbn [reset_poll].
  rewrite <- (Nat.add_0_r i) at 1. rewrite (Hall 0%nat) by lia.
  rewrite IH.
  - cbn [Nat.iter]. rewrite iter_emit_shift. reflexivity.
  - intros k Hk. replace (S i + k)%nat with (i + S k)%nat by lia.
    apply Hall. lia.
Qed.

Lemma reset_poll_clears count i reads d :
  (exists k, (k < count)%nat
             /\ tst (reads (i + k)%nat) XILINX_AXI_DMA_REGS_DMACR_RESET = false) ->
  exists m, (m < count)%nat
            /\ reset_poll count i reads d = (true, Nat.iter m (emit (EvSleep 1)) d).
Proof.
  revert i d. induction count as [|count IH]; intros i d [k [Hk Hclr]]; [lia|].
  cbn [reset_poll].
  destruct (tst (reads i) XILINX_AXI_DMA_REGS_DMACR_RESET) eqn:Hi.
  - destruct k as [|k].
    + rewrite Nat.add_0_r in Hclr. congruence.
    + destruct (IH (S i) (emit (EvSleep 1) d)) as [m [Hm Hr]].
      { exists k. split; [lia|].
        replace (S i + k)%nat with (i + S k)%nat by lia. exact Hclr. }
      exists (S m). split; [lia|].
      rewrite Hr. cbn [Nat.iter]. rewrite iter_emit_shift. reflexivity.
  - exists 0%nat. split; [lia|reflexivity].
Qed.

(** C9. On a device configured with two channels: if every one of the
    1000 reads of the control register shows the reset bit set, [init]
    returns -EIO, the interrupt controller and the channels' interrupt
    lines are as before, and the only events are the write of the reset
    bit and 1000 sleeps of 1 ms (no line is connected, no channel is
    started); if some read among the 1000 shows the bit clear, [init]
    returns 0 with both lines connected and enabled. *)
Theorem init_soft_reset cfg d reads :
  channels cfg = XILINX_AXI_DMA_NUM_CHANNELS ->
  let r := dma_xilinx_axi_dma_init cfg d reads in
  ((forall i, (i < RESET_POLL_RETRIES)%nat ->
              tst (reads i) XILINX_AXI_DMA_REGS_DMACR_RESET = true) ->
   fst r = - EIO
   /\ irq_state_restored d (snd r)
   /\ irq (channels_tx (snd r)) = irq (channels_tx d)
   /\ irq (channels_rx (snd r)) = irq (channels_rx d)
   /\ trace (snd r)
      = trace d
        ++ EvWriteReg (reg cfg + XILINX_AXI_DMA_S2MM_REG_OFFSET + XILINX_AXI_DMA_REG_DMACR)
             XILINX_AXI_DMA_REGS_DMACR_RESET
           :: replicate RESET_POLL_RETRIES (EvSleep 1))
  /\ ((exists i, (i < RESET_POLL_RETRIES)%nat
                 /\ tst (reads i) XILINX_AXI_DMA_REGS_DMACR_RESET = false) ->
      fst r = 0
      /\ irq_enabled (snd r) (irqn_tx cfg) = true
      /\ irq_enabled (snd r) (irqn_rx cfg) = true
      /\ irq (channels_tx (snd r)) = irqn_tx cfg
      /\ irq (channels_rx (snd r)) = irqn_rx cfg
      /\ List.filter is_irq_connect (trace (snd r))
         = List.filter is_irq_connect (trace d)
           ++ [EvIrqConnect (irqn_tx cfg) XILINX_AXI_DMA_TX_CHANNEL_NUM;
               EvIrqConnect (irqn_rx cfg) XILINX_AXI_DMA_RX_CHANNEL_NUM]).
Proof.
  intros Hch r. subst r. unfold dma_xilinx_axi_dma_init.
  rewrite Hch. cbn [Z.eqb XILINX_AXI_DMA_NUM_CHANNELS Pos.eqb negb].
  split.
  - intros Hall. rewrite reset_poll_stuck by (intros k Hk; apply Hall; exact Hk).
    cbn [negb fst snd].
    destruct (iter_emit_frame RESET_POLL_RETRIES (EvSleep 1)
                (dma_xilinx_axi_dma_write_reg
                   (bind_storage (descriptors_rx d) (descriptors_rx_addr d)
                      (reg cfg + XILINX_AXI_DMA_S2MM_REG_OFFSET) (channels_rx d))
                   XILINX_AXI_DMA_REG_DMACR XILINX_AXI_DMA_REGS_DMACR_RESET
                   (set_channels_rx
                      (bind_storage (descriptors_rx d) (descriptors_rx_addr d)
                         (reg cfg + XILINX_AXI_DMA_S2MM_REG_OFFSET) (channels_rx d))
                      (set_channels_tx
                         (set_direction PERIPHERAL_TO_MEMORY
                            (set_direction MEMORY_TO_PERIPHERAL
                               (bind_storage (descriptors_tx d) (descriptors_tx_addr d)
                                  (reg cfg + XILINX_AXI_DMA_MM2S_REG_OFFSET)
                                  (channels_tx d)))) d))))
      as (Hen & Hlk & Htx & Hrx).
    split; [reflexivity|]. split.
    { split; [intros n; rewrite Hen; reflexivity | rewrite Hlk; reflexivity]. }
    rewrite Htx, Hrx, iter_emit_trace.
    split; [reflexivity|]. split; [reflexivity|].
    cbn. rewrite <- app_assoc. reflexivity.
  - intros Hex.
    match goal with
    | |- context [reset_poll _ _ _ ?d0] =>
        destruct (reset_poll_clears RESET_POLL_RETRIES 0 reads d0) as [m [Hm Hr]];
        [exact Hex|rewrite Hr];
        destruct (iter_emit_frame m (EvSleep 1) d0) as (Hen & Hlk & Htx & Hrx);
        pose proof (iter_emit_trace m (EvSleep 1) d0) as Htr
    end.
    cbn [negb fst snd].
    unfold irq_configure.
    split; [reflexivity|].
    split.
    { cbn. destruct (Z.eqb_spec (irqn_tx cfg) (irqn_rx cfg)); [reflexivity|].
      rewrite Z.eqb_refl. reflexivity. }
    split; [cbn; rewrite Z.eqb_refl; reflexivity|].
    split; [reflexivity|]. split; [reflexivity|].
    cbn [trace emit irq_enable set_irq_enabled set_channels_rx set_channels_tx].
    rewrite Htr. cbn [trace dma_xilinx_axi_dma_write_reg emit set_channels_rx set_channels_tx].
    rewrite !List.filter_app. cbn [List.filter is_irq_connect].
    rewrite <- !app_assoc.
    replace (List.filter is_irq_connect (replicate m (EvSleep 1))) with (@nil event).
    + reflexivity.
    + clear. induction m as [|m IH]; [reflexivity|exact IH].
Qed.

Lemma init_soft_reset_witness :
  (fst (dma_xilinx_axi_dma_init sample_config (zero_device 2 2) reset_stuck) = - EIO
   /\ trace (snd (dma_xilinx_axi_dma_init sample_config (zero_device 2 2) reset_stuck))
      = EvWriteReg 0x40400030 4 :: replicate RESET_POLL_RETRIES (EvSleep 1))
  /\ (fst (dma_xilinx_axi_dma_init sample_config (zero_device 2 2) reset_done) = 0
      /\ irq_enabled
           (snd (dma_xilinx_axi_dma_init sample_config (zero_device 2 2) reset_done)) 29
         = true).
Proof.
  split.
  - destruct (init_soft_reset sample_config (zero_device 2 2) reset_stuck eq_refl)
      as [Hstuck _].
    destruct Hstuck as (Hr & _ & _ & _ & Htr); [intros i _; reflexivity|].
    split; [exact Hr|exact Htr].
  - destruct (init_soft_reset sample_config (zero_device 2 2) reset_done eq_refl)
      as [_ Hdone].
    destruct Hdone as (Hr & Hen & _).
    + exists 0%nat. split; [unfold RESET_POLL_RETRIES; lia|reflexivity].
    + split; [exact Hr|exact Hen].
Defined.

(** *** Interrupt exclusion *)

Section Exclusion.

Variable bc : build_config.

Lemma key_bit_tx (a b : bool) :
  tst (Z.lor (Z.b2z a) (Z.shiftl (Z.b2z b) 1)) 0x1 = a.
Proof. destruct a, b; reflexivity. Qed.

Lemma key_bit_rx (a b : bool) :
  tst (Z.lor (Z.b2z a) (Z.shiftl (Z.b2z b) 1)) 0x2 = b.
Proof. destruct a, b; reflexivity. Qed.

Lemma lock_irq_frame d channel key dl :
  dma_xilinx_axi_dma_lock_irq bc d channel = Some (key, dl) ->
  channels_tx dl = channels_tx d
  /\ channels_rx dl = channels_rx d
  /\ trace dl = trace d ++ [EvLockIrq channel key].
Proof.
  unfold dma_xilinx_axi_dma_lock_irq.
  destruct (CONFIG_DMA_XILINX_AXI_DMA_LOCK bc); cbn;
    [| |destruct (chan_irq d channel); [|discriminate]];
    intros [= <- <-]; repeat split.
Qed.

Lemma unlock_irq_frame d channel key d' :
  dma_xilinx_axi_dma_unlock_irq bc d channel key = Some d' ->
  channels_tx d' = channels_tx d
  /\ channels_rx d' = channels_rx d
  /\ trace d' = trace d ++ [EvUnlockIrq channel key].
Proof.
  unfold dma_xilinx_axi_dma_unlock_irq.
  destruct (CONFIG_DMA_XILINX_AXI_DMA_LOCK bc); cbn.
  - intros [= <-]. repeat split.
  - intros [= <-]. destruct (tst key 1), (tst key 2); cbn; repeat split.
  - destruct (negb (key =? 0)); [destruct (chan_irq d channel); [|discriminate]|];
      intros [= <-]; repeat split.
Qed.

(** On a channel of the array the acquisition and the release return. *)
Lemma lock_irq_returns d channel cd :
  channel_data d channel = Some cd ->
  exists key dl, dma_xilinx_axi_dma_lock_irq bc d channel = Some (key, dl).
Proof.
  intros Hcd. unfold dma_xilinx_axi_dma_lock_irq, chan_irq. rewrite Hcd.
  destruct (CONFIG_DMA_XILINX_AXI_DMA_LOCK bc); cbn; eauto.
Qed.

Lemma unlock_irq_returns d channel cd key :
  channel_data d channel = Some cd ->
  exists d', dma_xilinx_axi_dma_unlock_irq bc d channel key = Some d'.
Proof.
  intros Hcd. unfold dma_xilinx_axi_dma_unlock_irq, chan_irq. rewrite Hcd.
  destruct (CONFIG_DMA_XILINX_AXI_DMA_LOCK bc); cbn; eauto.
  destruct (negb (key =? 0)); eauto.
Qed.

Lemma chan_irq_same d d' channel :
  irq (channels_tx d') = irq (channels_tx d) ->
  irq (channels_rx d') = irq (channels_rx d) ->
  chan_irq d' channel = chan_irq d channel.
Proof.
  intros Htx Hrx. unfold chan_irq, channel_data.
  destruct (channel =? _); [rewrite Htx; reflexivity|].
  destruct (channel =? _); [rewrite Hrx; reflexivity|reflexivity].
Qed.

Lemma lock_unlock_restores d channel key dl dm d' :
  dma_xilinx_axi_dma_lock_irq bc d channel = Some (key, dl) ->
  exclusion_kept dl dm ->
  dma_xilinx_axi_dma_unlock_irq bc dm channel key = Some d' ->
  irq_state_restored d d'.
Proof.
  unfold exclusion_kept, dma_xilinx_axi_dma_lock_irq, dma_xilinx_axi_dma_unlock_irq,
    irq_state_restored.
  destruct (CONFIG_DMA_XILINX_AXI_DMA_LOCK bc); cbn.
  - intros [= <- <-] (Hen & Hlk & Htx & Hrx) [= <-]. cbn.
    split; [intros n; rewrite Hen; reflexivity|].
    destruct (irqs_locked d); reflexivity.
  - intros [= <- <-] (Hen & Hlk & Htx & Hrx) [= <-]. cbn in *.
    rewrite key_bit_tx, key_bit_rx. unfold irq_is_enabled.
    split.
    + intros n.
      destruct (irq_enabled d (irq (channels_tx d))) eqn:Ea;
        destruct (irq_enabled d (irq (channels_rx d))) eqn:Eb;
        cbn; rewrite ?Hen, ?Htx, ?Hrx;
        destruct (Z.eqb_spec n (irq (channels_rx d)));
        destruct (Z.eqb_spec n (irq (channels_tx d)));
        subst; congruence.
    + destruct (irq_enabled d (irq (channels_tx d)));
        destruct (irq_enabled d (irq (channels_rx d))); cbn; exact Hlk.
  - destruct (chan_irq d channel) as [line|] eqn:Hline; [|discriminate].
    intros [= <- <-] (Hen & Hlk & Htx & Hrx). cbn in *.
    rewrite (chan_irq_same _ _ _ Htx Hrx), Hline. unfold irq_is_enabled.
    destruct (irq_enabled d line) eqn:Ea; cbn; intros [= <-]; cbn; split.
    + intros n. rewrite Hen. destruct (Z.eqb_spec n line); subst; congruence.
    + exact Hlk.
    + intros n. rewrite Hen. destruct (Z.eqb_spec n line); subst; congruence.
    + exact Hlk.
Qed.

Lemma locked_section_intro d channel key dl dm middle d' :
  dma_xilinx_axi_dma_lock_irq bc d channel = Some (key, dl) ->
  exclusion_kept dl dm ->
  trace dm = trace dl ++ middle ->
  forallb (fun e => negb (is_lock_event e)) middle = true ->
  dma_xilinx_axi_dma_unlock_irq bc dm channel key = Some d' ->
  irq_state_restored d d' /\ locked_section channel d d'.
Proof.
  intros Hlock Hkept Htr Hmid Hunlock. split.
  - exact (lock_unlock_restores _ _ _ _ _ _ Hlock Hkept Hunlock).
  - exists key, middle. split; [|exact Hmid].
    destruct (unlock_irq_frame _ _ _ _ Hunlock) as (_ & _ & ->).
    destruct (lock_irq_frame _ _ _ _ Hlock) as (_ & _ & Hl).
    rewrite Htr, Hl, <- !app_assoc. reflexivity.
Qed.

Lemma exclusion_kept_refl d : exclusion_kept d d.
Proof. repeat split. Qed.

Lemma exclusion_kept_set_channel d channel c c0 :
  channel_data d channel = Some c0 ->
  irq c = irq c0 ->
  exclusion_kept d (set_channel_data channel c d).
Proof.
  unfold exclusion_kept, channel_data, set_channel_data.
  destruct (channel =? XILINX_AXI_DMA_TX_CHANNEL_NUM).
  - intros [= <-] Hirq. cbn. repeat split. exact Hirq.
  - destruct (channel =? XILINX_AXI_DMA_RX_CHANNEL_NUM); [|discriminate].
    intros [= <-] Hirq. cbn. repeat split. exact Hirq.
Qed.

End Exclusion.

(** *** The return paths of a submission *)

Section Submission.

Variable bc : build_config.

(** The four ways [transfer_block] returns. *)
Lemma transfer_block_inv d channel buffer_addr block_size is_first is_last r d' :
  dma_xilinx_axi_dma_transfer_block bc d channel buffer_addr block_size
    is_first is_last = Some (r, d') ->
  exists cd cur key dl,
    let next := next_index (num_descriptors cd) (populated_desc_index cd) in
    channel_data d channel = Some cd
    /\ dma_xilinx_axi_dma_lock_irq bc d channel = Some (key, dl)
    /\ descriptors cd !! next = Some cur
    /\ ((r = - EBUSY
         /\ (control cur <> 0 \/ status cur <> 0)
         /\ dma_xilinx_axi_dma_unlock_irq bc dl channel key = Some d')
        \/ (r = - EINVAL
            /\ slot_free cur
            /\ channel <> XILINX_AXI_DMA_TX_CHANNEL_NUM
            /\ rx_misaligned bc buffer_addr block_size = true
            /\ dma_xilinx_axi_dma_unlock_irq bc dl channel key = Some d')
        \/ (r = - EINVAL
            /\ slot_free cur
            /\ block_size > UINT32_MAX
            /\ dma_xilinx_axi_dma_unlock_irq bc
                 (set_channel_data channel
                    (set_descriptors
                       (<[next := addressed_descriptor bc cd buffer_addr cur]>
                          (descriptors cd)) cd) dl)
                 channel key = Some d')
        \/ (r = 0
            /\ slot_free cur
            /\ block_size <= UINT32_MAX
            /\ dma_xilinx_axi_dma_unlock_irq bc
                 (set_channel_data channel
                    (set_populated_desc_index next
                       (set_descriptors
                          (<[next := populated_descriptor bc cd buffer_addr
                                       block_size is_first is_last cur]>
                             (descriptors cd)) cd)) dl)
                 channel key = Some d')).
Proof.
  unfold dma_xilinx_axi_dma_transfer_block, unlock_and_return.
  destruct (channel_data d channel) as [cd|] eqn:Hcd; [|discriminate].
  destruct (dma_xilinx_axi_dma_lock_irq bc d channel) as [[key dl]|] eqn:Hlock;
    [|discriminate].
  destruct (descriptors cd !! next_index (num_descriptors cd) (populated_desc_index cd))
    as [cur|] eqn:Hcur; [|discriminate].
  intros H. exists cd, cur, key, dl. cbn zeta.
  split; [reflexivity|]. split; [reflexivity|]. split; [exact Hcur|].
  destruct (Z.eqb_spec (control cur) 0) as [Hc|Hc];
    destruct (Z.eqb_spec (status cur) 0) as [Hs|Hs]; cbn [negb orb] in H;
    try (destruct (dma_xilinx_axi_dma_unlock_irq bc dl channel key);
         [|discriminate]; injection H as <- <-; left; split; [reflexivity|]; split;
         [tauto|reflexivity]).
  right.
  destruct (Z.eqb_spec channel XILINX_AXI_DMA_TX_CHANNEL_NUM) as [Hch|Hch];
    cbn [negb andb] in H.
  - destruct (Z.gtb_spec block_size UINT32_MAX) as [Hsz|Hsz];
      (match type of H with
       | match ?u with _ => _ end = _ => destruct u eqn:Hu; [|discriminate]
       end);
      injection H as <- <-; right; [left|right];
      (split; [reflexivity|]; split; [split; assumption|]; split; [lia|exact Hu]).
  - destruct (rx_misaligned bc buffer_addr block_size) eqn:Hal.
    + destruct (dma_xilinx_axi_dma_unlock_irq bc dl channel key); [|discriminate].
      injection H as <- <-. left.
      split; [reflexivity|]. split; [split; assumption|].
      split; [exact Hch|]. split; reflexivity.
    + destruct (Z.gtb_spec block_size UINT32_MAX) as [Hsz|Hsz];
        (match type of H with
         | match ?u with _ => _ end = _ => destruct u eqn:Hu; [|discriminate]
         end);
        injection H as <- <-; right; [left|right];
        (split; [reflexivity|]; split; [split; assumption|]; split; [lia|exact Hu]).
Qed.

(** On a well-formed channel a submission returns. *)
Lemma transfer_block_returns d channel cd buffer_addr block_size is_first is_last :
  channel_data d channel = Some cd ->
  num_descriptors cd = length (descriptors cd) ->
  (0 < num_descriptors cd)%nat ->
  exists r d',
    dma_xilinx_axi_dma_transfer_block bc d channel buffer_addr block_size
      is_first is_last = Some (r, d').
Proof.
  intros Hcd Hlen Hpos. unfold dma_xilinx_axi_dma_transfer_block, unlock_and_return.
  rewrite Hcd.
  destruct (lock_irq_returns bc d channel cd Hcd) as (key & dl & Hlock). rewrite Hlock.
  destruct (lock_irq_frame bc _ _ _ _ Hlock) as (Htx & Hrx & _).
  assert (Hret : forall c, exists dx,
            dma_xilinx_axi_dma_unlock_irq bc (set_channel_data channel c dl) channel key
            = Some dx).
  { intros c. apply (unlock_irq_returns bc _ channel c).
    apply (channel_data_set_same channel c cd).
    unfold channel_data in *. rewrite Htx, Hrx. exact Hcd. }
  assert (Hret0 : exists dx, dma_xilinx_axi_dma_unlock_irq bc dl channel key = Some dx).
  { apply (unlock_irq_returns bc _ channel cd).
    unfold channel_data in *. rewrite Htx, Hrx. exact Hcd. }
  destruct (lookup_lt_is_Some_2 (descriptors cd)
              (next_index (num_descriptors cd) (populated_desc_index cd)))
    as [cur Hcur].
  { unfold next_index.
    destruct (Nat.leb_spec (num_descriptors cd) (S (populated_desc_index cd))); lia. }
  rewrite Hcur.
  destruct (negb (control cur =? 0) || negb (status cur =? 0));
    [destruct Hret0 as [dx ->]; eauto|].
  destruct (negb (channel =? XILINX_AXI_DMA_TX_CHANNEL_NUM)
            && rx_misaligned bc buffer_addr block_size);
    [destruct Hret0 as [dx ->]; eauto|].
  destruct (block_size >? UINT32_MAX);
    match goal with
    | |- context [dma_xilinx_axi_dma_unlock_irq bc (set_channel_data channel ?c dl)] =>
        destruct (Hret c) as [dx ->]; eauto
    end.
Qed.

Lemma next_index_mod num i :
  (i < num)%nat -> next_index num i = ((i + 1) mod num)%nat.
Proof.
  intros Hi. unfold next_index.
  destruct (Nat.leb_spec num (S i)).
  - replace (i + 1)%nat with num by lia. symmetry. apply Nat.Div0.mod_same.
  - replace (i + 1)%nat with (S i) by lia. symmetry. apply Nat.mod_small. lia.
Qed.

Lemma next_index_lt num i : (0 < num)%nat -> (next_index num i < num)%nat.
Proof.
  intros Hn. unfold next_index. destruct (Nat.leb_spec num (S i)); lia.
Qed.

(** C2. On a channel whose producer cursor lies inside the ring: when
    the slot at [(populated_desc_index + 1) mod num_descriptors] has a
    non-zero control or status word, [transfer_block] returns -EBUSY and
    both channels (cursors and every descriptor) are as before. *)
Theorem busy_rejection d channel cd cur buffer_addr block_size is_first is_last :
  channel_data d channel = Some cd ->
  (populated_desc_index cd < num_descriptors cd)%nat ->
  descriptors cd !! ((populated_desc_index cd + 1) mod num_descriptors cd)%nat
    = Some cur ->
  control cur <> 0 \/ status cur <> 0 ->
  exists d',
    dma_xilinx_axi_dma_transfer_block bc d channel buffer_addr block_size
      is_first is_last = Some (- EBUSY, d')
    /\ channels_tx d' = channels_tx d
    /\ channels_rx d' = channels_rx d.
Proof.
  intros Hcd Hp Hcur Hbusy.
  rewrite <- next_index_mod in Hcur by exact Hp.
  unfold dma_xilinx_axi_dma_transfer_block, unlock_and_return. rewrite Hcd.
  destruct (lock_irq_returns bc d channel cd Hcd) as (key & dl & Hlock). rewrite Hlock.
  rewrite Hcur.
  assert (Hb : negb (control cur =? 0) || negb (status cur =? 0) = true).
  { destruct (Z.eqb_spec (control cur) 0), (Z.eqb_spec (status cur) 0);
      cbn; tauto. }
  rewrite Hb.
  destruct (lock_irq_frame bc _ _ _ _ Hlock) as (Htx & Hrx & _).
  destruct (unlock_irq_returns bc dl channel cd key) as [d' Hunlock].
  { unfold channel_data in *. rewrite Htx, Hrx. exact Hcd. }
  rewrite Hunlock. exists d'. split; [reflexivity|].
  destruct (unlock_irq_frame bc _ _ _ _ Hunlock) as (-> & -> & _).
  split; assumption.
Qed.

End Submission.

Lemma busy_rejection_witness :
  let full :=
    match run_ops sample_build 0
            {| run_dev := ready_device 2 2; submitted := 0; completed := 0 |}
            [OpSubmit 0x80000000 64 true true; OpSubmit 0x80000040 64 true true] with
    | Some s => run_dev s
    | None => ready_device 2 2
    end in
  exists d',
    dma_xilinx_axi_dma_transfer_block sample_build full 0 0x80000080 64 true true
    = Some (- EBUSY, d')
    /\ channels_tx d' = channels_tx full
    /\ channels_rx d' = channels_rx full.
Proof.
  intros full.
  apply (busy_rejection sample_build full 0 (channels_tx full)
           {| nxtdesc := 0x10040; nxtdesc_msb := 0; buffer_address := 0x80000000;
              buffer_address_msb := 0; reserved1 := 0; reserved2 := 0;
              control := 0x0C000040; status := 0; app0 := 0; app1 := 0;
              app2 := 0; app3 := 0; app4 := 0 |}).
  - reflexivity.
  - vm_compute. lia.
  - vm_compute. reflexivity.
  - left. vm_compute. discriminate.
Defined.

Section Release.

Variable bc : build_config.

Lemma channel_data_lock d channel channel' key dl :
  dma_xilinx_axi_dma_lock_irq bc d channel' = Some (key, dl) ->
  channel_data dl channel = channel_data d channel.
Proof.
  intros Hlock.
  destruct (lock_irq_frame bc _ _ _ _ Hlock) as (Htx & Hrx & _).
  unfold channel_data. rewrite Htx, Hrx. reflexivity.
Qed.

Lemma released_with_channel d channel cd cd' key dl d' :
  channel_data d channel = Some cd ->
  irq cd' = irq cd ->
  dma_xilinx_axi_dma_lock_irq bc d channel = Some (key, dl) ->
  dma_xilinx_axi_dma_unlock_irq bc (set_channel_data channel cd' dl) channel key
  = Some d' ->
  irq_state_restored d d' /\ locked_section channel d d'.
Proof.
  intros Hcd Hirq Hlock Hunlock.
  apply (locked_section_intro bc d channel key dl (set_channel_data channel cd' dl) []
           d' Hlock); [| | |exact Hunlock].
  - eapply exclusion_kept_set_channel; [|exact Hirq].
    rewrite (channel_data_lock _ _ _ _ _ Hlock). exact Hcd.
  - rewrite trace_set_channel_data, app_nil_r. reflexivity.
  - reflexivity.
Qed.

Lemma released_at_once d channel key dl d' :
  dma_xilinx_axi_dma_lock_irq bc d channel = Some (key, dl) ->
  dma_xilinx_axi_dma_unlock_irq bc dl channel key = Some d' ->
  irq_state_restored d d' /\ locked_section channel d d'.
Proof.
  intros Hlock Hunlock.
  apply (locked_section_intro bc d channel key dl dl [] d' Hlock); [| | |exact Hunlock].
  - apply exclusion_kept_refl.
  - rewrite app_nil_r. reflexivity.
  - reflexivity.
Qed.

(** C10. Whatever [transfer_block] returns (the busy rejection, the
    receive-alignment rejection, the oversized-length rejection or
    success) and whatever [start] returns (the invalid-channel rejection
    or success), the call acquired the interrupt exclusion once and
    released it once, last, with the key it was given, and the interrupt
    controller is in the state it had before the call. *)
Theorem irq_exclusion_released cfg d channel :
  (forall buffer_addr block_size is_first is_last r d',
      dma_xilinx_axi_dma_transfer_block bc d channel buffer_addr block_size
        is_first is_last = Some (r, d') ->
      irq_state_restored d d' /\ locked_section channel d d')
  /\ (forall dmasr r d',
         dma_xilinx_axi_dma_start bc cfg d channel dmasr = Some (r, d') ->
         irq_state_restored d d' /\ locked_section channel d d').
Proof.
  split.
  - intros buffer_addr block_size is_first is_last r d' H.
    apply transfer_block_inv in H.
    destruct H as (cd & cur & key & dl & Hcd & Hlock & _ & H). cbn zeta in H.
    destruct H as [(_ & _ & Hu)|[(_ & _ & _ & _ & Hu)|[(_ & _ & _ & Hu)|(_ & _ & _ & Hu)]]].
    + exact (released_at_once _ _ _ _ _ Hlock Hu).
    + exact (released_at_once _ _ _ _ _ Hlock Hu).
    + eapply released_with_channel; [exact Hcd| |exact Hlock|exact Hu]; reflexivity.
    + eapply released_with_channel; [exact Hcd| |exact Hlock|exact Hu]; reflexivity.
  - intros dmasr r d'. unfold dma_xilinx_axi_dma_start, unlock_and_return.
    destruct (dma_xilinx_axi_dma_lock_irq bc d channel) as [[key dl]|] eqn:Hlock;
      [|discriminate].
    destruct (channel >=? channels cfg).
    + destruct (dma_xilinx_axi_dma_unlock_irq bc dl channel key) as [du|] eqn:Hu;
        [|discriminate].
      intros [= <- <-]. exact (released_at_once _ _ _ _ _ Hlock Hu).
    + destruct (channel_data dl channel) as [cd|] eqn:Hcd; [|discriminate].
      match goal with
      | |- match ?u with _ => _ end = _ -> _ => destruct u as [du|] eqn:Hu; [|discriminate]
      end.
      intros [= <- <-].
      eapply locked_section_intro with (middle :=
        ((if tst dmasr XILINX_AXI_DMA_REGS_DMASR_HALTED
            then [EvWriteReg (channel_regs cd + XILINX_AXI_DMA_REG_DMACR)
                    (start_control bc)]
            else [])
           ++ (if CONFIG_DMA_64BIT bc
               then [EvWriteReg (channel_regs cd + XILINX_AXI_DMA_REG_TAILDESC)
                       (Z.land (desc_addr cd (populated_desc_index cd)) 0xffffffff);
                     EvWriteReg (channel_regs cd + XILINX_AXI_DMA_REG_TAILDESC_MSB)
                       (Z.shiftr (desc_addr cd (populated_desc_index cd)) 32 mod 2 ^ 32)]
               else [EvWriteReg (channel_regs cd + XILINX_AXI_DMA_REG_TAILDESC)
                       (desc_addr cd (populated_desc_index cd) mod 2 ^ 32)])));
        [exact Hlock| | | |exact Hu].
      * unfold write_desc_reg, dma_xilinx_axi_dma_write_reg.
        destruct (CONFIG_DMA_64BIT bc), (tst dmasr XILINX_AXI_DMA_REGS_DMASR_HALTED);
          repeat split.
      * unfold write_desc_reg, dma_xilinx_axi_dma_write_reg.
        destruct (CONFIG_DMA_64BIT bc), (tst dmasr XILINX_AXI_DMA_REGS_DMASR_HALTED);
          cbn; rewrite <- ?app_assoc; reflexivity.
      * destruct (CONFIG_DMA_64BIT bc), (tst dmasr XILINX_AXI_DMA_REGS_DMASR_HALTED);
          reflexivity.
Qed.

End Release.

(** The four return paths of [transfer_block] and the two of [start], each
    on a concrete device. *)
Lemma irq_exclusion_released_witness :
  let full :=
    match run_ops sample_build 0
            {| run_dev := ready_device 2 2; submitted := 0; completed := 0 |}
            [OpSubmit 0x80000000 64 true true; OpSubmit 0x80000040 64 true true] with
    | Some s => run_dev s
    | None => ready_device 2 2
    end in
  (exists d', dma_xilinx_axi_dma_transfer_block sample_build full 0
                0x80000080 64 true true = Some (- EBUSY, d')
              /\ irq_state_restored full d' /\ locked_section 0 full d')
  /\ (exists d', dma_xilinx_axi_dma_transfer_block sample_build (ready_device 2 2) 1
                   0x80001001 64 true true = Some (- EINVAL, d')
                 /\ irq_state_restored (ready_device 2 2) d'
                 /\ locked_section 1 (ready_device 2 2) d')
  /\ (exists d', dma_xilinx_axi_dma_transfer_block sample_build (ready_device 2 2) 0
                   0x80000000 (2 ^ 32) true true = Some (- EINVAL, d')
                 /\ irq_state_restored (ready_device 2 2) d'
                 /\ locked_section 0 (ready_device 2 2) d')
  /\ (exists d', dma_xilinx_axi_dma_transfer_block sample_build (ready_device 2 2) 0
                   0x80000000 64 true true = Some (0, d')
                 /\ irq_state_restored (ready_device 2 2) d'
                 /\ locked_section 0 (ready_device 2 2) d')
  /\ (exists d', dma_xilinx_axi_dma_start shared_lock_build sample_config
                   (ready_device 2 2) 2 1 = Some (- EINVAL, d')
                 /\ irq_state_restored (ready_device 2 2) d'
                 /\ locked_section 2 (ready_device 2 2) d')
  /\ (exists d', dma_xilinx_axi_dma_start sample_build sample_config
                   (ready_device 2 2) 0 1 = Some (0, d')
                 /\ irq_state_restored (ready_device 2 2) d'
                 /\ locked_section 0 (ready_device 2 2) d').
Proof.
  intros full.
  repeat split.
  - eexists. split; [vm_compute; reflexivity|].
    apply (proj1 (irq_exclusion_released sample_build sample_config full 0)
             0x80000080 64 true true (- EBUSY)).
    vm_compute. reflexivity.
  - eexists. split; [vm_compute; reflexivity|].
    apply (proj1 (irq_exclusion_released sample_build sample_config
                    (ready_device 2 2) 1)
             0x80001001 64 true true (- EINVAL)).
    vm_compute. reflexivity.
  - eexists. split; [vm_compute; reflexivity|].
    apply (proj1 (irq_exclusion_released sample_build sample_config
                    (ready_device 2 2) 0)
             0x80000000 (2 ^ 32) true true (- EINVAL)).
    vm_compute. reflexivity.
  - eexists. split; [vm_compute; reflexivity|].
    apply (proj1 (irq_exclusion_released sample_build sample_config
                    (ready_device 2 2) 0)
             0x80000000 64 true true 0).
    vm_compute. reflexivity.
  - eexists. split; [vm_compute; reflexivity|].
    apply (proj2 (irq_exclusion_released shared_lock_build sample_config
                    (ready_device 2 2) 2) 1 (- EINVAL)).
    vm_compute. reflexivity.
  - eexists. split; [vm_compute; reflexivity|].
    apply (proj2 (irq_exclusion_released sample_build sample_config
                    (ready_device 2 2) 0) 1 0).
    vm_compute. reflexivity.
Defined.

(** *** Ring set-up by [configure] *)

Section Configure.

Variable bc : build_config.

(** The [__ASSERT] of the link loop never holds: its test is
    [nextdesc & 0]. *)
Lemma link_assert_test_false nextdesc : link_assert_test nextdesc = false.
Proof.
  unfold link_assert_test, tst.
  change (Z.b2z (XILINX_AXI_DMA_SG_DESCRIPTOR_ADDRESS_MASK =? 0)) with 0.
  rewrite Z.land_0_r. reflexivity.
Qed.

Lemma link_descriptor_cases c i cur :
  link_descriptor bc c i cur
  = if CONFIG_ASSERT bc then None else Some (linked bc c i cur).
Proof.
  unfold link_descriptor. rewrite link_assert_test_false.
  destruct (CONFIG_ASSERT bc); reflexivity.
Qed.

Lemma size_t_pred_pos n : (0 < n)%nat -> size_t_pred bc n = (n - 1)%nat.
Proof. intros Hn. unfold size_t_pred. destruct n; [lia|reflexivity]. Qed.

Lemma link_descriptors_spec count : forall i c c',
  link_descriptors bc count i c = Some c' ->
  c' = set_descriptors (descriptors c') c
  /\ length (descriptors c') = length (descriptors c)
  /\ forall j,
       descriptors c' !! j
       = if ((i <=? j) && (j <? i + count))%nat
         then linked bc c j <$> descriptors c !! j
         else descriptors c !! j.
Proof.
  induction count as [|count IH]; intros i c c' Hrun; cbn [link_descriptors] in Hrun.
  - injection Hrun as <-. split; [destruct c; reflexivity|].
    split; [reflexivity|]. intros j.
    destruct (Nat.leb_spec i j), (Nat.ltb_spec j (i + 0)); try reflexivity; lia.
  - destruct (descriptors c !! i) as [cur|] eqn:Hcur; [|discriminate].
    rewrite link_descriptor_cases in Hrun.
    destruct (CONFIG_ASSERT bc); [discriminate|].
    pose proof (lookup_lt_Some _ _ _ Hcur) as Hi.
    destruct (IH _ _ _ Hrun) as (Hrec & Hl & Hslots).
    split; [rewrite Hrec at 1; reflexivity|].
    split; [rewrite Hl; cbn; apply length_insert|].
    intros j. rewrite Hslots. cbn [descriptors set_descriptors].
    destruct (Nat.eq_dec i j) as [<-|Hne].
    + replace ((S i <=? i)%nat) with false by (symmetry; apply Nat.leb_gt; lia).
      replace ((i <=? i)%nat) with true by (symmetry; apply Nat.leb_le; lia).
      replace ((i <? i + S count)%nat) with true by (symmetry; apply Nat.ltb_lt; lia).
      cbn [andb]. rewrite list_lookup_insert_eq by lia. rewrite Hcur. reflexivity.
    + rewrite list_lookup_insert_ne by exact Hne.
      destruct (Nat.leb_spec (S i) j), (Nat.leb_spec i j),
        (Nat.ltb_spec j (S i + count)), (Nat.ltb_spec j (i + S count));
        try lia; reflexivity.
Qed.

(** With the assertions compiled out the link loop runs to its end. *)
Lemma link_descriptors_returns count : forall i c,
  CONFIG_ASSERT bc = false ->
  (i + count <= length (descriptors c))%nat ->
  exists c', link_descriptors bc count i c = Some c'.
Proof.
  induction count as [|count IH]; intros i c Hassert Hlen; cbn [link_descriptors].
  - eauto.
  - destruct (lookup_lt_is_Some_2 (descriptors c) i) as [cur Hcur]; [lia|].
    rewrite Hcur, link_descriptor_cases, Hassert.
    apply IH; [exact Hassert|]. cbn. rewrite length_insert. lia.
Qed.

(** With the assertions compiled in it stops at the first descriptor. *)
Lemma link_descriptors_asserts count i c :
  CONFIG_ASSERT bc = true ->
  (0 < count)%nat ->
  link_descriptors bc count i c = None.
Proof.
  intros Hassert Hcount. destruct count as [|count]; [lia|]. cbn [link_descriptors].
  destruct (descriptors c !! i); [|reflexivity].
  rewrite link_descriptor_cases, Hassert. reflexivity.
Qed.

Lemma channel_data_write_desc_reg c r r_msb a d channel :
  channel_data (write_desc_reg bc c r r_msb a d) channel = channel_data d channel.
Proof.
  unfold write_desc_reg. destruct (CONFIG_DMA_64BIT bc); reflexivity.
Qed.

Lemma trace_write_desc_reg c r r_msb a d :
  List.filter is_release (trace (write_desc_reg bc c r r_msb a d))
  = List.filter is_release (trace d).
Proof.
  unfold write_desc_reg, dma_xilinx_axi_dma_write_reg.
  destruct (CONFIG_DMA_64BIT bc); cbn; rewrite ?List.filter_app; cbn;
    rewrite ?app_nil_r; reflexivity.
Qed.

(** The ring set-up rewrites the two link words of every slot and nothing
    else in it. *)
Lemma configure_ring_spec d channel cd d1 :
  channel_data d channel = Some cd ->
  num_descriptors cd = length (descriptors cd) ->
  configure_ring bc d channel = Some d1 ->
  exists cd1,
    channel_data d1 channel = Some cd1
    /\ d1 = write_desc_reg bc cd1 XILINX_AXI_DMA_REG_CURDESC
              XILINX_AXI_DMA_REG_CURDESC_MSB (desc_addr cd1 0)
              (set_channel_data channel cd1 d)
    /\ cd1 = set_descriptors (descriptors cd1)
               (set_completion_desc_index 0
                  (set_populated_desc_index (size_t_pred bc (num_descriptors cd)) cd))
    /\ forall j, descriptors cd1 !! j = linked bc cd j <$> descriptors cd !! j.
Proof.
  intros Hcd Hlen. unfold configure_ring. rewrite Hcd.
  destruct (link_descriptors bc _ _ _) as [cd1|] eqn:Hrun; [|discriminate].
  intros [= <-].
  destruct (link_descriptors_spec _ _ _ _ Hrun) as (Hrec & Hl & Hslots).
  cbn [num_descriptors set_completion_desc_index set_populated_desc_index] in *.
  exists cd1.
  split.
  { rewrite channel_data_write_desc_reg. eapply channel_data_set_same. exact Hcd. }
  split; [reflexivity|]. split; [exact Hrec|].
  intros j. rewrite Hslots. cbn [descriptors set_completion_desc_index
                                   set_populated_desc_index].
  destruct (descriptors cd !! j) as [cur|] eqn:Hj.
  - apply lookup_lt_Some in Hj.
    replace ((0 <=? j)%nat) with true by (symmetry; apply Nat.leb_le; lia).
    replace ((j <? 0 + num_descriptors cd)%nat) with true
      by (symmetry; apply Nat.ltb_lt; lia).
    reflexivity.
  - destruct ((0 <=? j)%nat && (j <? 0 + num_descriptors cd)%nat); reflexivity.
Qed.

Lemma configure_ring_returns d channel cd :
  channel_data d channel = Some cd ->
  num_descriptors cd = length (descriptors cd) ->
  CONFIG_ASSERT bc = false ->
  exists d1, configure_ring bc d channel = Some d1.
Proof.
  intros Hcd Hlen Hassert. unfold configure_ring. rewrite Hcd.
  destruct (link_descriptors_returns (num_descriptors cd) 0
              (set_completion_desc_index 0
                 (set_populated_desc_index (size_t_pred bc (num_descriptors cd)) cd))
              Hassert) as [cd1 Hrun].
  { cbn. lia. }
  cbn [num_descriptors set_completion_desc_index set_populated_desc_index] in *.
  rewrite Hrun. eauto.
Qed.

Lemma configure_ring_asserts d channel cd :
  channel_data d channel = Some cd ->
  CONFIG_ASSERT bc = true ->
  (0 < num_descriptors cd)%nat ->
  configure_ring bc d channel = None.
Proof.
  intros Hcd Hassert Hpos. unfold configure_ring. rewrite Hcd.
  cbn [num_descriptors set_completion_desc_index set_populated_desc_index].
  rewrite link_descriptors_asserts by assumption. reflexivity.
Qed.

Lemma configure_offload_descriptors channel linked cd cd' :
  configure_offload bc channel linked cd = Some cd' ->
  descriptors cd' = descriptors cd
  /\ completion_desc_index cd' = completion_desc_index cd
  /\ populated_desc_index cd' = populated_desc_index cd
  /\ num_descriptors cd' = num_descriptors cd.
Proof.
  unfold configure_offload.
  destruct (linked =? _).
  - destruct (channel =? _); intros [= <-]; repeat split.
  - destruct (linked =? _); [|discriminate]. intros [= <-]. repeat split.
Qed.

(** [configure] up to its loop either returns early without touching the
    device, or has set up the ring of the channel. *)
Lemma configure_setup_spec cfg d channel dma_cfg cd res :
  channel_data d channel = Some cd ->
  num_descriptors cd = length (descriptors cd) ->
  configure_setup bc cfg d channel dma_cfg = Some res ->
  (exists e, res = inl (e, d))
  \/ exists d0 cd0,
       (res = inr d0 \/ res = inl (- EINVAL, d0))
       /\ channel_data d0 channel = Some cd0
       /\ num_descriptors cd0 = num_descriptors cd
       /\ populated_desc_index cd0 = size_t_pred bc (num_descriptors cd)
       /\ completion_desc_index cd0 = 0%nat
       /\ (forall j, descriptors cd0 !! j = linked bc cd j <$> descriptors cd !! j)
       /\ (forall ch', ch' <> channel -> channel_data d0 ch' = channel_data d ch')
       /\ List.filter is_release (trace d0) = List.filter is_release (trace d).
Proof.
  intros Hcd Hlen. unfold configure_setup.
  destruct (configure_rejects cfg channel dma_cfg) as [e|].
  { intros [= <-]. left. exists e. reflexivity. }
  destruct (configure_ring bc d channel) as [d1|] eqn:Hring; [|discriminate].
  destruct (configure_ring_spec d channel cd d1 Hcd Hlen Hring)
    as (cd1 & Hcd1 & Hd1 & Hrec & Hslots).
  rewrite Hcd1.
  assert (Hoth : forall c ch', ch' <> channel ->
            channel_data (set_channel_data channel c d1) ch' = channel_data d ch').
  { intros c ch' Hne. rewrite channel_data_set_other by exact Hne.
    rewrite Hd1, channel_data_write_desc_reg. apply channel_data_set_other. exact Hne. }
  assert (Htr : forall c, List.filter is_release (trace (set_channel_data channel c d1))
                          = List.filter is_release (trace d)).
  { intros c. rewrite trace_set_channel_data, Hd1, trace_write_desc_reg,
      trace_set_channel_data. reflexivity. }
  intros Hres. right.
  destruct (configure_offload bc channel (linked_channel dma_cfg) cd1) as [cd2|] eqn:Hoff;
    injection Hres as <-.
  - apply configure_offload_descriptors in Hoff. destruct Hoff as (Hds & Hc & Hp & Hn).
    eexists _, _. split; [left; reflexivity|].
    split; [eapply channel_data_set_same; exact Hcd1|].
    cbn [num_descriptors populated_desc_index completion_desc_index descriptors
           set_completion_callback].
    rewrite Hn, Hp, Hc, Hds, Hrec. cbn.
    repeat split; try reflexivity; [exact Hslots|apply Hoth|apply Htr].
  - eexists _, _. split; [right; reflexivity|].
    split; [eapply channel_data_set_same; exact Hcd1|].
    cbn [num_descriptors populated_desc_index completion_desc_index descriptors
           set_check_csum_in_isr].
    rewrite Hrec. cbn.
    repeat split; try reflexivity; [exact Hslots|apply Hoth|apply Htr].
Qed.

(** The device on which the submission loop of [configure] starts. *)
Lemma configure_setup_ready cfg d channel dma_cfg cd d0 :
  channel_data d channel = Some cd ->
  num_descriptors cd = length (descriptors cd) ->
  configure_setup bc cfg d channel dma_cfg = Some (inr d0) ->
  exists cd0,
    channel_data d0 channel = Some cd0
    /\ num_descriptors cd0 = num_descriptors cd
    /\ populated_desc_index cd0 = size_t_pred bc (num_descriptors cd)
    /\ completion_desc_index cd0 = 0%nat
    /\ (forall j, descriptors cd0 !! j = linked bc cd j <$> descriptors cd !! j)
    /\ (forall ch', ch' <> channel -> channel_data d0 ch' = channel_data d ch')
    /\ List.filter is_release (trace d0) = List.filter is_release (trace d).
Proof.
  intros Hcd Hlen Hsetup.
  destruct (configure_setup_spec cfg d channel dma_cfg cd _ Hcd Hlen Hsetup)
    as [[e He]|(d1 & cd0 & [He|He] & H)]; try discriminate.
  injection He as <-. exists cd0. exact H.
Qed.

(** C5 (amended). When [configure] accepts its arguments, then on the
    device on which its first submission is made every slot's
    next-descriptor link is the address of the following slot, the last
    slot's link the address of the first; control, status, the
    application words and the buffer address of every slot are what they
    were before the call. *)
Theorem configure_rebuilds_links cfg d channel dma_cfg cd d0 :
  channel_data d channel = Some cd ->
  num_descriptors cd = length (descriptors cd) ->
  configure_setup bc cfg d channel dma_cfg = Some (inr d0) ->
  dma_xilinx_axi_dma_configure bc cfg d channel dma_cfg
  = transfer_chain bc d0 channel 0 0%nat (head_block dma_cfg) (next_blocks dma_cfg)
  /\ exists cd0,
       channel_data d0 channel = Some cd0
       /\ length (descriptors cd0) = length (descriptors cd)
       /\ forall i cur,
            descriptors cd !! i = Some cur ->
            exists cur0,
              descriptors cd0 !! i = Some cur0
              /\ nxtdesc cur0
                 = Z.land (desc_addr cd ((i + 1) mod num_descriptors cd)%nat) 0xffffffff
              /\ (CONFIG_DMA_64BIT bc = true ->
                  nxtdesc_msb cur0
                  = Z.land (Z.shiftr (desc_addr cd ((i + 1) mod num_descriptors cd)%nat) 32)
                      0xffffffff)
              /\ control cur0 = control cur
              /\ status cur0 = status cur
              /\ (app0 cur0, app1 cur0, app2 cur0, app3 cur0, app4 cur0)
                 = (app0 cur, app1 cur, app2 cur, app3 cur, app4 cur)
              /\ buffer_address cur0 = buffer_address cur.
Proof.
  intros Hcd Hlen Hsetup. split.
  { unfold dma_xilinx_axi_dma_configure. rewrite Hsetup. reflexivity. }
  destruct (configure_setup_ready cfg d channel dma_cfg cd d0 Hcd Hlen Hsetup)
    as (cd0 & Hcd0 & _ & _ & _ & Hslots & _).
  exists cd0. split; [exact Hcd0|]. split.
  { apply Nat.le_antisymm.
    - destruct (Nat.le_gt_cases (length (descriptors cd0)) (length (descriptors cd)))
        as [H|H]; [exact H|].
      destruct (lookup_lt_is_Some_2 (descriptors cd0) (length (descriptors cd)) H)
        as [x Hx].
      rewrite Hslots, (lookup_ge_None_2 (descriptors cd)) in Hx by lia.
      discriminate.
    - destruct (Nat.le_gt_cases (length (descriptors cd)) (length (descriptors cd0)))
        as [H|H]; [exact H|].
      destruct (lookup_lt_is_Some_2 (descriptors cd) (length (descriptors cd0)) H)
        as [x Hx].
      pose proof (Hslots (length (descriptors cd0))) as Hs.
      rewrite Hx, (lookup_ge_None_2 (descriptors cd0)) in Hs by lia.
      discriminate. }
  intros i cur Hi. exists (linked bc cd i cur).
  split; [rewrite Hslots, Hi; reflexivity|].
  assert (Hsucc : (if (S i <? num_descriptors cd)%nat
                   then desc_addr cd (S i) else desc_addr cd 0)
                  = desc_addr cd ((i + 1) mod num_descriptors cd)%nat).
  { apply lookup_lt_Some in Hi. rewrite <- Hlen in Hi.
    rewrite <- next_index_mod by exact Hi. unfold next_index.
    destruct (Nat.ltb_spec (S i) (num_descriptors cd)),
      (Nat.leb_spec (num_descriptors cd) (S i)); try lia; reflexivity. }
  unfold linked, next_link. rewrite Hsucc.
  destruct (CONFIG_DMA_64BIT bc); cbn; repeat split; intros; congruence.
Qed.

End Configure.

(** C5, as claimed, fails: reconfiguring a send ring whose slot 1 is still
    in use succeeds and leaves the control, status and first application
    word of that slot non-zero. *)
Lemma configure_keeps_stale_words :
  exists d' cur,
    dma_xilinx_axi_dma_configure sample_build sample_config stale_device
      XILINX_AXI_DMA_TX_CHANNEL_NUM (sample_dma_config 0 None []) = Some (0, d')
    /\ descriptors (channels_tx d') !! 1%nat = Some cur
    /\ control cur <> 0 /\ status cur <> 0 /\ app0 cur <> 0.
Proof.
  eexists _, _. split; [vm_compute; reflexivity|].
  split; [vm_compute; reflexivity|].
  vm_compute. repeat split; discriminate.
Qed.

Lemma configure_rebuilds_links_witness :
  exists cd0,
    channel_data reconfigured_device 0 = Some cd0
    /\ length (descriptors cd0) = length (descriptors (channels_tx stale_device))
    /\ forall i cur,
         descriptors (channels_tx stale_device) !! i = Some cur ->
         exists cur0,
           descriptors cd0 !! i = Some cur0
           /\ nxtdesc cur0
              = Z.land (desc_addr (channels_tx stale_device)
                          ((i + 1) mod num_descriptors (channels_tx stale_device))%nat)
                  0xffffffff
           /\ (CONFIG_DMA_64BIT sample_build = true ->
               nxtdesc_msb cur0
               = Z.land (Z.shiftr
                           (desc_addr (channels_tx stale_device)
                              ((i + 1) mod num_descriptors (channels_tx stale_device))%nat)
                           32) 0xffffffff)
           /\ control cur0 = control cur
           /\ status cur0 = status cur
           /\ (app0 cur0, app1 cur0, app2 cur0, app3 cur0, app4 cur0)
              = (app0 cur, app1 cur, app2 cur, app3 cur, app4 cur)
           /\ buffer_address cur0 = buffer_address cur.
Proof.
  apply (configure_rebuilds_links sample_build sample_config stale_device 0
           (sample_dma_config 0 None []) (channels_tx stale_device)
           reconfigured_device).
  - reflexivity.
  - reflexivity.
  - vm_compute. reflexivity.
Defined.

(** *** The block chain *)

Section Chain.

Variable bc : build_config.

Lemma transfer_chain_marked channel rest : forall b d k total,
  total = (k + S (length rest))%nat ->
  transfer_chain bc d channel 0 k b rest
  = submit_marked bc d channel
      (imap (fun i x => (x, (k + i =? 0)%nat, (S (k + i) =? total)%nat)) (b :: rest)).
Proof.
  induction rest as [|next_block rest IH]; intros b d k total Htotal.
  - cbn [transfer_chain imap submit_marked Z.eqb negb].
    rewrite Nat.add_0_r.
    replace ((S k =? total)%nat) with true by (symmetry; apply Nat.eqb_eq; cbn in Htotal; lia).
    destruct (dma_xilinx_axi_dma_transfer_block bc d channel (block_address channel b)
                (block_size b) (k =? 0)%nat true) as [[r d']|]; [|reflexivity].
    destruct (r =? 0); reflexivity.
  - cbn [transfer_chain Z.eqb negb].
    rewrite imap_cons. cbn [submit_marked]. rewrite Nat.add_0_r.
    replace ((S k =? total)%nat) with false
      by (symmetry; apply Nat.eqb_neq; cbn in Htotal; lia).
    destruct (dma_xilinx_axi_dma_transfer_block bc d channel (block_address channel b)
                (block_size b) (k =? 0)%nat false) as [[r d']|]; [|reflexivity].
    destruct (r =? 0); [|reflexivity].
    cbn [Z.eqb].
    rewrite (IH next_block d' (S k) total) by (cbn in Htotal |- *; lia).
    f_equal. apply imap_ext. intros i x _. cbn.
    replace (k + S i)%nat with (S (k + i)) by lia. reflexivity.
Qed.

Lemma mark_chain_lookup blocks i b f l :
  mark_chain blocks !! i = Some (b, f, l) ->
  blocks !! i = Some b
  /\ (f = true <-> i = 0%nat)
  /\ (l = true <-> S i = length blocks).
Proof.
  unfold mark_chain. rewrite list_lookup_imap.
  destruct (blocks !! i) as [x|]; [|discriminate].
  cbn [fmap option_fmap option_map]. intros [= -> <- <-].
  split; [reflexivity|].
  split; [exact (Nat.eqb_eq i 0)|exact (Nat.eqb_eq (S i) (length blocks))].
Qed.

Lemma submit_marked_app channel pre : forall d d1 l,
  submit_marked bc d channel pre = Some (0, d1) ->
  submit_marked bc d channel (pre ++ l) = submit_marked bc d1 channel l.
Proof.
  induction pre as [|[[b f] la] pre IH]; intros d d1 l H.
  - cbn in H. injection H as <-. reflexivity.
  - cbn [submit_marked app] in *.
    destruct (dma_xilinx_axi_dma_transfer_block bc d channel (block_address channel b)
                (block_size b) f la) as [[r d']|]; [|discriminate].
    destruct (r =? 0); [|discriminate].
    apply IH. exact H.
Qed.

(** C8. When [configure] accepts its arguments, it submits the blocks of
    the chain in order, the first block only with [is_first] and the last
    block only with [is_last]; if the blocks before some block were
    accepted and that block is not, no later block is submitted and
    [configure] returns 1, which is not the 0 of success. *)
Theorem configure_block_chain cfg d channel dma_cfg d0 :
  configure_setup bc cfg d channel dma_cfg = Some (inr d0) ->
  let chain := head_block dma_cfg :: next_blocks dma_cfg in
  dma_xilinx_axi_dma_configure bc cfg d channel dma_cfg
  = submit_marked bc d0 channel (mark_chain chain)
  /\ (forall i b f l,
         mark_chain chain !! i = Some (b, f, l) ->
         chain !! i = Some b
         /\ (f = true <-> i = 0%nat)
         /\ (l = true <-> S i = length chain))
  /\ (forall pre b f l post r d1 d2,
         mark_chain chain = pre ++ (b, f, l) :: post ->
         submit_marked bc d0 channel pre = Some (0, d1) ->
         dma_xilinx_axi_dma_transfer_block bc d1 channel (block_address channel b)
           (block_size b) f l = Some (r, d2) ->
         r <> 0 ->
         dma_xilinx_axi_dma_configure bc cfg d channel dma_cfg = Some (1, d2)
         /\ 1 <> 0).
Proof.
  intros Hsetup chain.
  assert (Hrun : dma_xilinx_axi_dma_configure bc cfg d channel dma_cfg
                 = submit_marked bc d0 channel (mark_chain chain)).
  { unfold dma_xilinx_axi_dma_configure. rewrite Hsetup.
    apply (transfer_chain_marked channel (next_blocks dma_cfg) (head_block dma_cfg)
             d0 0%nat (length chain)).
    reflexivity. }
  split; [exact Hrun|]. split.
  - intros i b f l. apply mark_chain_lookup.
  - intros pre b f l post r d1 d2 Hsplit Hpre Hblock Hr.
    split; [|discriminate].
    rewrite Hrun, Hsplit, (submit_marked_app channel pre d0 d1) by exact Hpre.
    cbn [submit_marked]. rewrite Hblock.
    destruct (Z.eqb_spec r 0); [contradiction|reflexivity].
Qed.

End Chain.

Lemma configure_block_chain_witness :
  let chain := head_block long_chain_config :: next_blocks long_chain_config in
  dma_xilinx_axi_dma_configure sample_build sample_config (booted_device 2 2) 0
    long_chain_config
  = submit_marked sample_build chain_start_device 0 (mark_chain chain)
  /\ (forall i b f l,
         mark_chain chain !! i = Some (b, f, l) ->
         chain !! i = Some b
         /\ (f = true <-> i = 0%nat)
         /\ (l = true <-> S i = length chain))
  /\ (forall pre b f l post r d1 d2,
         mark_chain chain = pre ++ (b, f, l) :: post ->
         submit_marked sample_build chain_start_device 0 pre = Some (0, d1) ->
         dma_xilinx_axi_dma_transfer_block sample_build d1 0 (block_address 0 b)
           (block_size b) f l = Some (r, d2) ->
         r <> 0 ->
         dma_xilinx_axi_dma_configure sample_build sample_config (booted_device 2 2) 0
           long_chain_config = Some (1, d2)
         /\ 1 <> 0).
Proof.
  apply (configure_block_chain sample_build sample_config (booted_device 2 2) 0
           long_chain_config chain_start_device).
  vm_compute. reflexivity.
Defined.

(** The chain of three blocks on a ring of two slots: the third block is
    refused and [configure] returns 1 with two descriptors populated. *)
Lemma configure_long_chain_refused :
  exists d',
    dma_xilinx_axi_dma_configure sample_build sample_config (booted_device 2 2) 0
      long_chain_config = Some (1, d')
    /\ (control <$> descriptors (channels_tx d')) = [0x08000064; 0x000000C8]
    /\ populated_desc_index (channels_tx d') = 1%nat.
Proof.
  eexists. split; [vm_compute; reflexivity|]. vm_compute. split; reflexivity.
Qed.

(** *** The completion sweep *)

Lemma status_flagged_released cur : status_flagged (status (released cur)) = false.
Proof. reflexivity. Qed.

Lemma slot_free_released cur : slot_free (released cur).
Proof. split; reflexivity. Qed.

Lemma sweep_body_channel channel cd cur d :
  channel_data d channel = Some cd ->
  channel_data (sweep_body channel cd cur d) channel
  = Some (set_completion_desc_index
            (next_index (num_descriptors cd) (completion_desc_index cd))
            (set_descriptors
               (<[completion_desc_index cd := released cur]> (descriptors cd))
               (set_last_rx_size
                  (Z.land (status cur) XILINX_AXI_DMA_SG_DESCRIPTOR_STATUS_LENGTH_MASK)
                  cd))).
Proof.
  intros Hcd. unfold sweep_body.
  eapply channel_data_set_same. rewrite channel_data_emit.
  cbn [completion_callback set_last_rx_size].
  destruct (completion_callback cd); [rewrite channel_data_emit|]; exact Hcd.
Qed.

Lemma sweep_body_trace channel cd cur d :
  descriptors cd !! completion_desc_index cd = Some cur ->
  trace (sweep_body channel cd cur d)
  = trace d ++ reclaim_events cd (completion_desc_index cd).
Proof.
  intros Hcur. unfold sweep_body, reclaim_events, callback_channel.
  rewrite trace_set_channel_data, Hcur.
  cbn [completion_callback set_last_rx_size].
  destruct (completion_callback cd); cbn; rewrite <- ?app_assoc; reflexivity.
Qed.

Lemma sweep_body_frame channel cd cur d :
  irq_enabled (sweep_body channel cd cur d) = irq_enabled d
  /\ irqs_locked (sweep_body channel cd cur d) = irqs_locked d
  /\ forall channel', channel' <> channel ->
       channel_data (sweep_body channel cd cur d) channel' = channel_data d channel'.
Proof.
  unfold sweep_body.
  rewrite irq_enabled_set_channel_data, irqs_locked_set_channel_data.
  cbn [completion_callback set_last_rx_size].
  split; [destruct (completion_callback cd); reflexivity|].
  split; [destruct (completion_callback cd); reflexivity|].
  intros channel' Hne. unfold channel_data, set_channel_data.
  destruct (Z.eqb_spec channel XILINX_AXI_DMA_TX_CHANNEL_NUM);
    destruct (Z.eqb_spec channel XILINX_AXI_DMA_RX_CHANNEL_NUM);
    destruct (Z.eqb_spec channel' XILINX_AXI_DMA_TX_CHANNEL_NUM);
    destruct (Z.eqb_spec channel' XILINX_AXI_DMA_RX_CHANNEL_NUM);
    destruct (completion_callback cd); try reflexivity; congruence.
Qed.

Lemma flat_map_ext_elem {A B} (f g : A -> list B) (l : list A) :
  (forall a, a ∈ l -> f a = g a) -> flat_map f l = flat_map g l.
Proof.
  induction l as [|x l IH]; intros H; [reflexivity|].
  cbn. rewrite (H x) by left. rewrite IH; [reflexivity|].
  intros a Ha. apply H. right. exact Ha.
Qed.

Lemma reclaim_events_other c c' i :
  descriptors c' !! i = descriptors c !! i ->
  completion_callback c' = completion_callback c ->
  completion_callback_user_data c' = completion_callback_user_data c ->
  direction c' = direction c ->
  check_csum_in_isr c' = check_csum_in_isr c ->
  descriptors_addr c' = descriptors_addr c ->
  reclaim_events c' i = reclaim_events c i.
Proof.
  intros Hd Hcb Hud Hdir Hck Haddr.
  unfold reclaim_events, callback_channel, desc_addr.
  rewrite Hd, Hcb, Hud, Hdir, Hck, Haddr. reflexivity.
Qed.

(** What a sweep that returns has done, in terms of the channel [cd] it
    started on: it reclaimed the [m] slots that follow the consumer
    cursor in ring order, each of which was flagged, and stopped at a slot
    that is not. *)
Lemma sweep_loop_spec channel fuel : forall d cd acc k d',
  channel_data d channel = Some cd ->
  sweep_loop fuel channel acc d = Some (k, d') ->
  exists m cd' last_size,
    k = (acc + m)%nat
    /\ channel_data d' channel = Some cd'
    /\ cd' = set_completion_desc_index
               (Nat.iter m (next_index (num_descriptors cd)) (completion_desc_index cd))
               (set_descriptors (descriptors cd') (set_last_rx_size last_size cd))
    /\ trace d' = trace d ++ flat_map (reclaim_events cd) (swept_slots cd m)
    /\ Forall (slot_flagged cd) (swept_slots cd m)
    /\ NoDup (swept_slots cd m)
    /\ (forall i,
          descriptors cd' !! i
          = if bool_decide (i ∈ swept_slots cd m)
            then released <$> descriptors cd !! i
            else descriptors cd !! i)
    /\ (exists cur, descriptors cd' !! completion_desc_index cd' = Some cur
                    /\ status_flagged (status cur) = false)
    /\ irq_enabled d' = irq_enabled d
    /\ irqs_locked d' = irqs_locked d
    /\ (forall channel', channel' <> channel ->
          channel_data d' channel' = channel_data d channel').
Proof.
  induction fuel as [|fuel IH]; intros d cd acc k d' Hcd Hrun; [discriminate|].
  cbn [sweep_loop] in Hrun. rewrite Hcd in Hrun.
  destruct (descriptors cd !! completion_desc_index cd) as [cur|] eqn:Hcur;
    [|discriminate].
  destruct (status_flagged (status cur)) eqn:Hflag.
  - pose proof (sweep_body_channel channel cd cur d Hcd) as Hcd1.
    destruct (IH _ _ _ _ _ Hcd1 Hrun)
      as (m & cd' & ls & Hk & Hcd' & Hrec & Htr & Hfl & Hnd & Hslots & Hstop
          & Hen & Hlk & Hoth).
    clear IH Hrun.
    destruct (sweep_body_frame channel cd cur d) as (Hen1 & Hlk1 & Hoth1).
    set (cd1 := set_completion_desc_index
                  (next_index (num_descriptors cd) (completion_desc_index cd))
                  (set_descriptors
                     (<[completion_desc_index cd := released cur]> (descriptors cd))
                     (set_last_rx_size
                        (Z.land (status cur)
                           XILINX_AXI_DMA_SG_DESCRIPTOR_STATUS_LENGTH_MASK) cd))) in *.
    assert (Hwalk : swept_slots cd (S m) = completion_desc_index cd :: swept_slots cd1 m)
      by reflexivity.
    assert (Hlt : (completion_desc_index cd < length (descriptors cd))%nat)
      by (eapply lookup_lt_Some; exact Hcur).
    assert (Hc1 : descriptors cd1 !! completion_desc_index cd = Some (released cur)).
    { subst cd1. cbn [descriptors set_completion_desc_index set_descriptors].
      apply list_lookup_insert_eq. exact Hlt. }
    assert (Hnotin : completion_desc_index cd ∉ swept_slots cd1 m).
    { intros Hin. rewrite Forall_forall in Hfl.
      destruct (Hfl _ Hin) as (x & Hx & Hxf).
      rewrite Hc1 in Hx. injection Hx as <-.
      rewrite status_flagged_released in Hxf. discriminate. }
    assert (Hsame : forall i, i ∈ swept_slots cd1 m ->
                              descriptors cd1 !! i = descriptors cd !! i).
    { intros i Hin. subst cd1.
      cbn [descriptors set_completion_desc_index set_descriptors].
      apply list_lookup_insert_ne. intros Heq. apply Hnotin.
      rewrite <- Heq in Hin. exact Hin. }
    exists (S m), cd', ls.
    split; [lia|]. split; [exact Hcd'|]. split.
    { etransitivity; [exact Hrec|]. rewrite Nat.iter_succ_r. reflexivity. }
    split.
    { rewrite Htr, sweep_body_trace by exact Hcur.
      rewrite Hwalk. cbn [flat_map]. rewrite <- app_assoc. do 2 f_equal.
      apply flat_map_ext_elem.
      intros i Hin. apply reclaim_events_other; try reflexivity.
      apply Hsame. exact Hin. }
    split.
    { rewrite Hwalk. constructor.
      - exists cur. split; assumption.
      - rewrite Forall_forall in Hfl |- *. intros i Hin.
        destruct (Hfl i Hin) as (x & Hx & Hxf). exists x.
        rewrite <- (Hsame i Hin). split; assumption. }
    split; [rewrite Hwalk; constructor; assumption|].
    split.
    { intros i. rewrite Hslots, Hwalk.
      destruct (decide (i = completion_desc_index cd)) as [->|Hne].
      - rewrite (bool_decide_eq_false_2 _ Hnotin).
        rewrite bool_decide_eq_true_2 by (left).
        rewrite Hc1, Hcur. reflexivity.
      - assert (Hi1 : descriptors cd1 !! i = descriptors cd !! i).
        { subst cd1. cbn [descriptors set_completion_desc_index set_descriptors].
          apply list_lookup_insert_ne. congruence. }
        rewrite Hi1.
        destruct (decide (i ∈ swept_slots cd1 m)) as [Hin|Hnin].
        + rewrite !bool_decide_eq_true_2; [reflexivity| right; exact Hin | exact Hin].
        + rewrite !bool_decide_eq_false_2; [reflexivity| | exact Hnin].
          intros Hin. apply elem_of_cons in Hin. tauto. }
    split; [exact Hstop|].
    split; [rewrite Hen; exact Hen1|].
    split; [rewrite Hlk; exact Hlk1|].
    intros channel' Hne. rewrite Hoth by exact Hne. apply Hoth1. exact Hne.
  - injection Hrun as <- <-.
    exists 0%nat, cd, (last_rx_size cd).
    split; [lia|]. split; [exact Hcd|].
    split; [destruct cd; reflexivity|].
    split; [cbn; rewrite app_nil_r; reflexivity|].
    split; [constructor|]. split; [constructor|].
    split.
    { intros i. rewrite bool_decide_eq_false_2; [reflexivity|].
      cbn. apply not_elem_of_nil. }
    split; [exists cur; split; assumption|].
    repeat split.
Qed.

Lemma count_flagged_release ring i cur :
  ring !! i = Some cur ->
  status_flagged (status cur) = true ->
  S (count_flagged (<[i := released cur]> ring)) = count_flagged ring.
Proof.
  unfold count_flagged. revert i.
  induction ring as [|x ring IH]; intros i Hi Hf; [discriminate|].
  destruct i as [|i]; cbn in Hi |- *.
  - injection Hi as ->. rewrite Hf. reflexivity.
  - destruct (status_flagged (status x)); cbn; rewrite <- (IH i Hi Hf); reflexivity.
Qed.

Lemma count_flagged_le ring : (count_flagged ring <= length ring)%nat.
Proof. unfold count_flagged. apply List.filter_length_le. Qed.

(** On a channel whose array has the recorded length and whose consumer
    cursor lies inside it, the loop ends before its fuel does. *)
Lemma sweep_loop_total channel fuel : forall d cd acc,
  channel_data d channel = Some cd ->
  num_descriptors cd = length (descriptors cd) ->
  (completion_desc_index cd < num_descriptors cd)%nat ->
  (count_flagged (descriptors cd) < fuel)%nat ->
  exists k d', sweep_loop fuel channel acc d = Some (k, d').
Proof.
  induction fuel as [|fuel IH]; intros d cd acc Hcd Hlen Hc Hfuel; [lia|].
  cbn [sweep_loop]. rewrite Hcd.
  destruct (lookup_lt_is_Some_2 (descriptors cd) (completion_desc_index cd))
    as [cur Hcur]; [lia|].
  rewrite Hcur.
  destruct (status_flagged (status cur)) eqn:Hflag; [|eauto].
  eapply IH.
  - apply sweep_body_channel. exact Hcd.
  - cbn. rewrite length_insert. exact Hlen.
  - cbn. apply next_index_lt. lia.
  - cbn [descriptors set_completion_desc_index set_descriptors set_last_rx_size].
    pose proof (count_flagged_release _ _ _ Hcur Hflag). lia.
Qed.

Lemma clean_up_total d channel cd :
  channel_data d channel = Some cd ->
  num_descriptors cd = length (descriptors cd) ->
  (completion_desc_index cd < num_descriptors cd)%nat ->
  exists k d', dma_xilinx_axi_dma_clean_up_sg_descriptors d channel = Some (k, d').
Proof.
  intros Hcd Hlen Hc. unfold dma_xilinx_axi_dma_clean_up_sg_descriptors.
  rewrite Hcd. eapply sweep_loop_total; eauto.
  pose proof (count_flagged_le (descriptors cd)). lia.
Qed.

Lemma mod_window n com k :
  (com < k)%nat -> (k < com + n)%nat -> (k mod n)%nat <> (com mod n)%nat.
Proof.
  intros H1 H2 Heq.
  pose proof (Nat.div_mod_eq k n). pose proof (Nat.div_mod_eq com n).
  rewrite Heq in H.
  generalize dependent (k / n)%nat. generalize dependent (com / n)%nat.
  generalize dependent (com mod n)%nat. intros r _ b Hb a Ha.
  destruct (Nat.le_gt_cases a b) as [Hab|Hab].
  - assert (n * a <= n * b)%nat by (apply Nat.mul_le_mono_l; exact Hab). lia.
  - assert (n * (b + 1) <= n * a)%nat by (apply Nat.mul_le_mono_l; lia). lia.
Qed.

(** The walk of the sweep, slot by slot: the [j]-th slot it visits is
    [(i + j) mod num]. *)
Lemma ring_walk_lookup num : forall k i j,
  (i < num)%nat -> (j < k)%nat ->
  ring_walk num i k !! j = Some ((i + j) mod num)%nat.
Proof.
  induction k as [|k IH]; intros i j Hi Hj; [lia|].
  destruct j as [|j]; cbn [ring_walk].
  - cbn. rewrite Nat.add_0_r, Nat.mod_small by exact Hi. reflexivity.
  - change ((i :: ring_walk num (next_index num i) k) !! S j)
      with (ring_walk num (next_index num i) k !! j).
    rewrite IH by (try apply next_index_lt; lia).
    rewrite next_index_mod by exact Hi.
    rewrite Nat.Div0.add_mod_idemp_l. do 2 f_equal. lia.
Qed.

Lemma ring_walk_length num : forall k i, length (ring_walk num i k) = k.
Proof.
  induction k as [|k IH]; intros i; [reflexivity|]. cbn. rewrite IH. reflexivity.
Qed.

Lemma ring_walk_elem num k i x :
  (i < num)%nat ->
  x ∈ ring_walk num i k <-> exists j, (j < k)%nat /\ x = ((i + j) mod num)%nat.
Proof.
  intros Hi. rewrite list_elem_of_lookup. split.
  - intros [j Hj]. exists j.
    assert (Hlt : (j < k)%nat).
    { apply lookup_lt_Some in Hj. rewrite ring_walk_length in Hj. exact Hj. }
    split; [exact Hlt|].
    rewrite (ring_walk_lookup num k i j Hi Hlt) in Hj. congruence.
  - intros (j & Hj & ->). exists j. apply ring_walk_lookup; assumption.
Qed.

Lemma iter_next_index num k i :
  (i < num)%nat -> Nat.iter k (next_index num) i = ((i + k) mod num)%nat.
Proof.
  intros Hi. induction k as [|k IH].
  - cbn. rewrite Nat.add_0_r, Nat.mod_small by exact Hi. reflexivity.
  - rewrite Nat.iter_succ, IH.
    rewrite next_index_mod by (apply Nat.mod_upper_bound; lia).
    rewrite Nat.Div0.add_mod_idemp_l. f_equal. lia.
Qed.

(** A walk without repetition visits at most every slot of the ring. *)
Lemma ring_walk_nodup_le num k i :
  (i < num)%nat -> NoDup (ring_walk num i k) -> (k <= num)%nat.
Proof.
  intros Hi Hnd.
  pose proof (submseteq_length (ring_walk num i k) (seq 0 num)) as Hle.
  rewrite ring_walk_length, length_seq in Hle.
  apply Hle, NoDup_submseteq; [exact Hnd|].
  intros x Hx. apply (ring_walk_elem num k i x Hi) in Hx.
  destruct Hx as (j & _ & ->). apply elem_of_seq.
  pose proof (Nat.mod_upper_bound (i + j) num). lia.
Qed.

(** The slot a walk of fewer than [num] steps stops at is none of those
    it visited. *)
Lemma ring_walk_stop_fresh num k i :
  (i < num)%nat -> (k < num)%nat -> ((i + k) mod num)%nat ∉ ring_walk num i k.
Proof.
  intros Hi Hk Hin. apply (ring_walk_elem num k i _ Hi) in Hin.
  destruct Hin as (j & Hj & Heq).
  apply (mod_window num (i + j) (i + k)); [lia|lia|exact Heq].
Qed.

(** *** Operations that do not reclaim *)

Lemma keeps_busy_slots_refl c : keeps_busy_slots c c.
Proof. intros i cur Hi _. exists cur. repeat split. exact Hi. Qed.

Lemma keeps_busy_slots_trans c1 c2 c3 :
  keeps_busy_slots c1 c2 -> keeps_busy_slots c2 c3 -> keeps_busy_slots c1 c3.
Proof.
  intros H12 H23 i cur Hi Hbusy.
  destruct (H12 i cur Hi Hbusy) as (cur2 & Hi2 & Hc2 & Hs2).
  destruct (H23 i cur2 Hi2) as (cur3 & Hi3 & Hc3 & Hs3).
  { unfold slot_free. rewrite Hc2, Hs2. exact Hbusy. }
  exists cur3. split; [exact Hi3|]. split; congruence.
Qed.

Lemma no_reclaim_refl d : no_reclaim d d.
Proof. repeat split; apply keeps_busy_slots_refl. Qed.

Lemma no_reclaim_trans d1 d2 d3 :
  no_reclaim d1 d2 -> no_reclaim d2 d3 -> no_reclaim d1 d3.
Proof.
  intros (Ht12 & Hr12 & He12) (Ht23 & Hr23 & He23). split; [|split].
  - eapply keeps_busy_slots_trans; eassumption.
  - eapply keeps_busy_slots_trans; eassumption.
  - congruence.
Qed.

Lemma same_completion_index_trans d1 d2 d3 :
  same_completion_index d1 d2 -> same_completion_index d2 d3 ->
  same_completion_index d1 d3.
Proof. intros [H1 H2] [H3 H4]. split; congruence. Qed.

Lemma channel_data_tx d : channel_data d XILINX_AXI_DMA_TX_CHANNEL_NUM = Some (channels_tx d).
Proof. reflexivity. Qed.

Lemma channel_data_rx d : channel_data d XILINX_AXI_DMA_RX_CHANNEL_NUM = Some (channels_rx d).
Proof. reflexivity. Qed.

(** A change confined to one channel, seen from the two channels. *)
Lemma by_channel (P : dma_xilinx_axi_dma_channel -> dma_xilinx_axi_dma_channel -> Prop)
    d d' channel cd cd' :
  (forall c, P c c) ->
  channel_data d channel = Some cd ->
  channel_data d' channel = Some cd' ->
  (forall channel', channel' <> channel ->
     channel_data d' channel' = channel_data d channel') ->
  P cd cd' ->
  P (channels_tx d) (channels_tx d') /\ P (channels_rx d) (channels_rx d').
Proof.
  intros Hrefl Hcd Hcd' Hoth HP.
  destruct (channel_data_valid _ _ _ Hcd) as [-> | ->].
  - rewrite channel_data_tx in Hcd, Hcd'. injection Hcd as <-. injection Hcd' as <-.
    split; [exact HP|].
    specialize (Hoth XILINX_AXI_DMA_RX_CHANNEL_NUM ltac:(discriminate)).
    rewrite !channel_data_rx in Hoth. injection Hoth as ->. apply Hrefl.
  - rewrite channel_data_rx in Hcd, Hcd'. injection Hcd as <-. injection Hcd' as <-.
    split; [|exact HP].
    specialize (Hoth XILINX_AXI_DMA_TX_CHANNEL_NUM ltac:(discriminate)).
    rewrite !channel_data_tx in Hoth. injection Hoth as ->. apply Hrefl.
Qed.

Section Quiet.

Variable bc : build_config.

Lemma channel_data_unlock d channel' key d' channel :
  dma_xilinx_axi_dma_unlock_irq bc d channel' key = Some d' ->
  channel_data d' channel = channel_data d channel.
Proof.
  intros Hu. destruct (unlock_irq_frame bc _ _ _ _ Hu) as (Htx & Hrx & _).
  unfold channel_data. rewrite Htx, Hrx. reflexivity.
Qed.

Lemma releases_lock d channel key dl :
  dma_xilinx_axi_dma_lock_irq bc d channel = Some (key, dl) ->
  List.filter is_release (trace dl) = List.filter is_release (trace d).
Proof.
  intros Hl. destruct (lock_irq_frame bc _ _ _ _ Hl) as (_ & _ & Htr).
  rewrite Htr, List.filter_app. cbn. apply app_nil_r.
Qed.

Lemma releases_unlock d channel key d' :
  dma_xilinx_axi_dma_unlock_irq bc d channel key = Some d' ->
  List.filter is_release (trace d') = List.filter is_release (trace d).
Proof.
  intros Hu. destruct (unlock_irq_frame bc _ _ _ _ Hu) as (_ & _ & Htr).
  rewrite Htr, List.filter_app. cbn. apply app_nil_r.
Qed.

(** The channel a submission leaves behind. *)
Lemma transfer_block_result d channel buffer_addr block_size is_first is_last r d' :
  dma_xilinx_axi_dma_transfer_block bc d channel buffer_addr block_size
    is_first is_last = Some (r, d') ->
  exists cd cur cd',
    let next := next_index (num_descriptors cd) (populated_desc_index cd) in
    channel_data d channel = Some cd
    /\ descriptors cd !! next = Some cur
    /\ channel_data d' channel = Some cd'
    /\ (forall channel', channel' <> channel ->
          channel_data d' channel' = channel_data d channel')
    /\ List.filter is_release (trace d') = List.filter is_release (trace d)
    /\ ((r = - EBUSY /\ ~ slot_free cur /\ cd' = cd)
        \/ (r = - EINVAL /\ slot_free cur
            /\ (cd' = cd
                \/ cd' = set_descriptors
                           (<[next := addressed_descriptor bc cd buffer_addr cur]>
                              (descriptors cd)) cd))
        \/ (r = 0 /\ slot_free cur /\ block_size <= UINT32_MAX
            /\ cd' = set_populated_desc_index next
                       (set_descriptors
                          (<[next := populated_descriptor bc cd buffer_addr block_size
                                       is_first is_last cur]> (descriptors cd)) cd))).
Proof.
  intros H. apply transfer_block_inv in H.
  destruct H as (cd & cur & key & dl & Hcd & Hlock & Hcur & H). cbn zeta in H.
  exists cd, cur.
  assert (Hcdl : channel_data dl channel = Some cd)
    by (rewrite (channel_data_lock bc _ _ _ _ _ Hlock); exact Hcd).
  pose proof (releases_lock _ _ _ _ Hlock) as Hrl.
  assert (Hothl : forall ch', channel_data dl ch' = channel_data d ch')
    by (intros ch'; exact (channel_data_lock bc _ _ _ _ _ Hlock)).
  destruct H as [(-> & Hb & Hu)|[(-> & Hf & _ & _ & Hu)|[(-> & Hf & _ & Hu)
                 |(-> & Hf & Hsz & Hu)]]];
    pose proof (fun ch => channel_data_unlock _ _ _ _ ch Hu) as Hcu;
    pose proof (releases_unlock _ _ _ _ Hu) as Hru.
  - exists cd. cbn zeta. split; [exact Hcd|]. split; [exact Hcur|].
    split; [rewrite Hcu; exact Hcdl|].
    split; [intros ch' _; rewrite Hcu; apply Hothl|].
    split; [rewrite Hru; exact Hrl|].
    left. split; [reflexivity|]. split; [|reflexivity].
    unfold slot_free. tauto.
  - exists cd. cbn zeta. split; [exact Hcd|]. split; [exact Hcur|].
    split; [rewrite Hcu; exact Hcdl|].
    split; [intros ch' _; rewrite Hcu; apply Hothl|].
    split; [rewrite Hru; exact Hrl|].
    right; left. split; [reflexivity|]. split; [exact Hf|]. left. reflexivity.
  - eexists. cbn zeta. split; [exact Hcd|]. split; [exact Hcur|].
    split; [rewrite Hcu; eapply channel_data_set_same; exact Hcdl|].
    split.
    { intros ch' Hne. rewrite Hcu, channel_data_set_other by exact Hne.
      apply Hothl. }
    split; [rewrite Hru, trace_set_channel_data; exact Hrl|].
    right; left. split; [reflexivity|]. split; [exact Hf|]. right. reflexivity.
  - eexists. cbn zeta. split; [exact Hcd|]. split; [exact Hcur|].
    split; [rewrite Hcu; eapply channel_data_set_same; exact Hcdl|].
    split.
    { intros ch' Hne. rewrite Hcu, channel_data_set_other by exact Hne.
      apply Hothl. }
    split; [rewrite Hru, trace_set_channel_data; exact Hrl|].
    right; right. split; [reflexivity|]. split; [exact Hf|]. split; [exact Hsz|].
    reflexivity.
Qed.

Lemma keeps_busy_slots_insert_free c next cur x c' :
  descriptors c !! next = Some cur ->
  slot_free cur ->
  descriptors c' = <[next := x]> (descriptors c) ->
  keeps_busy_slots c c'.
Proof.
  intros Hnext Hfree Hds i cur_i Hi Hbusy.
  exists cur_i. repeat split. rewrite Hds.
  rewrite list_lookup_insert_ne; [exact Hi|].
  intros <-. rewrite Hnext in Hi. injection Hi as <-. contradiction.
Qed.

Lemma transfer_block_quiet d channel buffer_addr block_size is_first is_last r d' :
  dma_xilinx_axi_dma_transfer_block bc d channel buffer_addr block_size
    is_first is_last = Some (r, d') ->
  no_reclaim d d' /\ same_completion_index d d'.
Proof.
  intros H. apply transfer_block_result in H.
  destruct H as (cd & cur & cd' & Hcd & Hcur & Hcd' & Hoth & Htr & Hcases).
  cbn zeta in *.
  assert (Hkeep : keeps_busy_slots cd cd'
                  /\ completion_desc_index cd' = completion_desc_index cd).
  { destruct Hcases as [(_ & _ & ->)|[(_ & Hf & [-> | ->])|(_ & Hf & _ & ->)]].
    - split; [apply keeps_busy_slots_refl|reflexivity].
    - split; [apply keeps_busy_slots_refl|reflexivity].
    - split; [|reflexivity].
      eapply keeps_busy_slots_insert_free; [exact Hcur|exact Hf|reflexivity].
    - split; [|reflexivity].
      eapply keeps_busy_slots_insert_free; [exact Hcur|exact Hf|reflexivity]. }
  destruct Hkeep as [Hkeep Hci].
  destruct (by_channel keeps_busy_slots d d' channel cd cd'
              keeps_busy_slots_refl Hcd Hcd' Hoth Hkeep) as [Ht Hr].
  destruct (by_channel (fun c c' => completion_desc_index c' = completion_desc_index c)
              d d' channel cd cd' (fun c => eq_refl) Hcd Hcd' Hoth Hci) as [Hct Hcr].
  repeat split; assumption.
Qed.

Lemma submit_marked_quiet channel l : forall d r d',
  submit_marked bc d channel l = Some (r, d') ->
  no_reclaim d d' /\ same_completion_index d d'.
Proof.
  induction l as [|[[b f] la] l IH]; intros d r d' H.
  - injection H as <- <-. split; [apply no_reclaim_refl|split; reflexivity].
  - cbn [submit_marked] in H.
    destruct (dma_xilinx_axi_dma_transfer_block bc d channel (block_address channel b)
                (block_size b) f la) as [[r1 d1]|] eqn:Hb; [|discriminate].
    destruct (transfer_block_quiet _ _ _ _ _ _ _ _ Hb) as [Hn1 Hc1].
    destruct (r1 =? 0).
    + destruct (IH _ _ _ H) as [Hn2 Hc2].
      split; [eapply no_reclaim_trans|eapply same_completion_index_trans]; eassumption.
    + injection H as <- <-. split; assumption.
Qed.

End Quiet.

Section Sole.

Variable bc : build_config.

Lemma start_quiet cfg d channel dmasr r d' :
  dma_xilinx_axi_dma_start bc cfg d channel dmasr = Some (r, d') ->
  no_reclaim d d' /\ same_completion_index d d'.
Proof.
  unfold dma_xilinx_axi_dma_start, unlock_and_return.
  destruct (dma_xilinx_axi_dma_lock_irq bc d channel) as [[key dl]|] eqn:Hlock;
    [|discriminate].
  destruct (lock_irq_frame bc _ _ _ _ Hlock) as (Htx & Hrx & _).
  pose proof (releases_lock bc _ _ _ _ Hlock) as Htr.
  assert (Hdone : forall dm du,
             channels_tx dm = channels_tx dl -> channels_rx dm = channels_rx dl ->
             List.filter is_release (trace dm) = List.filter is_release (trace dl) ->
             dma_xilinx_axi_dma_unlock_irq bc dm channel key = Some du ->
             no_reclaim d du /\ same_completion_index d du).
  { intros dm du Ht Hr He Hu.
    destruct (unlock_irq_frame bc _ _ _ _ Hu) as (Hut & Hur & _).
    unfold no_reclaim, same_completion_index.
    rewrite (releases_unlock bc _ _ _ _ Hu), Hut, Hur, Ht, Hr, He, Htx, Hrx, Htr.
    repeat split; apply keeps_busy_slots_refl. }
  destruct (channel >=? channels cfg).
  - destruct (dma_xilinx_axi_dma_unlock_irq bc dl channel key) as [du|] eqn:Hu;
      [|discriminate].
    intros [= <- <-]. apply (Hdone dl du); solve [reflexivity | exact Hu].
  - destruct (channel_data dl channel) as [cd|]; [|discriminate].
    match goal with
    | |- match ?u with _ => _ end = _ -> _ => destruct u as [du|] eqn:Hu; [|discriminate]
    end.
    intros [= <- <-]. eapply Hdone; [| | |exact Hu].
    + unfold write_desc_reg, dma_xilinx_axi_dma_write_reg.
      destruct (CONFIG_DMA_64BIT bc), (tst dmasr XILINX_AXI_DMA_REGS_DMASR_HALTED);
        reflexivity.
    + unfold write_desc_reg, dma_xilinx_axi_dma_write_reg.
      destruct (CONFIG_DMA_64BIT bc), (tst dmasr XILINX_AXI_DMA_REGS_DMASR_HALTED);
        reflexivity.
    + rewrite trace_write_desc_reg.
      destruct (tst dmasr XILINX_AXI_DMA_REGS_DMASR_HALTED); [|reflexivity].
      cbn. rewrite List.filter_app. cbn. apply app_nil_r.
Qed.

Lemma stop_quiet cfg d channel dmacr r d' :
  dma_xilinx_axi_dma_stop cfg d channel dmacr = Some (r, d') ->
  no_reclaim d d' /\ same_completion_index d d'.
Proof.
  unfold dma_xilinx_axi_dma_stop.
  destruct (channel >=? channels cfg).
  - intros [= <- <-]. split; [apply no_reclaim_refl|split; reflexivity].
  - destruct (channel_data d channel) as [cd|]; [|discriminate].
    intros [= <- <-]. unfold no_reclaim, same_completion_index.
    cbn. rewrite List.filter_app. cbn. rewrite app_nil_r.
    repeat split; apply keeps_busy_slots_refl.
Qed.

Lemma reload_quiet cfg d channel src dst size r d' :
  dma_xilinx_axi_dma_config_reload bc cfg d channel src dst size = Some (r, d') ->
  no_reclaim d d' /\ same_completion_index d d'.
Proof.
  unfold dma_xilinx_axi_dma_config_reload.
  destruct (channel >=? channels cfg).
  - intros [= <- <-]. split; [apply no_reclaim_refl|split; reflexivity].
  - apply transfer_block_quiet.
Qed.

Lemma control_status_link_descriptor c i cur :
  control (linked bc c i cur) = control cur
  /\ status (linked bc c i cur) = status cur.
Proof. unfold linked. destruct (CONFIG_DMA_64BIT bc); split; reflexivity. Qed.

Lemma configure_quiet cfg d channel dma_cfg cd r d' :
  channel_data d channel = Some cd ->
  num_descriptors cd = length (descriptors cd) ->
  dma_xilinx_axi_dma_configure bc cfg d channel dma_cfg = Some (r, d') ->
  no_reclaim d d' /\ completion_kept_or_reset d d'.
Proof.
  intros Hcd Hlen. unfold dma_xilinx_axi_dma_configure.
  destruct (configure_setup bc cfg d channel dma_cfg) as [res|] eqn:Hsetup;
    [|discriminate].
  destruct (configure_setup_spec bc cfg d channel dma_cfg cd res Hcd Hlen Hsetup)
    as [[e ->]|(d0 & cd0 & Hres & Hcd0 & _ & _ & Hc0 & Hslots & Hoth & Htr)].
  { intros [= <- <-]. split; [apply no_reclaim_refl|]. split; left; reflexivity. }
  assert (Hkeep : keeps_busy_slots cd cd0).
  { intros i cur Hi _. exists (linked bc cd i cur).
    rewrite Hslots, Hi. split; [reflexivity|]. apply control_status_link_descriptor. }
  destruct (by_channel keeps_busy_slots d d0 channel cd cd0
              keeps_busy_slots_refl Hcd Hcd0 Hoth Hkeep) as [Ht Hr].
  destruct (by_channel (fun c c' => completion_desc_index c' = completion_desc_index c
                                    \/ completion_desc_index c' = 0%nat)
              d d0 channel cd cd0 (fun c => or_introl eq_refl) Hcd Hcd0 Hoth
              (or_intror Hc0)) as [Hct Hcr].
  assert (Hn0 : no_reclaim d d0) by (repeat split; assumption).
  destruct Hres as [-> | ->].
  - rewrite (transfer_chain_marked bc channel (next_blocks dma_cfg) (head_block dma_cfg)
               d0 0%nat (S (length (next_blocks dma_cfg)))) by reflexivity.
    intros Hrun. apply submit_marked_quiet in Hrun. destruct Hrun as [Hn1 [Hs1 Hs2]].
    split; [eapply no_reclaim_trans; eassumption|].
    split; [rewrite Hs1; exact Hct|rewrite Hs2; exact Hcr].
  - intros [= <- <-]. split; [exact Hn0|]. split; assumption.
Qed.

(** C6 (amended). On a well-formed channel the sweep returns; it reclaims
    the slots that follow the consumer cursor in ring order, each once and
    each flagged complete or errored, up to the first slot that is not
    flagged (or once round the ring): a flagged slot at the cursor is
    reclaimed, and the sweep leaves the cursor on the slot it stopped at,
    which is then not flagged.  For each reclaimed slot it invokes the
    callback once if one is registered (not at all if none is) and after
    that clears the slot's control and status; no other slot is touched.
    [transfer_block], [reload], [start] and [stop] release no descriptor,
    clear no control or status word of a slot in use, and leave the
    consumer cursor alone; [configure] does the same except that it may
    reset the consumer cursor to 0. *)
Theorem sweep_reclaims_once d channel cd :
  channel_data d channel = Some cd ->
  channel_wf cd ->
  (exists k d' cd',
      dma_xilinx_axi_dma_clean_up_sg_descriptors d channel = Some (k, d')
      /\ channel_data d' channel = Some cd'
      /\ trace d' = trace d ++ flat_map (reclaim_events cd) (swept_slots cd k)
      /\ NoDup (swept_slots cd k)
      /\ Forall (slot_flagged cd) (swept_slots cd k)
      /\ (forall i, i ∈ swept_slots cd k ->
            exists cur', descriptors cd' !! i = Some cur' /\ slot_free cur')
      /\ (forall i, i ∉ swept_slots cd k -> descriptors cd' !! i = descriptors cd !! i)
      /\ (forall cb, completion_callback cd = Some cb ->
            length (callback_results (trace d'))
            = (length (callback_results (trace d)) + k)%nat)
      /\ (completion_callback cd = None ->
            callback_results (trace d') = callback_results (trace d))
      /\ (k <= num_descriptors cd)%nat
      /\ (forall j, (j < k)%nat ->
            swept_slots cd k !! j
            = Some ((completion_desc_index cd + j) mod num_descriptors cd)%nat)
      /\ completion_desc_index cd'
         = ((completion_desc_index cd + k) mod num_descriptors cd)%nat
      /\ (exists cur, descriptors cd' !! completion_desc_index cd' = Some cur
                      /\ status_flagged (status cur) = false)
      /\ ((k < num_descriptors cd)%nat ->
            ~ slot_flagged cd
                ((completion_desc_index cd + k) mod num_descriptors cd)%nat)
      /\ (slot_flagged cd (completion_desc_index cd) ->
            (0 < k)%nat /\ completion_desc_index cd ∈ swept_slots cd k))
  /\ (forall buffer_addr block_size is_first is_last r d',
         dma_xilinx_axi_dma_transfer_block bc d channel buffer_addr block_size
           is_first is_last = Some (r, d') ->
         no_reclaim d d' /\ same_completion_index d d')
  /\ (forall cfg src dst size r d',
         dma_xilinx_axi_dma_config_reload bc cfg d channel src dst size = Some (r, d') ->
         no_reclaim d d' /\ same_completion_index d d')
  /\ (forall cfg dmasr r d',
         dma_xilinx_axi_dma_start bc cfg d channel dmasr = Some (r, d') ->
         no_reclaim d d' /\ same_completion_index d d')
  /\ (forall cfg dmacr r d',
         dma_xilinx_axi_dma_stop cfg d channel dmacr = Some (r, d') ->
         no_reclaim d d' /\ same_completion_index d d')
  /\ (forall cfg dma_cfg r d',
         dma_xilinx_axi_dma_configure bc cfg d channel dma_cfg = Some (r, d') ->
         no_reclaim d d' /\ completion_kept_or_reset d d').
Proof.
  intros Hcd (Hlen & Hp & Hc).
  split.
  - destruct (clean_up_total d channel cd Hcd Hlen Hc) as (k & d' & Hrun).
    exists k, d'. unfold dma_xilinx_axi_dma_clean_up_sg_descriptors in Hrun |- *.
    rewrite Hcd in Hrun |- *.
    destruct (sweep_loop_spec channel _ d cd 0%nat k d' Hcd Hrun)
      as (m & cd' & ls & Hk & Hcd' & Hrec & Htr & Hfl & Hnd & Hslots & Hstop & _).
    cbn in Hk. subst m.
    assert (Hcur' : completion_desc_index cd'
                    = ((completion_desc_index cd + k) mod num_descriptors cd)%nat).
    { rewrite <- (iter_next_index _ k _ Hc). rewrite Hrec. reflexivity. }
    assert (Hmax : (k < num_descriptors cd)%nat ->
                   ~ slot_flagged cd
                       ((completion_desc_index cd + k) mod num_descriptors cd)%nat).
    { intros Hlt (cur & Hcur & Hflag).
      destruct Hstop as (cur' & Hlook & Hnot).
      rewrite Hcur', Hslots in Hlook.
      rewrite bool_decide_eq_false_2 in Hlook
        by (apply ring_walk_stop_fresh; assumption).
      congruence. }
    exists cd'. split; [exact Hrun|]. split; [exact Hcd'|]. split; [exact Htr|].
    split; [exact Hnd|]. split; [exact Hfl|].
    split.
    { intros i Hin. rewrite Hslots, bool_decide_eq_true_2 by exact Hin.
      rewrite Forall_forall in Hfl. destruct (Hfl i Hin) as (cur & -> & _).
      exists (released cur). split; [reflexivity|apply slot_free_released]. }
    split.
    { intros i Hnin. rewrite Hslots, bool_decide_eq_false_2 by exact Hnin.
      reflexivity. }
    assert (Hev : forall l,
               Forall (slot_flagged cd) l ->
               callback_results (flat_map (reclaim_events cd) l)
               = flat_map (fun i =>
                             match completion_callback cd, descriptors cd !! i with
                             | Some _, Some cur =>
                                 [descriptor_retval (check_csum_in_isr cd) (status cur)
                                    (app2 cur)]
                             | _, _ => []
                             end) l).
    { clear. induction l as [|i l IH]; intros Hl; [reflexivity|].
      inversion Hl as [|? ? (cur & Hi & _) Hl']; subst.
      cbn [flat_map]. rewrite callback_results_app, IH by exact Hl'.
      f_equal. unfold reclaim_events. rewrite Hi.
      destruct (completion_callback cd); reflexivity. }
    split.
    + intros cb Hcb. rewrite Htr, callback_results_app, length_app, Hev by exact Hfl.
      f_equal. rewrite Hcb.
      assert (Hlen_walk : length (swept_slots cd k) = k).
      { unfold swept_slots. generalize (completion_desc_index cd).
        clear. induction k as [|k IH]; intros i; [reflexivity|].
        cbn. rewrite IH. reflexivity. }
      rewrite <- Hlen_walk at 2.
      revert Hfl. clear. generalize (swept_slots cd k).
      induction l as [|i l IH]; intros Hl; [reflexivity|].
      inversion Hl as [|? ? (cur & Hi & _) Hl']; subst.
      cbn [flat_map]. rewrite length_app, IH by exact Hl'. rewrite Hi. reflexivity.
    + split.
      { intros Hnone. rewrite Htr, callback_results_app, Hev by exact Hfl.
        rewrite Hnone. replace (flat_map _ _) with (@nil Z); [apply app_nil_r|].
        clear. induction (swept_slots cd k) as [|i l IH]; [reflexivity|exact IH]. }
      split; [exact (ring_walk_nodup_le _ _ _ Hc Hnd)|].
      split; [intros j Hj; apply ring_walk_lookup; assumption|].
      split; [exact Hcur'|]. split; [exact Hstop|]. split; [exact Hmax|].
      intros Hflag. destruct k as [|k].
      * exfalso. apply Hmax; [lia|].
        rewrite Nat.add_0_r, Nat.mod_small by exact Hc. exact Hflag.
      * split; [lia|]. left.
  - split; [intros; eapply transfer_block_quiet; eassumption|].
    split; [intros; eapply reload_quiet; eassumption|].
    split; [intros; eapply start_quiet; eassumption|].
    split; [intros; eapply stop_quiet; eassumption|].
    intros; eapply configure_quiet; eassumption.
Qed.

End Sole.

(** C6, as claimed, fails: with no callback registered the sweep finds
    two descriptors flagged, reclaims both, and invokes nothing. *)
Lemma sweep_without_callback :
  exists d',
    dma_xilinx_axi_dma_clean_up_sg_descriptors (completed_device None) 0
    = Some (2%nat, d')
    /\ ((fun cur => status_flagged (status cur))
          <$> descriptors (channels_tx (completed_device None)))
       = [true; true; false; false]
    /\ callback_results (trace d') = callback_results (trace (completed_device None))
    /\ List.filter is_release (trace d') = [EvDescRelease 0x10000; EvDescRelease 0x10040]
    /\ (slot_freeb <$> descriptors (channels_tx d')) = [true; true; true; true].
Proof.
  eexists. split; [vm_compute; reflexivity|].
  vm_compute. repeat split; reflexivity.
Qed.

Lemma sweep_reclaims_once_witness :
  exists k d' cd',
    dma_xilinx_axi_dma_clean_up_sg_descriptors (completed_device (Some 5%Z)) 0
    = Some (k, d')
    /\ channel_data d' 0 = Some cd'
    /\ trace d'
       = trace (completed_device (Some 5%Z))
         ++ flat_map (reclaim_events (channels_tx (completed_device (Some 5%Z))))
              (swept_slots (channels_tx (completed_device (Some 5%Z))) k)
    /\ NoDup (swept_slots (channels_tx (completed_device (Some 5%Z))) k)
    /\ Forall (slot_flagged (channels_tx (completed_device (Some 5%Z))))
         (swept_slots (channels_tx (completed_device (Some 5%Z))) k)
    /\ (forall i, i ∈ swept_slots (channels_tx (completed_device (Some 5%Z))) k ->
          exists cur', descriptors cd' !! i = Some cur' /\ slot_free cur')
    /\ (forall i, i ∉ swept_slots (channels_tx (completed_device (Some 5%Z))) k ->
          descriptors cd' !! i
          = descriptors (channels_tx (completed_device (Some 5%Z))) !! i)
    /\ (forall cb, completion_callback (channels_tx (completed_device (Some 5%Z))) = Some cb ->
          length (callback_results (trace d'))
          = (length (callback_results (trace (completed_device (Some 5%Z)))) + k)%nat)
    /\ (completion_callback (channels_tx (completed_device (Some 5%Z))) = None ->
          callback_results (trace d')
          = callback_results (trace (completed_device (Some 5%Z))))
    /\ (k <= num_descriptors (channels_tx (completed_device (Some 5%Z))))%nat
    /\ (forall j, (j < k)%nat ->
          swept_slots (channels_tx (completed_device (Some 5%Z))) k !! j
          = Some ((completion_desc_index (channels_tx (completed_device (Some 5%Z))) + j)
                  mod num_descriptors (channels_tx (completed_device (Some 5%Z))))%nat)
    /\ completion_desc_index cd'
       = ((completion_desc_index (channels_tx (completed_device (Some 5%Z))) + k)
          mod num_descriptors (channels_tx (completed_device (Some 5%Z))))%nat
    /\ (exists cur, descriptors cd' !! completion_desc_index cd' = Some cur
                    /\ status_flagged (status cur) = false)
    /\ ((k < num_descriptors (channels_tx (completed_device (Some 5%Z))))%nat ->
          ~ slot_flagged (channels_tx (completed_device (Some 5%Z)))
              ((completion_desc_index (channels_tx (completed_device (Some 5%Z))) + k)
               mod num_descriptors (channels_tx (completed_device (Some 5%Z))))%nat)
    /\ (slot_flagged (channels_tx (completed_device (Some 5%Z)))
          (completion_desc_index (channels_tx (completed_device (Some 5%Z)))) ->
          (0 < k)%nat
          /\ completion_desc_index (channels_tx (completed_device (Some 5%Z)))
             ∈ swept_slots (channels_tx (completed_device (Some 5%Z))) k).
Proof.
  apply (sweep_reclaims_once sample_build (completed_device (Some 5%Z)) 0
           (channels_tx (completed_device (Some 5%Z)))).
  - reflexivity.
  - vm_compute. repeat split; lia.
Defined.

(** The same sweep with a callback registered: one invocation per
    descriptor, each before the release of its slot, the second reporting
    the decode error. *)
Lemma sweep_with_callback_trace :
  exists d',
    dma_xilinx_axi_dma_clean_up_sg_descriptors (completed_device (Some 5)) 0
    = Some (2%nat, d')
    /\ trace d'
       = trace (completed_device (Some 5))
         ++ [EvCallback 7 1 0; EvDescRelease 0x10000;
             EvCallback 7 1 (- EFAULT); EvDescRelease 0x10040].
Proof.
  eexists. split; [vm_compute; reflexivity|]. vm_compute. reflexivity.
Qed.

(** *** The ring invariant *)

Lemma in_flight_spec n com sub i :
  in_flight n com sub i = true <-> exists k, (com <= k < sub)%nat /\ (k mod n)%nat = i.
Proof.
  unfold in_flight. rewrite existsb_exists. split.
  - intros (k & Hin & Hk). apply in_seq in Hin. apply Nat.eqb_eq in Hk.
    exists k. split; [lia|exact Hk].
  - intros (k & Hk & Hi). exists k. split; [apply in_seq; lia|].
    apply Nat.eqb_eq. exact Hi.
Qed.

Lemma in_flight_none n com sub i :
  in_flight n com sub i = false <-> forall k, (com <= k < sub)%nat -> (k mod n)%nat <> i.
Proof.
  split.
  - intros Hf k Hk Hi.
    assert (in_flight n com sub i = true) by (apply in_flight_spec; eauto).
    congruence.
  - intros H. destruct (in_flight n com sub i) eqn:E; [|reflexivity].
    apply in_flight_spec in E. destruct E as (k & Hk & Hi). exfalso. eapply H; eauto.
Qed.

Lemma next_index_succ_mod n k :
  (0 < n)%nat -> next_index n (k mod n) = ((k + 1) mod n)%nat.
Proof.
  intros Hn. rewrite next_index_mod by (apply Nat.mod_upper_bound; lia).
  apply Nat.Div0.add_mod_idemp_l.
Qed.


Lemma in_flight_empty n com i : in_flight n com com i = false.
Proof. unfold in_flight. rewrite Nat.sub_diag. reflexivity. Qed.

Lemma ring_inv_fresh cd :
  freshly_configured cd -> ring_inv cd 0 0 /\ ring_inv_strict cd 0 0.
Proof.
  intros (Hlen & Hn & Hp & Hc & Hdr). split.
  - split; [exact Hlen|]. split; [exact Hn|].
    split; [rewrite Hc; symmetry; apply Nat.Div0.mod_0_l|].
    split; [rewrite Hp; symmetry; apply Nat.mod_small; lia|].
    split; [lia|].
    intros i cur Hi _. exact (Hdr i cur Hi).
  - split; [lia|]. intros i cur _ Hin. rewrite in_flight_empty in Hin. discriminate.
Qed.

Lemma producer_slot c sub com :
  ring_inv c sub com ->
  next_index (num_descriptors c) (populated_desc_index c) = (sub mod num_descriptors c)%nat.
Proof.
  intros (_ & Hn & _ & Hp & _). rewrite Hp, next_index_succ_mod by exact Hn.
  replace (sub + num_descriptors c - 1 + 1)%nat with (sub + 1 * num_descriptors c)%nat by lia.
  apply Nat.Div0.mod_add.
Qed.

Lemma ring_inv_submit c sub com cur x :
  ring_inv c sub com ->
  let next := next_index (num_descriptors c) (populated_desc_index c) in
  descriptors c !! next = Some cur ->
  ring_inv (set_populated_desc_index next
              (set_descriptors (<[next := x]> (descriptors c)) c)) (S sub) com.
Proof.
  intros Hinv next Hcur.
  pose proof (producer_slot c sub com Hinv) as Hnext. fold next in Hnext.
  destruct Hinv as (Hlen & Hn & Hc & Hp & Hle & Hfree).
  unfold ring_inv.
  cbn [num_descriptors descriptors populated_desc_index completion_desc_index
         set_populated_desc_index set_descriptors].
  split; [rewrite length_insert; exact Hlen|]. split; [exact Hn|].
  split; [exact Hc|]. split.
  { rewrite Hnext.
    replace (S sub + num_descriptors c - 1)%nat with (sub + 1 * num_descriptors c)%nat by lia.
    symmetry. apply Nat.Div0.mod_add. }
  split; [lia|].
  intros i y Hi Hout. rewrite in_flight_none in Hout.
  assert (Hne : next <> i) by (rewrite Hnext; apply Hout; lia).
  rewrite list_lookup_insert_ne in Hi by exact Hne.
  apply (Hfree i y Hi). apply in_flight_none. intros k Hk. apply Hout. lia.
Qed.





Section Run.
Variable bc : build_config.







End Run.

Lemma ring_drainedb_spec c : ring_drainedb c = true -> ring_drained c.
Proof.
  unfold ring_drainedb, ring_drained. rewrite forallb_forall.
  intros H i cur Hi.
  assert (Hin : In cur (descriptors c)).
  { apply list_elem_of_In. eapply list_elem_of_lookup_2. exact Hi. }
  specialize (H cur Hin). unfold slot_freeb in H.
  apply andb_true_iff in H. destruct H as [H1 H2].
  split; apply Z.eqb_eq; assumption.
Qed.



(** The run of [full_ring_scenario]: five submissions accepted in all, one
    descriptor reclaimed, and the fifth call refused with the ring full. *)
Lemma full_ring_run :
  (exists s,
      run_ops sample_build 0
        {| run_dev := ready_device 4 2; submitted := 0; completed := 0 |}
        full_ring_scenario = Some s
      /\ submitted s = 5%nat /\ completed s = 1%nat)
  /\ (exists s d',
        run_ops sample_build 0
          {| run_dev := ready_device 4 2; submitted := 0; completed := 0 |}
          (take 4 full_ring_scenario) = Some s
        /\ dma_xilinx_axi_dma_transfer_block sample_build (run_dev s) 0
             0x80000100 64 true true = Some (- EBUSY, d')).
Proof.
  split.
  - eexists. split; [vm_compute; reflexivity|]. split; reflexivity.
  - eexists _, _. split; [vm_compute; reflexivity|]. vm_compute. reflexivity.
Qed.

(** ** Further properties *)

(** *** Bits and status words *)

Lemma land_pow2 x k :
  0 <= k -> Z.land x (2 ^ k) = if Z.testbit x k then 2 ^ k else 0.
Proof.
  intros Hk. apply Z.bits_inj'. intros n Hn.
  rewrite Z.land_spec, Z.pow2_bits_eqb by exact Hk.
  destruct (Z.eqb_spec k n) as [->|Hne].
  - destruct (Z.testbit x n); [rewrite Z.pow2_bits_true by exact Hn|rewrite Z.bits_0];
      reflexivity.
  - rewrite andb_false_r.
    destruct (Z.testbit x k); [rewrite Z.pow2_bits_false by exact Hne|rewrite Z.bits_0];
      reflexivity.
Qed.

Lemma tst_pow2 x k : 0 <= k -> tst x (2 ^ k) = Z.testbit x k.
Proof.
  intros Hk. unfold tst. rewrite land_pow2 by exact Hk.
  destruct (Z.testbit x k); [|reflexivity].
  assert (0 < 2 ^ k) by (apply Z.pow_pos_nonneg; lia).
  destruct (Z.eqb_spec (2 ^ k) 0); [lia|reflexivity].
Qed.

Lemma status_has_error_bits st :
  status_has_error st = Z.testbit st 30 || Z.testbit st 29 || Z.testbit st 28.
Proof.
  unfold status_has_error.
  change XILINX_AXI_DMA_SG_DESCRIPTOR_STATUS_DEC_ERR_MASK with (2 ^ 30).
  change XILINX_AXI_DMA_SG_DESCRIPTOR_STATUS_SLV_ERR_MASK with (2 ^ 29).
  change XILINX_AXI_DMA_SG_DESCRIPTOR_STATUS_INT_ERR_MASK with (2 ^ 28).
  rewrite !tst_pow2 by lia. reflexivity.
Qed.

Lemma descriptor_retval_form check st a :
  descriptor_retval check st a
  = if status_has_error st
       || check && (csum_fcs_err a || csum_ip_err a || csum_udp_err a || csum_tcp_err a)
    then - EFAULT else DMA_STATUS_COMPLETE.
Proof.
  unfold descriptor_retval.
  destruct (status_has_error st), check, (csum_fcs_err a), (csum_ip_err a),
    (csum_udp_err a), (csum_tcp_err a); reflexivity.
Qed.

(** X1. The value the sweep hands to the callback for a reclaimed
    descriptor is [DMA_STATUS_COMPLETE] or -EFAULT, and it is -EFAULT
    exactly when the status word has one of the three error bits (30, 29,
    28) set or, with [check_csum_in_isr], the checksum word [app2] has the
    FCS bit set or contains the IP, UDP or TCP error pattern. *)
Theorem descriptor_retval_fault_iff check st a :
  (descriptor_retval check st a = DMA_STATUS_COMPLETE
   \/ descriptor_retval check st a = - EFAULT)
  /\ (descriptor_retval check st a = - EFAULT
      <-> Z.testbit st 30 = true \/ Z.testbit st 29 = true \/ Z.testbit st 28 = true
          \/ (check = true
              /\ (Z.testbit a 8 = true
                  \/ Z.land a 0x28 = 0x28 \/ Z.land a 0x30 = 0x30
                  \/ Z.land a 0x38 = 0x38))).
Proof.
  rewrite descriptor_retval_form, status_has_error_bits.
  unfold csum_fcs_err, csum_ip_err, csum_udp_err, csum_tcp_err.
  change XILINX_AXI_DMA_SG_DESCRIPTOR_APP2_FCS_ERR_MASK with (2 ^ 8).
  rewrite tst_pow2 by lia.
  change XILINX_AXI_DMA_SG_DESCRIPTOR_APP2_IP_ERR_MASK with 0x28.
  change XILINX_AXI_DMA_SG_DESCRIPTOR_APP2_UDP_ERR_MASK with 0x30.
  change XILINX_AXI_DMA_SG_DESCRIPTOR_APP2_TCP_ERR_MASK with 0x38.
  rewrite <- !Z.eqb_eq.
  destruct (Z.testbit st 30), (Z.testbit st 29), (Z.testbit st 28), check,
    (Z.testbit a 8), (Z.land a 0x28 =? 0x28), (Z.land a 0x30 =? 0x30),
    (Z.land a 0x38 =? 0x38); cbn;
    (split; [first [left; reflexivity | right; reflexivity]|]);
    (split; [intros H; first [discriminate H | tauto]
            | intros H; first [reflexivity | exfalso; intuition discriminate]]).
Qed.

(** *** Stop, status and channel numbers *)

Lemma testbit_not32_rs n :
  0 <= n -> Z.testbit (not32 XILINX_AXI_DMA_REGS_DMACR_RS) n = (0 <? n) && (n <? 32).
Proof.
  intros Hn. change (not32 XILINX_AXI_DMA_REGS_DMACR_RS) with (Z.shiftl (Z.ones 31) 1).
  rewrite Z.shiftl_spec by exact Hn.
  destruct (Z.ltb_spec 0 n) as [Hpos|Hz].
  - rewrite Z.testbit_ones_nonneg by lia.
    destruct (Z.ltb_spec (n - 1) 31), (Z.ltb_spec n 32); try lia; reflexivity.
  - replace n with 0 by lia. reflexivity.
Qed.

Section Plain.
Variable bc : build_config.

(** X2. On a valid channel [stop] returns 0 and makes a single write,
    to the channel's control register, of the value read from it with the
    run/stop bit cleared and every other bit as read. *)
Theorem stop_clears_run_stop cfg d channel cd dmacr :
  channel < channels cfg ->
  channel_data d channel = Some cd ->
  0 <= dmacr < 2 ^ 32 ->
  exists w,
    dma_xilinx_axi_dma_stop cfg d channel dmacr
    = Some (0, emit (EvWriteReg (channel_regs cd + XILINX_AXI_DMA_REG_DMACR) w) d)
    /\ Z.testbit w 0 = false
    /\ forall n, n <> 0 -> Z.testbit w n = Z.testbit dmacr n.
Proof.
  intros Hch Hcd Hrange. unfold dma_xilinx_axi_dma_stop.
  destruct (Z.geb_spec channel (channels cfg)); [lia|].
  rewrite Hcd. eexists. split; [reflexivity|].
  split.
  - rewrite Z.land_spec, testbit_not32_rs by lia. apply andb_false_r.
  - intros n Hn. destruct (Z.ltb_spec n 0) as [Hneg|Hnn].
    + rewrite !Z.testbit_neg_r by exact Hneg. reflexivity.
    + rewrite Z.land_spec, testbit_not32_rs by exact Hnn.
      destruct (Z.ltb_spec 0 n); [|lia].
      destruct (Z.ltb_spec n 32); [apply andb_true_r|].
      rewrite andb_false_r. symmetry.
      apply (proj1 (Z.bounded_iff_bits_nonneg 32 dmacr ltac:(lia) ltac:(lia)));
        [apply Hrange|lia].
Qed.

(** X3. On a valid channel [get_status] returns 0, reports the
    direction recorded in the channel, and reports not busy exactly when
    the first read of the status register has the idle bit or the second
    has the halted bit. *)
Theorem get_status_reports cfg d channel cd stat dmasr1 dmasr2 :
  channel < channels cfg ->
  channel_data d channel = Some cd ->
  exists st,
    dma_xilinx_axi_dma_get_status cfg d channel stat dmasr1 dmasr2 = Some (0, st)
    /\ dir st = direction cd
    /\ (busy st = false <-> Z.testbit dmasr1 1 = true \/ Z.testbit dmasr2 0 = true).
Proof.
  intros Hch Hcd. unfold dma_xilinx_axi_dma_get_status.
  destruct (Z.geb_spec channel (channels cfg)); [lia|].
  rewrite Hcd. eexists. split; [reflexivity|]. split; [reflexivity|].
  cbn [busy].
  change XILINX_AXI_DMA_REGS_DMASR_IDLE with (2 ^ 1).
  change XILINX_AXI_DMA_REGS_DMASR_HALTED with (2 ^ 0).
  rewrite !tst_pow2 by lia.
  destruct (Z.testbit dmasr1 1), (Z.testbit dmasr2 0); cbn; intuition discriminate.
Qed.

(** The policies other than the per-channel one read no channel by its
    number: under them the exclusion is acquired and released for any
    channel number. *)
Lemma lock_irq_any_channel d channel :
  CONFIG_DMA_XILINX_AXI_DMA_LOCK bc <> LOCK_CHANNEL_IRQ
  \/ (exists cd, channel_data d channel = Some cd) ->
  exists key dl, dma_xilinx_axi_dma_lock_irq bc d channel = Some (key, dl).
Proof.
  intros [Hp|[cd Hcd]]; [|exact (lock_irq_returns bc d channel cd Hcd)].
  unfold dma_xilinx_axi_dma_lock_irq.
  destruct (CONFIG_DMA_XILINX_AXI_DMA_LOCK bc); cbn; eauto. contradiction.
Qed.

Lemma unlock_irq_any_channel d channel key :
  CONFIG_DMA_XILINX_AXI_DMA_LOCK bc <> LOCK_CHANNEL_IRQ
  \/ (exists cd, channel_data d channel = Some cd) ->
  exists d', dma_xilinx_axi_dma_unlock_irq bc d channel key = Some d'.
Proof.
  intros [Hp|[cd Hcd]]; [|exact (unlock_irq_returns bc d channel cd key Hcd)].
  unfold dma_xilinx_axi_dma_unlock_irq.
  destruct (CONFIG_DMA_XILINX_AXI_DMA_LOCK bc); cbn; eauto. contradiction.
Qed.

(** X4. With a channel number that is not below [cfg->channels],
    [stop], [get_status], [config_reload] and [configure] return -EINVAL
    and change nothing.  [start] acquires the interrupt exclusion before
    it checks the channel: it returns -EINVAL, having only acquired and
    released the exclusion, when the build's policy is not the per-channel
    one or the channel is one of the two of the array; under the
    per-channel policy with a channel past the array the acquisition reads
    [channels[channel].irq] out of bounds and [start] has no result. *)
Theorem invalid_channel_rejected cfg d channel :
  channel >= channels cfg ->
  (forall dmacr, dma_xilinx_axi_dma_stop cfg d channel dmacr = Some (- EINVAL, d))
  /\ (forall stat dmasr1 dmasr2,
         dma_xilinx_axi_dma_get_status cfg d channel stat dmasr1 dmasr2
         = Some (- EINVAL, stat))
  /\ (forall src dst size,
         dma_xilinx_axi_dma_config_reload bc cfg d channel src dst size
         = Some (- EINVAL, d))
  /\ (forall dma_cfg,
         dma_xilinx_axi_dma_configure bc cfg d channel dma_cfg = Some (- EINVAL, d))
  /\ (forall dmasr,
         CONFIG_DMA_XILINX_AXI_DMA_LOCK bc <> LOCK_CHANNEL_IRQ
         \/ (exists cd, channel_data d channel = Some cd) ->
         exists d',
           dma_xilinx_axi_dma_start bc cfg d channel dmasr = Some (- EINVAL, d')
           /\ channels_tx d' = channels_tx d /\ channels_rx d' = channels_rx d
           /\ List.filter (fun e => negb (is_lock_event e)) (trace d')
              = List.filter (fun e => negb (is_lock_event e)) (trace d))
  /\ (forall dmasr,
         CONFIG_DMA_XILINX_AXI_DMA_LOCK bc = LOCK_CHANNEL_IRQ ->
         channel_data d channel = None ->
         dma_xilinx_axi_dma_start bc cfg d channel dmasr = None).
Proof.
  intros Hch.
  assert (Hge : (channel >=? channels cfg) = true)
    by (destruct (Z.geb_spec channel (channels cfg)); [reflexivity|lia]).
  split; [intros; unfold dma_xilinx_axi_dma_stop; rewrite Hge; reflexivity|].
  split; [intros; unfold dma_xilinx_axi_dma_get_status; rewrite Hge; reflexivity|].
  split; [intros; unfold dma_xilinx_axi_dma_config_reload; rewrite Hge; reflexivity|].
  split.
  { intros. unfold dma_xilinx_axi_dma_configure, configure_setup, configure_rejects.
    rewrite Hge. reflexivity. }
  split.
  - intros dmasr Hok. unfold dma_xilinx_axi_dma_start, unlock_and_return.
    destruct (lock_irq_any_channel d channel Hok) as (key & dl & Hlock).
    rewrite Hlock, Hge.
    destruct (lock_irq_frame bc _ _ _ _ Hlock) as (Htx & Hrx & Htr).
    destruct (unlock_irq_any_channel dl channel key) as [d' Hu].
    { destruct Hok as [Hp|[cd Hcd]]; [left; exact Hp|right; exists cd].
      unfold channel_data in *. rewrite Htx, Hrx. exact Hcd. }
    rewrite Hu. exists d'. split; [reflexivity|].
    destruct (unlock_irq_frame bc _ _ _ _ Hu) as (-> & -> & ->).
    rewrite Htx, Hrx, Htr. split; [reflexivity|]. split; [reflexivity|].
    rewrite !List.filter_app. cbn. rewrite !app_nil_r. reflexivity.
  - intros dmasr Hp Hnone.
    unfold dma_xilinx_axi_dma_start, dma_xilinx_axi_dma_lock_irq, chan_irq.
    rewrite Hp, Hnone. reflexivity.
Qed.

End Plain.

(** *** The control word of [start] *)

Lemma start_control_word bc :
  start_control bc
  = Z.lor (Z.lor 0x7001
             (Z.shiftl (CONFIG_DMA_XILINX_AXI_DMA_INTERRUPT_THRESHOLD bc) 16))
      (Z.shiftl (CONFIG_DMA_XILINX_AXI_DMA_INTERRUPT_TIMEOUT bc) 24).
Proof. reflexivity. Qed.

Lemma byte_cases (P : Z -> bool) :
  forallb P (map Z.of_nat (seq 0 256)) = true ->
  forall x, 0 <= x < 256 -> P x = true.
Proof.
  intros H x Hx. rewrite forallb_forall in H. apply H.
  apply in_map_iff. exists (Z.to_nat x). split; [lia|].
  apply in_seq. lia.
Qed.

Lemma start_control_fields_all :
  forallb (fun thr =>
    forallb (fun tmo =>
      let sc := Z.lor (Z.lor 0x7001 (Z.shiftl thr 16)) (Z.shiftl tmo 24) in
      Z.testbit sc 0 && negb (Z.testbit sc 2) && negb (Z.testbit sc 3)
      && negb (Z.testbit sc 4) && Z.testbit sc 12 && Z.testbit sc 13
      && Z.testbit sc 14 && (Z.land (Z.shiftr sc 16) 0xFF =? thr)
      && (Z.shiftr sc 24 =? tmo) && (0 <=? sc) && (sc <? 2 ^ 32))
      (map Z.of_nat (seq 0 256)))
    (map Z.of_nat (seq 0 256)) = true.
Proof. vm_compute. reflexivity. Qed.

(** X5. With the two Kconfig values in the range of a byte, the control
    word [start] writes to a halted engine fits 32 bits, has run/stop set,
    reset, keyhole and cyclic mode clear, the three interrupt enables set,
    the threshold in bits 16..23 and the timeout in bits 24..31. *)
Theorem start_control_fields bc :
  0 <= CONFIG_DMA_XILINX_AXI_DMA_INTERRUPT_THRESHOLD bc < 256 ->
  0 <= CONFIG_DMA_XILINX_AXI_DMA_INTERRUPT_TIMEOUT bc < 256 ->
  let sc := start_control bc in
  0 <= sc < 2 ^ 32
  /\ Z.testbit sc 0 = true
  /\ Z.testbit sc 2 = false /\ Z.testbit sc 3 = false /\ Z.testbit sc 4 = false
  /\ Z.testbit sc 12 = true /\ Z.testbit sc 13 = true /\ Z.testbit sc 14 = true
  /\ Z.land (Z.shiftr sc 16) 0xFF = CONFIG_DMA_XILINX_AXI_DMA_INTERRUPT_THRESHOLD bc
  /\ Z.shiftr sc 24 = CONFIG_DMA_XILINX_AXI_DMA_INTERRUPT_TIMEOUT bc.
Proof.
  intros Hthr Htmo sc. subst sc. rewrite start_control_word.
  pose proof (byte_cases _ start_control_fields_all _ Hthr) as H1. cbv beta in H1.
  pose proof (byte_cases _ H1 _ Htmo) as H2. cbv beta zeta in H2.
  repeat (apply andb_true_iff in H2; destruct H2 as [H2 ?]).
  repeat match goal with
         | H : negb _ = true |- _ => apply negb_true_iff in H
         | H : (_ =? _) = true |- _ => apply Z.eqb_eq in H
         | H : (_ <=? _) = true |- _ => apply Z.leb_le in H
         | H : (_ <? _) = true |- _ => apply Z.ltb_lt in H
         end.
  repeat split; assumption.
Qed.

Section Start.
Variable bc : build_config.

(** X6. On a valid channel [start] returns 0 and leaves both channels
    as they were; between acquiring and releasing the exclusion it writes
    the control word if and only if the status read shows the engine
    halted, and then the address of the descriptor at
    [populated_desc_index] to the tail-descriptor register (both halves
    with [CONFIG_DMA_64BIT]). *)
Theorem start_writes_tail cfg d channel cd dmasr :
  channel < channels cfg ->
  channel_data d channel = Some cd ->
  exists d',
    dma_xilinx_axi_dma_start bc cfg d channel dmasr = Some (0, d')
    /\ channels_tx d' = channels_tx d
    /\ channels_rx d' = channels_rx d
    /\ List.filter (fun e => negb (is_lock_event e)) (trace d')
       = List.filter (fun e => negb (is_lock_event e)) (trace d)
         ++ (if Z.testbit dmasr 0
             then [EvWriteReg (channel_regs cd + XILINX_AXI_DMA_REG_DMACR)
                     (start_control bc)]
             else [])
         ++ tail_writes bc cd (desc_addr cd (populated_desc_index cd)).
Proof.
  intros Hch Hcd. unfold dma_xilinx_axi_dma_start, unlock_and_return.
  destruct (lock_irq_returns bc d channel cd Hcd) as (key & dl & Hlock). rewrite Hlock.
  destruct (Z.geb_spec channel (channels cfg)); [lia|].
  destruct (lock_irq_frame bc _ _ _ _ Hlock) as (Htx & Hrx & Htr).
  assert (Hcdl : channel_data dl channel = Some cd).
  { unfold channel_data in *. rewrite Htx, Hrx. exact Hcd. }
  rewrite Hcdl.
  match goal with
  | |- context [dma_xilinx_axi_dma_unlock_irq bc ?dm channel key] =>
      destruct (unlock_irq_returns bc dm channel cd key) as [d' Hu]
  end.
  { rewrite channel_data_write_desc_reg.
    destruct (tst dmasr XILINX_AXI_DMA_REGS_DMASR_HALTED); exact Hcdl. }
  rewrite Hu. exists d'. split; [reflexivity|].
  destruct (unlock_irq_frame bc _ _ _ _ Hu) as (-> & -> & ->).
  change XILINX_AXI_DMA_REGS_DMASR_HALTED with (2 ^ 0).
  rewrite tst_pow2 by lia.
  unfold write_desc_reg, tail_writes, dma_xilinx_axi_dma_write_reg.
  destruct (CONFIG_DMA_64BIT bc), (Z.testbit dmasr 0); cbn;
    rewrite ?Htx, ?Hrx, Htr, !List.filter_app; cbn; rewrite ?app_nil_r, <- ?app_assoc;
    repeat split; reflexivity.
Qed.

End Start.

(** *** What a submission stores *)

Lemma control_word_bits len f l n :
  0 <= len <= XILINX_AXI_DMA_SG_DESCRIPTOR_CTRL_LENGTH_MASK ->
  0 <= n ->
  Z.testbit (control_word len f l) n
  = if n =? 27 then f else if n =? 26 then l else Z.testbit len n.
Proof.
  intros Hlen Hn. unfold control_word.
  assert (Hsmall : len mod 2 ^ 32 = len).
  { apply Z.mod_small. unfold XILINX_AXI_DMA_SG_DESCRIPTOR_CTRL_LENGTH_MASK in Hlen. lia. }
  rewrite Hsmall.
  assert (Hhigh : forall k, 26 <= k -> Z.testbit len k = false).
  { apply (Z.bounded_iff_bits_nonneg 26 len); [lia|lia|].
    unfold XILINX_AXI_DMA_SG_DESCRIPTOR_CTRL_LENGTH_MASK in Hlen. lia. }
  change XILINX_AXI_DMA_SG_DESCRIPTOR_CTRL_SOF_MASK with (2 ^ 27).
  change XILINX_AXI_DMA_SG_DESCRIPTOR_CTRL_EOF_MASK with (2 ^ 26).
  destruct f, l; rewrite ?Z.lor_spec, ?Z.pow2_bits_eqb by lia;
    rewrite ?(Z.eqb_sym 27 n), ?(Z.eqb_sym 26 n);
    destruct (Z.eqb_spec n 27) as [E27|E27]; destruct (Z.eqb_spec n 26) as [E26|E26];
    try lia; cbn; rewrite ?Hhigh by lia; rewrite ?orb_false_r, ?orb_true_r;
    reflexivity.
Qed.

(** The control word decodes to what was submitted. *)
Lemma control_word_decode len f l :
  0 <= len <= XILINX_AXI_DMA_SG_DESCRIPTOR_CTRL_LENGTH_MASK ->
  Z.land (control_word len f l) XILINX_AXI_DMA_SG_DESCRIPTOR_CTRL_LENGTH_MASK = len
  /\ tst (control_word len f l) XILINX_AXI_DMA_SG_DESCRIPTOR_CTRL_SOF_MASK = f
  /\ tst (control_word len f l) XILINX_AXI_DMA_SG_DESCRIPTOR_CTRL_EOF_MASK = l.
Proof.
  intros Hlen. split; [|split].
  - change XILINX_AXI_DMA_SG_DESCRIPTOR_CTRL_LENGTH_MASK with (Z.ones 26) at 1.
    rewrite Z.land_ones by lia. apply Z.bits_inj'. intros n Hn.
    rewrite Z.testbit_mod_pow2 by lia.
    destruct (Z.ltb_spec n 26).
    + rewrite control_word_bits by assumption.
      destruct (Z.eqb_spec n 27); [lia|]. destruct (Z.eqb_spec n 26); [lia|].
      reflexivity.
    + cbn. symmetry.
      apply (proj1 (Z.bounded_iff_bits_nonneg 26 len ltac:(lia) ltac:(lia))); [|lia].
      unfold XILINX_AXI_DMA_SG_DESCRIPTOR_CTRL_LENGTH_MASK in Hlen. lia.
  - change XILINX_AXI_DMA_SG_DESCRIPTOR_CTRL_SOF_MASK with (2 ^ 27).
    rewrite tst_pow2, control_word_bits by (assumption || lia). reflexivity.
  - change XILINX_AXI_DMA_SG_DESCRIPTOR_CTRL_EOF_MASK with (2 ^ 26).
    rewrite tst_pow2, control_word_bits by (assumption || lia). reflexivity.
Qed.

Section Submit.
Variable bc : build_config.

(** X7. The return value of [transfer_block] is decided by the slot
    after the producer cursor and by the block: -EBUSY exactly when the
    slot is not free; 0 exactly when it is free and the block passes the
    checks (size at most [UINT32_MAX]; on the receive channel, address and
    size aligned to the cache line when the build requires it); -EINVAL
    exactly when the slot is free and the block fails them. *)
Theorem transfer_block_return_code d channel cd cur buffer_addr block_size
    is_first is_last :
  channel_data d channel = Some cd ->
  descriptors cd !! next_index (num_descriptors cd) (populated_desc_index cd) = Some cur ->
  exists r d',
    dma_xilinx_axi_dma_transfer_block bc d channel buffer_addr block_size
      is_first is_last = Some (r, d')
    /\ (r = - EBUSY <-> ~ slot_free cur)
    /\ (r = 0 <-> slot_free cur /\ block_acceptable bc channel buffer_addr block_size)
    /\ (r = - EINVAL
        <-> slot_free cur /\ ~ block_acceptable bc channel buffer_addr block_size).
Proof.
  intros Hcd Hcur.
  unfold dma_xilinx_axi_dma_transfer_block, unlock_and_return, block_acceptable,
    slot_free.
  rewrite Hcd.
  destruct (lock_irq_returns bc d channel cd Hcd) as (key & dl & Hlock).
  rewrite Hlock, Hcur.
  destruct (lock_irq_frame bc _ _ _ _ Hlock) as (Htx & Hrx & _).
  assert (Hcdl : channel_data dl channel = Some cd).
  { unfold channel_data in *. rewrite Htx, Hrx. exact Hcd. }
  assert (Hret : forall c, exists dx,
            dma_xilinx_axi_dma_unlock_irq bc (set_channel_data channel c dl) channel key
            = Some dx).
  { intros c. apply (unlock_irq_returns bc _ channel c).
    exact (channel_data_set_same channel c cd dl Hcdl). }
  destruct (unlock_irq_returns bc dl channel cd key Hcdl) as [d0 Hret0].
  unfold EBUSY, EINVAL.
  destruct (Z.eqb_spec (control cur) 0) as [Hc|Hc];
    destruct (Z.eqb_spec (status cur) 0) as [Hs|Hs]; cbn [negb orb];
    try (rewrite Hret0; eexists _, _; split; [reflexivity|];
         split; [split; [tauto|reflexivity]|];
         split; (split; [discriminate|tauto])).
  destruct (Z.eqb_spec channel XILINX_AXI_DMA_TX_CHANNEL_NUM) as [Hch|Hch];
    cbn [negb andb].
  - destruct (Z.gtb_spec block_size UINT32_MAX) as [Hsz|Hsz];
      (match goal with
       | |- context [dma_xilinx_axi_dma_unlock_irq bc (set_channel_data channel ?c dl)] =>
           destruct (Hret c) as [dx ->]
       end);
      eexists _, _; (split; [reflexivity|]);
      (split; [split; [discriminate|tauto]|]).
    + split; [split; [discriminate|]|split; [|reflexivity]].
      * intros (_ & Hle & _). lia.
      * intros _. split; [tauto|]. intros (Hle & _). lia.
    + split; [split; [|reflexivity]|split; [discriminate|]].
      * intros _. split; [tauto|]. split; [lia|left; exact Hch].
      * intros (_ & Hn). exfalso. apply Hn. split; [lia|left; exact Hch].
  - destruct (rx_misaligned bc buffer_addr block_size) eqn:Hal.
    + rewrite Hret0. eexists _, _. split; [reflexivity|].
      split; [split; [discriminate|tauto]|].
      split; [split; [discriminate|]|split; [|reflexivity]].
      * intros (_ & _ & [Heq|Hna]); [contradiction|discriminate].
      * intros _. split; [tauto|]. intros (_ & [Heq|Hna]); [contradiction|discriminate].
    + destruct (Z.gtb_spec block_size UINT32_MAX) as [Hsz|Hsz];
        (match goal with
         | |- context [dma_xilinx_axi_dma_unlock_irq bc (set_channel_data channel ?c dl)] =>
             destruct (Hret c) as [dx ->]
         end);
        eexists _, _; (split; [reflexivity|]);
        (split; [split; [discriminate|tauto]|]).
      * split; [split; [discriminate|]|split; [|reflexivity]].
        -- intros (_ & Hle & _). lia.
        -- intros _. split; [tauto|]. intros (Hle & _). lia.
      * split; [split; [|reflexivity]|split; [discriminate|]].
        -- intros _. split; [tauto|]. split; [lia|right; reflexivity].
        -- intros (_ & Hn). exfalso. apply Hn. split; [lia|right; reflexivity].
Qed.

Lemma words_of_insert c i cur x :
  descriptors c !! i = Some cur ->
  control x = control cur -> status x = status cur ->
  words_of (set_descriptors (<[i := x]> (descriptors c)) c) = words_of c.
Proof.
  intros Hi Hc Hs. unfold words_of. cbn [descriptors set_descriptors].
  change (map ?f ?l) with (f <$> l).
  rewrite list_fmap_insert, Hc, Hs. apply list_insert_id.
  rewrite list_lookup_fmap, Hi. reflexivity.
Qed.

(** X8. A submission that [transfer_block] rejects moves neither
    cursor and changes no control word, status word or link of the ring,
    and does not touch the other channel. *)
Theorem rejected_submission_keeps_ring d channel cd buffer_addr block_size
    is_first is_last r d' :
  channel_data d channel = Some cd ->
  dma_xilinx_axi_dma_transfer_block bc d channel buffer_addr block_size
    is_first is_last = Some (r, d') ->
  r <> 0 ->
  exists cd',
    channel_data d' channel = Some cd'
    /\ populated_desc_index cd' = populated_desc_index cd
    /\ completion_desc_index cd' = completion_desc_index cd
    /\ words_of cd' = words_of cd
    /\ links_of cd' = links_of cd
    /\ (forall channel', channel' <> channel ->
          channel_data d' channel' = channel_data d channel').
Proof.
  intros Hcd Hrun Hr. apply transfer_block_result in Hrun.
  destruct Hrun as (cd0 & cur & cd' & Hcd0 & Hcur & Hcd' & Hoth & _ & Hcases).
  cbn zeta in *. rewrite Hcd in Hcd0. injection Hcd0 as <-.
  exists cd'. split; [exact Hcd'|].
  destruct Hcases as [(_ & _ & ->)|[(_ & Hf & [-> | ->])|(-> & _)]];
    [repeat split; try reflexivity; exact Hoth
    |repeat split; try reflexivity; exact Hoth
    | |contradiction].
  split; [reflexivity|]. split; [reflexivity|].
  split.
  { apply (words_of_insert cd _ cur); [exact Hcur| |];
      unfold addressed_descriptor, write_buffer_address;
      destruct (CONFIG_DMA_64BIT bc); reflexivity. }
  split; [|exact Hoth].
  unfold links_of. cbn [descriptors set_descriptors].
  change (map ?f ?l) with (f <$> l).
  rewrite list_fmap_insert.
  replace (nxtdesc (addressed_descriptor bc cd buffer_addr cur),
           nxtdesc_msb (addressed_descriptor bc cd buffer_addr cur))
    with (nxtdesc cur, nxtdesc_msb cur)
    by (unfold addressed_descriptor, write_buffer_address;
        destruct (CONFIG_DMA_64BIT bc); reflexivity).
  apply list_insert_id. rewrite list_lookup_fmap, Hcur. reflexivity.
Qed.

(** X9. An accepted submission of a block whose size fits the 26-bit
    length field advances the producer cursor to the next slot and stores
    there a descriptor from which the submission reads back: the length,
    the first and last flags, the low word of the buffer address and the
    channel's [app0]; the status stays 0, the link is kept, and no other
    slot and not the consumer cursor changes. *)
Theorem transfer_block_stores_descriptor d channel cd buffer_addr block_size
    is_first is_last d' :
  channel_data d channel = Some cd ->
  0 <= block_size <= XILINX_AXI_DMA_SG_DESCRIPTOR_CTRL_LENGTH_MASK ->
  dma_xilinx_axi_dma_transfer_block bc d channel buffer_addr block_size
    is_first is_last = Some (0, d') ->
  let next := next_index (num_descriptors cd) (populated_desc_index cd) in
  exists cd' cur cur',
    channel_data d' channel = Some cd'
    /\ populated_desc_index cd' = next
    /\ completion_desc_index cd' = completion_desc_index cd
    /\ descriptors cd !! next = Some cur
    /\ descriptors cd' !! next = Some cur'
    /\ (forall i, i <> next -> descriptors cd' !! i = descriptors cd !! i)
    /\ Z.land (control cur') XILINX_AXI_DMA_SG_DESCRIPTOR_CTRL_LENGTH_MASK = block_size
    /\ tst (control cur') XILINX_AXI_DMA_SG_DESCRIPTOR_CTRL_SOF_MASK = is_first
    /\ tst (control cur') XILINX_AXI_DMA_SG_DESCRIPTOR_CTRL_EOF_MASK = is_last
    /\ status cur' = 0
    /\ buffer_address cur' = buffer_addr mod 2 ^ 32
    /\ app0 cur' = sg_desc_app0 cd
    /\ (nxtdesc cur', nxtdesc_msb cur') = (nxtdesc cur, nxtdesc_msb cur).
Proof.
  intros Hcd Hlen Hrun next. apply transfer_block_result in Hrun.
  destruct Hrun as (cd0 & cur & cd' & Hcd0 & Hcur & Hcd' & _ & _ & Hcases).
  cbn zeta in *. rewrite Hcd in Hcd0. injection Hcd0 as <-.
  destruct Hcases as [(H & _)|[(H & _)|(_ & Hf & _ & ->)]]; try discriminate H.
  fold next in Hcur |- *.
  eexists _, cur, (populated_descriptor bc cd buffer_addr block_size is_first is_last cur).
  split; [exact Hcd'|]. split; [reflexivity|]. split; [reflexivity|].
  split; [exact Hcur|].
  cbn [descriptors set_descriptors set_populated_desc_index].
  split; [apply list_lookup_insert_eq; eapply lookup_lt_Some; exact Hcur|].
  split; [intros i Hi; apply list_lookup_insert_ne; intros E; apply Hi; symmetry; exact E|].
  destruct (control_word_decode block_size is_first is_last Hlen) as (Hl & Hs & He).
  unfold populated_descriptor, write_buffer_address.
  destruct (CONFIG_DMA_64BIT bc); cbn [control status buffer_address app0 nxtdesc
    nxtdesc_msb set_control set_app0 set_buffer_address set_buffer_address_msb];
    (split; [exact Hl|]); (split; [exact Hs|]); (split; [exact He|]);
    (split; [exact (proj2 Hf)|]); (split; [|split; reflexivity]).
  - change 0xffffffff with (Z.ones 32). apply Z.land_ones. lia.
  - reflexivity.
Qed.

End Submit.

(** *** The full ring *)

Section Full.
Variable bc : build_config.



End Full.

(** *** Outcomes of [configure] *)

Lemma direction_eqb_eq a b : direction_eqb a b = true <-> a = b.
Proof. destruct a, b; cbn; split; intros H; solve [reflexivity | discriminate H]. Qed.

Lemma length_of_lookup {A B} (l : list A) (l' : list B) :
  (forall j, is_Some (l' !! j) <-> is_Some (l !! j)) -> length l' = length l.
Proof.
  intros H.
  destruct (Nat.lt_trichotomy (length l') (length l)) as [Hlt|[Heq|Hgt]]; [|exact Heq|].
  - apply lookup_lt_is_Some_2 in Hlt. apply H in Hlt. apply lookup_lt_is_Some_1 in Hlt. lia.
  - apply lookup_lt_is_Some_2 in Hgt. apply H in Hgt. apply lookup_lt_is_Some_1 in Hgt. lia.
Qed.

(** The checks [configure] makes before it touches the device, by cases. *)
Lemma configure_rejects_cases cfg channel dma_cfg :
  (channel >= channels cfg -> configure_rejects cfg channel dma_cfg = Some (- EINVAL))
  /\ (channel < channels cfg -> unsupported_config channel dma_cfg ->
      configure_rejects cfg channel dma_cfg = Some (- ENOTSUP))
  /\ (channel < channels cfg -> ~ unsupported_config channel dma_cfg ->
      configure_rejects cfg channel dma_cfg = None).
Proof.
  unfold configure_rejects, unsupported_config.
  unfold DMA_ADDR_ADJ_DECREMENT, DMA_ADDR_ADJ_INCREMENT, DMA_ADDR_ADJ_NO_CHANGE.
  destruct (Z.geb_spec channel (channels cfg)) as [Hge|Hlt].
  { split; [reflexivity|]. split; intros; lia. }
  split; [intros; lia|].
  destruct (Z.eqb_spec (source_addr_adj (head_block dma_cfg)) 1) as [Hs1|Hs1].
  { split; [reflexivity|]. intros _ Hn. exfalso. apply Hn. left. lia. }
  destruct (Z.eqb_spec (dest_addr_adj (head_block dma_cfg)) 1) as [Hd1|Hd1].
  { split; [reflexivity|]. intros _ Hn. exfalso. apply Hn. right. left. lia. }
  destruct (Z.eqb_spec (source_addr_adj (head_block dma_cfg)) 0) as [Hs0|Hs0];
    destruct (Z.eqb_spec (source_addr_adj (head_block dma_cfg)) 2) as [Hs2|Hs2];
    cbn [negb andb];
    try (split; [reflexivity|]; intros _ Hn; exfalso; apply Hn; left; lia);
  (destruct (Z.eqb_spec (dest_addr_adj (head_block dma_cfg)) 0) as [Hd0|Hd0];
    destruct (Z.eqb_spec (dest_addr_adj (head_block dma_cfg)) 2) as [Hd2|Hd2];
    cbn [negb andb];
    try (split; [reflexivity|]; intros _ Hn; exfalso; apply Hn; right; left; lia));
  (destruct (Z.eqb_spec channel XILINX_AXI_DMA_TX_CHANNEL_NUM) as [Ht|Ht];
   destruct (Z.eqb_spec channel XILINX_AXI_DMA_RX_CHANNEL_NUM) as [Hr|Hr];
   destruct (direction_eqb (channel_direction dma_cfg) MEMORY_TO_PERIPHERAL) eqn:Hmp;
   destruct (direction_eqb (channel_direction dma_cfg) PERIPHERAL_TO_MEMORY) eqn:Hpm;
   cbn [negb andb];
   try apply direction_eqb_eq in Hmp; try apply direction_eqb_eq in Hpm;
   try (unfold XILINX_AXI_DMA_TX_CHANNEL_NUM, XILINX_AXI_DMA_RX_CHANNEL_NUM in *; lia);
   try congruence;
   try (split; [reflexivity|]; intros _ Hn; exfalso; apply Hn; right; right;
        first [left; split; [assumption|];
               intros E; rewrite E in Hmp; discriminate Hmp
              |right; split; [assumption|];
               intros E; rewrite E in Hpm; discriminate Hpm]);
   (split; [|reflexivity]);
   intros _ [[? ?]|[[? ?]|[[? ?]|[? ?]]]]; try lia; try contradiction; try congruence).
Qed.

Section Accept.
Variable bc : build_config.

(** On a ring with no descriptor reclaimed, blocks that pass the checks are
    accepted as long as slots remain, and land in consecutive slots. *)
Lemma submit_marked_accepts channel l : forall d cd sub,
  channel_data d channel = Some cd ->
  ring_inv cd sub 0 ->
  (sub + length l <= num_descriptors cd)%nat ->
  Forall (fun x => block_acceptable bc channel (block_address channel x.1.1)
                     (block_size x.1.1)) l ->
  exists d' cd',
    submit_marked bc d channel l = Some (0, d')
    /\ channel_data d' channel = Some cd'
    /\ ring_inv cd' (sub + length l) 0
    /\ num_descriptors cd' = num_descriptors cd
    /\ completion_callback cd' = completion_callback cd
    /\ (forall j, (j < sub)%nat -> descriptors cd' !! j = descriptors cd !! j)
    /\ (forall i b f la, l !! i = Some (b, f, la) ->
          exists cur', descriptors cd' !! (sub + i)%nat = Some cur'
                       /\ control cur' = control_word (block_size b) f la
                       /\ status cur' = 0).
Proof.
  induction l as [|[[b f] la] l IH]; intros d cd sub Hcd Hinv Hfit Hacc.
  - exists d, cd. cbn [submit_marked length]. rewrite Nat.add_0_r.
    split; [reflexivity|]. split; [exact Hcd|]. split; [exact Hinv|].
    do 3 (split; [reflexivity|]).
    intros i b f la Hi. discriminate Hi.
  - cbn [length] in Hfit. inversion Hacc as [|x l' [Hsz Hal] Hacc']; subst.
    cbn [fst] in Hsz, Hal.
    pose proof (producer_slot cd sub 0 Hinv) as Hnext.
    rewrite Nat.mod_small in Hnext by lia.
    destruct Hinv as (Hlen & Hpos & Hcom & Hpop & Hcs & Hfree).
    destruct (lookup_lt_is_Some_2 (descriptors cd) sub) as [cur Hcur]; [lia|].
    assert (Hf : slot_free cur).
    { apply (Hfree _ _ Hcur). apply in_flight_none. intros k Hk.
      rewrite Nat.mod_small by lia. lia. }
    destruct (transfer_block_returns bc d channel cd (block_address channel b)
                (block_size b) f la Hcd Hlen Hpos) as (r & d1 & Htb).
    pose proof Htb as Hinvn. apply transfer_block_inv in Hinvn.
    destruct Hinvn as (cd0 & cur0 & key & dl & Hcd0 & _ & Hcur0 & Hcases). cbn zeta in *.
    rewrite Hcd in Hcd0. injection Hcd0 as <-.
    rewrite Hnext, Hcur in Hcur0. injection Hcur0 as <-.
    destruct Hcases as [(_ & Hb & _)|[(_ & _ & Hch & Hmis & _)|[(_ & _ & Hbig & _)
                        |(-> & _ & _ & _)]]].
    + destruct Hf as [Hc Hs]. destruct Hb; contradiction.
    + destruct Hal as [Hal|Hal]; [contradiction|]. rewrite Hal in Hmis. discriminate.
    + lia.
    + pose proof Htb as Hres. apply transfer_block_result in Hres.
      destruct Hres as (cd0 & cur0 & cd1 & Hcd0 & Hcur0 & Hcd1 & _ & _ & Hcases).
      cbn zeta in *.
      rewrite Hcd in Hcd0. injection Hcd0 as <-.
      rewrite Hnext, Hcur in Hcur0. injection Hcur0 as <-.
      destruct Hcases as [(H & _)|[(H & _)|(_ & _ & _ & Hcd1eq)]];
        try discriminate H.
      assert (Hinv1 : ring_inv cd1 (S sub) 0).
      { rewrite Hcd1eq. apply (ring_inv_submit cd sub 0 cur).
        - exact (conj Hlen (conj Hpos (conj Hcom (conj Hpop (conj Hcs Hfree))))).
        - rewrite Hnext. exact Hcur. }
      rewrite Hnext in Hcd1eq.
      assert (Hnum1 : num_descriptors cd1 = num_descriptors cd)
        by (rewrite Hcd1eq; reflexivity).
      destruct (IH d1 cd1 (S sub) Hcd1 Hinv1) as
        (d' & cd' & Hsub & Hcd' & Hinv' & Hnum' & Hcb' & Hlow & Hslots);
        [rewrite Hnum1; lia|exact Hacc'|].
      exists d', cd'. cbn [submit_marked]. rewrite Htb. cbn [Z.eqb].
      split; [exact Hsub|]. split; [exact Hcd'|].
      split; [cbn [length];
              replace (sub + S (length l))%nat with (S sub + length l)%nat by lia;
              exact Hinv'|].
      split; [congruence|].
      split; [rewrite Hcb', Hcd1eq; reflexivity|].
      split.
      * intros j Hj. rewrite Hlow by lia. rewrite Hcd1eq.
        cbn [descriptors set_descriptors set_populated_desc_index].
        apply list_lookup_insert_ne. lia.
      * intros i b0 f0 la0 Hi. destruct i as [|i].
        -- injection Hi as <- <- <-. rewrite Nat.add_0_r.
           rewrite Hlow by lia. rewrite Hcd1eq.
           cbn [descriptors set_descriptors set_populated_desc_index].
           rewrite list_lookup_insert_eq by lia.
           eexists. split; [reflexivity|]. split; [reflexivity|].
           unfold populated_descriptor, write_buffer_address.
           destruct (CONFIG_DMA_64BIT bc); exact (proj2 Hf).
        -- cbn in Hi. replace (sub + S i)%nat with (S sub + i)%nat by lia.
           exact (Hslots i b0 f0 la0 Hi).
Qed.

End Accept.

Section Setup.
Variable bc : build_config.

(** [configure] up to its loop, as one equation, when the link loop ran to
    its end. *)
Lemma configure_setup_result cfg d channel dma_cfg cd d1 :
  channel_data d channel = Some cd ->
  num_descriptors cd = length (descriptors cd) ->
  configure_ring bc d channel = Some d1 ->
  exists cd1,
    channel_data d1 channel = Some cd1
    /\ cd1 = set_descriptors (descriptors cd1)
               (set_completion_desc_index 0
                  (set_populated_desc_index (size_t_pred bc (num_descriptors cd)) cd))
    /\ (forall j, descriptors cd1 !! j = linked bc cd j <$> descriptors cd !! j)
    /\ trace d1 = trace (write_desc_reg bc cd1 XILINX_AXI_DMA_REG_CURDESC
                           XILINX_AXI_DMA_REG_CURDESC_MSB (desc_addr cd1 0) d)
    /\ configure_setup bc cfg d channel dma_cfg
       = Some match configure_rejects cfg channel dma_cfg with
              | Some e => inl (e, d)
              | None =>
                  match configure_offload bc channel (linked_channel dma_cfg) cd1 with
                  | None => inl (- EINVAL,
                                 set_channel_data channel
                                   (set_check_csum_in_isr false cd1) d1)
                  | Some cd2 =>
                      inr (set_channel_data channel
                             (set_completion_callback (dma_callback dma_cfg)
                                (user_data dma_cfg) cd2) d1)
                  end
              end.
Proof.
  intros Hcd Hlen Hring.
  destruct (configure_ring_spec bc d channel cd d1 Hcd Hlen Hring)
    as (cd1 & Hcd1 & Hd1 & Hcd1eq & Hlook).
  exists cd1. split; [exact Hcd1|]. split; [exact Hcd1eq|]. split; [exact Hlook|].
  split.
  { rewrite Hd1 at 1. unfold write_desc_reg, dma_xilinx_axi_dma_write_reg.
    destruct (CONFIG_DMA_64BIT bc); cbn [trace emit]; rewrite trace_set_channel_data;
      reflexivity. }
  unfold configure_setup. destruct (configure_rejects cfg channel dma_cfg); [reflexivity|].
  rewrite Hring, Hcd1. destruct (configure_offload bc channel (linked_channel dma_cfg) cd1);
    reflexivity.
Qed.

Lemma configure_setup_drained cd cd1 :
  num_descriptors cd = length (descriptors cd) ->
  (0 < num_descriptors cd)%nat ->
  ring_drained cd ->
  cd1 = set_descriptors (descriptors cd1)
          (set_completion_desc_index 0
             (set_populated_desc_index (size_t_pred bc (num_descriptors cd)) cd)) ->
  (forall j, descriptors cd1 !! j = linked bc cd j <$> descriptors cd !! j) ->
  forall cd0,
    descriptors cd0 = descriptors cd1 ->
    num_descriptors cd0 = num_descriptors cd1 ->
    populated_desc_index cd0 = populated_desc_index cd1 ->
    completion_desc_index cd0 = completion_desc_index cd1 ->
    freshly_configured cd0.
Proof.
  intros Hlen Hpos Hdr Heq Hlook cd0 Hd0 Hn0 Hp0 Hc0.
  assert (Hn1 : num_descriptors cd1 = num_descriptors cd) by (rewrite Heq; reflexivity).
  assert (Hp1 : populated_desc_index cd1 = (num_descriptors cd - 1)%nat).
  { rewrite Heq. cbn. apply size_t_pred_pos. exact Hpos. }
  assert (Hc1 : completion_desc_index cd1 = 0%nat) by (rewrite Heq; reflexivity).
  assert (Hl1 : length (descriptors cd1) = length (descriptors cd)).
  { apply length_of_lookup. intros j. rewrite Hlook.
    destruct (descriptors cd !! j); cbn; split; intros [x Hx]; eauto; discriminate. }
  unfold freshly_configured. rewrite Hd0, Hn0, Hp0, Hc0, Hn1, Hp1, Hc1, Hl1.
  split; [exact Hlen|]. split; [exact Hpos|]. split; [reflexivity|].
  split; [reflexivity|].
  intros i cur Hi. rewrite Hd0, Hlook in Hi.
  destruct (descriptors cd !! i) as [cur0|] eqn:Hcur0; [|discriminate].
  cbn in Hi. injection Hi as <-.
  destruct (control_status_link_descriptor bc cd i cur0) as [Hc Hs].
  destruct (Hdr i cur0 Hcur0) as [Hfc Hfs].
  split; congruence.
Qed.

(** X11. In a build without [CONFIG_ASSERT], on a drained ring,
    [configure] of a supported configuration with a valid
    [linked_channel], a chain no longer than the ring and blocks that pass
    the checks of [transfer_block] returns 0; the producer cursor is then
    at the slot of the last block, the consumer cursor at 0, the callback
    registered, and slot [i] holds the control word of block [i], marked
    first for [i = 0] and last for the final block. *)
Theorem configure_accepts_chain cfg d channel dma_cfg cd :
  CONFIG_ASSERT bc = false ->
  channel_data d channel = Some cd ->
  num_descriptors cd = length (descriptors cd) ->
  ring_drained cd ->
  channel < channels cfg ->
  ~ unsupported_config channel dma_cfg ->
  linked_channel dma_cfg = XILINX_AXI_DMA_LINKED_CHANNEL_FULL_CSUM_OFFLOAD bc
  \/ linked_channel dma_cfg = XILINX_AXI_DMA_LINKED_CHANNEL_NO_CSUM_OFFLOAD bc ->
  let chain := head_block dma_cfg :: next_blocks dma_cfg in
  (length chain <= num_descriptors cd)%nat ->
  Forall (fun b => block_acceptable bc channel (block_address channel b) (block_size b))
    chain ->
  exists d' cd',
    dma_xilinx_axi_dma_configure bc cfg d channel dma_cfg = Some (0, d')
    /\ channel_data d' channel = Some cd'
    /\ populated_desc_index cd' = (length chain - 1)%nat
    /\ completion_desc_index cd' = 0%nat
    /\ completion_callback cd' = dma_callback dma_cfg
    /\ (forall i b, chain !! i = Some b ->
          exists cur', descriptors cd' !! i = Some cur'
                       /\ control cur'
                          = control_word (block_size b) (i =? 0)%nat
                              (S i =? length chain)%nat
                       /\ status cur' = 0).
Proof.
  intros Hassert Hcd Hlen Hdr Hch Hsup Hlinked chain Hfit Hacc.
  assert (Hpos : (0 < num_descriptors cd)%nat) by (cbn [length chain] in Hfit; lia).
  destruct (configure_ring_returns bc d channel cd Hcd Hlen Hassert) as [d1 Hring].
  destruct (configure_setup_result cfg d channel dma_cfg cd d1 Hcd Hlen Hring)
    as (cd1 & Hcd1 & Hcd1eq & Hlook & _ & Hsetup).
  destruct (configure_rejects_cases cfg channel dma_cfg) as (_ & _ & Hnone).
  rewrite (Hnone Hch Hsup) in Hsetup.
  destruct (configure_offload bc channel (linked_channel dma_cfg) cd1) as [cd2|] eqn:Hoff.
  2:{ exfalso. unfold configure_offload in Hoff.
      destruct Hlinked as [E|E]; rewrite E in Hoff.
      - rewrite Z.eqb_refl in Hoff.
        destruct (channel =? XILINX_AXI_DMA_TX_CHANNEL_NUM); discriminate.
      - rewrite Z.eqb_refl in Hoff.
        destruct (_ =? XILINX_AXI_DMA_LINKED_CHANNEL_FULL_CSUM_OFFLOAD bc);
          [destruct (channel =? XILINX_AXI_DMA_TX_CHANNEL_NUM)|]; discriminate. }
  destruct (configure_offload_descriptors bc channel _ cd1 cd2 Hoff)
    as (Hd2 & Hc2 & Hp2 & Hn2).
  set (cd0 := set_completion_callback (dma_callback dma_cfg) (user_data dma_cfg) cd2)
    in *.
  set (d0 := set_channel_data channel cd0 d1) in *.
  assert (Hcd0 : channel_data d0 channel = Some cd0)
    by (apply (channel_data_set_same channel cd0 cd1 d1 Hcd1)).
  assert (Hfresh : freshly_configured cd0).
  { apply (configure_setup_drained cd cd1 Hlen Hpos Hdr Hcd1eq Hlook);
      assumption. }
  destruct (ring_inv_fresh cd0 Hfresh) as [Hinv _].
  assert (Hn0 : num_descriptors cd0 = num_descriptors cd).
  { change (num_descriptors cd0) with (num_descriptors cd2). rewrite Hn2, Hcd1eq.
    reflexivity. }
  destruct (submit_marked_accepts bc channel (mark_chain chain) d0 cd0 0%nat Hcd0 Hinv)
    as (d' & cd' & Hsub & Hcd' & Hinv' & Hnum' & Hcb' & _ & Hslots).
  { unfold mark_chain. rewrite length_imap, Hn0. exact Hfit. }
  { apply Forall_lookup_2. intros i [[b f] la] Hi.
    apply mark_chain_lookup in Hi. destruct Hi as (Hb & _ & _).
    cbn [fst]. exact (Forall_lookup_1 _ _ _ _ Hacc Hb). }
  exists d', cd'.
  split.
  { unfold dma_xilinx_axi_dma_configure. rewrite Hsetup.
    rewrite (transfer_chain_marked bc channel (next_blocks dma_cfg) (head_block dma_cfg)
               d0 0%nat (S (length (next_blocks dma_cfg))) eq_refl).
    exact Hsub. }
  split; [exact Hcd'|].
  destruct Hinv' as (_ & Hpos' & Hcom' & Hpop' & _).
  assert (Hml : length (mark_chain chain) = length chain)
    by (unfold mark_chain; apply length_imap).
  rewrite Hml, Nat.add_0_l in Hpop'. rewrite Hnum', Hn0 in Hpop', Hcom'.
  split.
  { rewrite Hpop'.
    replace (length chain + num_descriptors cd - 1)%nat
      with ((length chain - 1) + 1 * num_descriptors cd)%nat
      by (cbn [length chain] in *; lia).
    rewrite Nat.Div0.mod_add. apply Nat.mod_small. lia. }
  split; [rewrite Hcom'; apply Nat.Div0.mod_0_l|].
  split; [rewrite Hcb'; reflexivity|].
  intros i b Hb.
  apply (Hslots i b (i =? 0)%nat (S i =? length chain)%nat).
  unfold mark_chain. rewrite list_lookup_imap, Hb. reflexivity.
Qed.

End Setup.

Section Outcome.
Variable bc : build_config.

(** The loop of [configure] leaves 0 or 1 in [ret]. *)
Lemma submit_marked_code channel l : forall d r d',
  submit_marked bc d channel l = Some (r, d') -> r = 0 \/ r = 1.
Proof.
  induction l as [|[[b f] la] l IH]; intros d r d' Hrun; cbn [submit_marked] in Hrun.
  - injection Hrun as <- _. left. reflexivity.
  - destruct (dma_xilinx_axi_dma_transfer_block bc d channel _ _ f la)
      as [[r1 d1]|]; [|discriminate].
    destruct (r1 =? 0); [exact (IH _ _ _ Hrun)|].
    injection Hrun as <- _. right. reflexivity.
Qed.

(** A submission changes nothing of the channel but its ring and its
    producer cursor. *)
Lemma transfer_block_settings d channel cd buffer_addr block_size is_first is_last r d' :
  channel_data d channel = Some cd ->
  dma_xilinx_axi_dma_transfer_block bc d channel buffer_addr block_size
    is_first is_last = Some (r, d') ->
  exists cd',
    channel_data d' channel = Some cd'
    /\ set_populated_desc_index (populated_desc_index cd)
         (set_descriptors (descriptors cd) cd')
       = cd.
Proof.
  intros Hcd Hrun. apply transfer_block_result in Hrun.
  destruct Hrun as (cd0 & cur & cd' & Hcd0 & Hcur & Hcd' & _ & _ & Hcases).
  cbn zeta in *. rewrite Hcd in Hcd0. injection Hcd0 as <-.
  exists cd'. split; [exact Hcd'|].
  destruct Hcases as [(_ & _ & ->)|[(_ & _ & [-> | ->])|(_ & _ & _ & ->)]];
    destruct cd; reflexivity.
Qed.

Lemma submit_marked_settings channel l : forall d cd r d',
  channel_data d channel = Some cd ->
  submit_marked bc d channel l = Some (r, d') ->
  exists cd',
    channel_data d' channel = Some cd'
    /\ set_populated_desc_index (populated_desc_index cd)
         (set_descriptors (descriptors cd) cd')
       = cd.
Proof.
  induction l as [|[[b f] la] l IH]; intros d cd r d' Hcd Hrun;
    cbn [submit_marked] in Hrun.
  - injection Hrun as _ <-. exists cd. split; [exact Hcd|]. destruct cd; reflexivity.
  - destruct (dma_xilinx_axi_dma_transfer_block bc d channel _ _ f la)
      as [[r1 d1]|] eqn:Htb; [|discriminate].
    destruct (transfer_block_settings _ _ _ _ _ _ _ _ _ Hcd Htb) as (cd1 & Hcd1 & Heq1).
    destruct (r1 =? 0).
    + destruct (IH _ _ _ _ Hcd1 Hrun) as (cd' & Hcd' & Heq'). exists cd'.
      split; [exact Hcd'|]. rewrite <- Heq1, <- Heq'. reflexivity.
    + injection Hrun as _ <-. exists cd1. split; [exact Hcd1|exact Heq1].
Qed.

(** [configure] as its checks, its ring set-up and its loop, when the
    link loop ran to its end. *)
Lemma configure_result cfg d channel dma_cfg cd d1 :
  channel_data d channel = Some cd ->
  num_descriptors cd = length (descriptors cd) ->
  configure_ring bc d channel = Some d1 ->
  exists cd1,
    channel_data d1 channel = Some cd1
    /\ cd1 = set_descriptors (descriptors cd1)
               (set_completion_desc_index 0
                  (set_populated_desc_index (size_t_pred bc (num_descriptors cd)) cd))
    /\ (forall j, descriptors cd1 !! j = linked bc cd j <$> descriptors cd !! j)
    /\ trace d1 = trace (write_desc_reg bc cd1 XILINX_AXI_DMA_REG_CURDESC
                           XILINX_AXI_DMA_REG_CURDESC_MSB (desc_addr cd1 0) d)
    /\ dma_xilinx_axi_dma_configure bc cfg d channel dma_cfg
       = match configure_rejects cfg channel dma_cfg with
         | Some e => Some (e, d)
         | None =>
             match configure_offload bc channel (linked_channel dma_cfg) cd1 with
             | None => Some (- EINVAL,
                             set_channel_data channel
                               (set_check_csum_in_isr false cd1) d1)
             | Some cd2 =>
                 submit_marked bc
                   (set_channel_data channel
                      (set_completion_callback (dma_callback dma_cfg)
                         (user_data dma_cfg) cd2) d1)
                   channel (mark_chain (head_block dma_cfg :: next_blocks dma_cfg))
             end
         end.
Proof.
  intros Hcd Hlen Hring.
  destruct (configure_setup_result bc cfg d channel dma_cfg cd d1 Hcd Hlen Hring)
    as (cd1 & Hcd1 & Hcd1eq & Hlook & Htr & Hsetup).
  exists cd1. split; [exact Hcd1|]. split; [exact Hcd1eq|]. split; [exact Hlook|].
  split; [exact Htr|].
  unfold dma_xilinx_axi_dma_configure. rewrite Hsetup.
  destruct (configure_rejects cfg channel dma_cfg); [reflexivity|].
  destruct (configure_offload bc channel (linked_channel dma_cfg) cd1); [|reflexivity].
  apply (transfer_chain_marked bc channel (next_blocks dma_cfg) (head_block dma_cfg)
           _ 0%nat (S (length (next_blocks dma_cfg))) eq_refl).
Qed.

(** When the link loop does not run to its end, [configure] returns only
    what its checks return. *)
Lemma configure_stopped cfg d channel dma_cfg :
  configure_ring bc d channel = None ->
  dma_xilinx_axi_dma_configure bc cfg d channel dma_cfg
  = match configure_rejects cfg channel dma_cfg with
    | Some e => Some (e, d)
    | None => None
    end.
Proof.
  intros Hring. unfold dma_xilinx_axi_dma_configure, configure_setup.
  destruct (configure_rejects cfg channel dma_cfg); [reflexivity|].
  rewrite Hring. reflexivity.
Qed.

Lemma unsupported_config_decided cfg channel dma_cfg :
  channel < channels cfg ->
  unsupported_config channel dma_cfg \/ ~ unsupported_config channel dma_cfg.
Proof.
  intros Hch.
  destruct (configure_rejects_cases cfg channel dma_cfg) as (_ & Hyes & Hno).
  destruct (configure_rejects cfg channel dma_cfg) as [e|] eqn:Hrej.
  - left. destruct (Z.eq_dec e (- ENOTSUP)) as [->|Hne].
    + unfold configure_rejects, unsupported_config in *.
      destruct (channel >=? channels cfg); [discriminate|].
      unfold DMA_ADDR_ADJ_DECREMENT, DMA_ADDR_ADJ_INCREMENT, DMA_ADDR_ADJ_NO_CHANGE in *.
      destruct (Z.eqb_spec (source_addr_adj (head_block dma_cfg)) 1); [left; lia|].
      destruct (Z.eqb_spec (dest_addr_adj (head_block dma_cfg)) 1); [right; left; lia|].
      destruct (Z.eqb_spec (source_addr_adj (head_block dma_cfg)) 0);
        destruct (Z.eqb_spec (source_addr_adj (head_block dma_cfg)) 2);
        cbn [negb andb] in Hrej; try (left; lia).
      all: destruct (Z.eqb_spec (dest_addr_adj (head_block dma_cfg)) 0);
        destruct (Z.eqb_spec (dest_addr_adj (head_block dma_cfg)) 2);
        cbn [negb andb] in Hrej; try (right; left; lia).
      all: right; right.
      all: destruct (Z.eqb_spec channel XILINX_AXI_DMA_TX_CHANNEL_NUM);
        destruct (Z.eqb_spec channel XILINX_AXI_DMA_RX_CHANNEL_NUM);
        destruct (direction_eqb (channel_direction dma_cfg) MEMORY_TO_PERIPHERAL) eqn:Hmp;
        destruct (direction_eqb (channel_direction dma_cfg) PERIPHERAL_TO_MEMORY) eqn:Hpm;
        cbn [negb andb] in Hrej; try discriminate Hrej.
      all: first [left; split; [assumption|];
                  intros E; rewrite E in Hmp; discriminate Hmp
                 |right; split; [assumption|];
                  intros E; rewrite E in Hpm; discriminate Hpm].
    + exfalso. unfold configure_rejects in Hrej.
      destruct (Z.geb_spec channel (channels cfg)); [lia|].
      repeat match type of Hrej with
             | (if ?c then _ else _) = _ => destruct c
             end; congruence.
  - right. intros Hu. specialize (Hyes Hch Hu). congruence.
Qed.

Lemma transfer_block_shape d channel cd buffer_addr block_size is_first is_last r d' :
  channel_data d channel = Some cd ->
  dma_xilinx_axi_dma_transfer_block bc d channel buffer_addr block_size
    is_first is_last = Some (r, d') ->
  exists cd',
    channel_data d' channel = Some cd'
    /\ num_descriptors cd' = num_descriptors cd
    /\ length (descriptors cd') = length (descriptors cd).
Proof.
  intros Hcd Hrun. apply transfer_block_result in Hrun.
  destruct Hrun as (cd0 & cur & cd' & Hcd0 & Hcur & Hcd' & _ & _ & Hcases).
  cbn zeta in *. rewrite Hcd in Hcd0. injection Hcd0 as <-.
  exists cd'. split; [exact Hcd'|].
  destruct Hcases as [(_ & _ & ->)|[(_ & _ & [-> | ->])|(_ & _ & _ & ->)]];
    cbn [num_descriptors descriptors set_descriptors set_populated_desc_index];
    rewrite ?length_insert; split; reflexivity.
Qed.

Lemma submit_marked_total channel l : forall d cd,
  channel_data d channel = Some cd ->
  num_descriptors cd = length (descriptors cd) ->
  (0 < num_descriptors cd)%nat ->
  exists r d', submit_marked bc d channel l = Some (r, d').
Proof.
  induction l as [|[[b f] la] l IH]; intros d cd Hcd Hlen Hpos; cbn [submit_marked].
  - eauto.
  - destruct (transfer_block_returns bc d channel cd (block_address channel b)
                (block_size b) f la Hcd Hlen Hpos) as (r1 & d1 & Htb).
    rewrite Htb.
    destruct (transfer_block_shape _ _ _ _ _ _ _ _ _ Hcd Htb) as (cd1 & Hcd1 & Hn1 & Hl1).
    destruct (r1 =? 0); [|eauto].
    apply (IH d1 cd1 Hcd1); congruence.
Qed.

(** X12. On a valid channel with a non-empty ring: in a build without
    [CONFIG_ASSERT], [configure] returns, and its value is 0, 1, -EINVAL
    or -ENOTSUP: -ENOTSUP exactly for an unsupported address adjustment or
    direction, the device then being untouched; -EINVAL exactly when the
    configuration is supported and [linked_channel] is neither of the two
    checksum-offload modes.  In a build with [CONFIG_ASSERT] it still
    returns -ENOTSUP for an unsupported configuration, but for a supported
    one it has no result: the [__ASSERT] of the link loop, whose test is
    [nextdesc & (0x3f == 0)], fails at the first descriptor. *)
Theorem configure_return_values cfg d channel dma_cfg cd :
  channel_data d channel = Some cd ->
  num_descriptors cd = length (descriptors cd) ->
  (0 < num_descriptors cd)%nat ->
  channel < channels cfg ->
  (CONFIG_ASSERT bc = false ->
   exists r d',
     dma_xilinx_axi_dma_configure bc cfg d channel dma_cfg = Some (r, d')
     /\ (r = 0 \/ r = 1 \/ r = - EINVAL \/ r = - ENOTSUP)
     /\ (r = - ENOTSUP <-> unsupported_config channel dma_cfg)
     /\ (r = - ENOTSUP -> d' = d)
     /\ (r = - EINVAL
         <-> ~ unsupported_config channel dma_cfg
             /\ linked_channel dma_cfg
                <> XILINX_AXI_DMA_LINKED_CHANNEL_FULL_CSUM_OFFLOAD bc
             /\ linked_channel dma_cfg
                <> XILINX_AXI_DMA_LINKED_CHANNEL_NO_CSUM_OFFLOAD bc))
  /\ (CONFIG_ASSERT bc = true ->
      (unsupported_config channel dma_cfg ->
       dma_xilinx_axi_dma_configure bc cfg d channel dma_cfg = Some (- ENOTSUP, d))
      /\ (~ unsupported_config channel dma_cfg ->
          dma_xilinx_axi_dma_configure bc cfg d channel dma_cfg = None)).
Proof.
  intros Hcd Hlen Hpos Hch.
  destruct (configure_rejects_cases cfg channel dma_cfg) as (_ & Hyes & Hno).
  split.
  2:{ intros Hassert.
      rewrite (configure_stopped cfg d channel dma_cfg
                 (configure_ring_asserts bc d channel cd Hcd Hassert Hpos)).
      split; intros Hu; [rewrite (Hyes Hch Hu)|rewrite (Hno Hch Hu)]; reflexivity. }
  intros Hassert.
  destruct (configure_ring_returns bc d channel cd Hcd Hlen Hassert) as [d1 Hring].
  destruct (configure_result cfg d channel dma_cfg cd d1 Hcd Hlen Hring)
    as (cd1 & Hcd1 & Hcd1eq & Hlook & _ & Hcfg).
  destruct (unsupported_config_decided cfg channel dma_cfg Hch) as [Hu|Hu].
  - rewrite (Hyes Hch Hu) in Hcfg. exists (- ENOTSUP), d.
    split; [exact Hcfg|]. split; [tauto|]. split; [tauto|]. split; [tauto|].
    split; [discriminate|tauto].
  - rewrite (Hno Hch Hu) in Hcfg.
    destruct (configure_offload bc channel (linked_channel dma_cfg) cd1) as [cd2|] eqn:Hoff.
    + assert (Hlinked :
        linked_channel dma_cfg = XILINX_AXI_DMA_LINKED_CHANNEL_FULL_CSUM_OFFLOAD bc
        \/ linked_channel dma_cfg = XILINX_AXI_DMA_LINKED_CHANNEL_NO_CSUM_OFFLOAD bc).
      { unfold configure_offload in Hoff.
        destruct (Z.eqb_spec (linked_channel dma_cfg)
                    (XILINX_AXI_DMA_LINKED_CHANNEL_FULL_CSUM_OFFLOAD bc)); [tauto|].
        destruct (Z.eqb_spec (linked_channel dma_cfg)
                    (XILINX_AXI_DMA_LINKED_CHANNEL_NO_CSUM_OFFLOAD bc)); [tauto|].
        discriminate. }
      destruct (configure_offload_descriptors bc channel _ cd1 cd2 Hoff)
        as (Hd2 & Hc2 & Hp2 & Hn2).
      set (cd0 := set_completion_callback (dma_callback dma_cfg) (user_data dma_cfg) cd2)
        in *.
      assert (Hl1 : length (descriptors cd1) = length (descriptors cd)).
      { apply length_of_lookup. intros j. rewrite Hlook.
        destruct (descriptors cd !! j); cbn; split; intros [x Hx]; eauto; discriminate. }
      destruct (submit_marked_total channel
                  (mark_chain (head_block dma_cfg :: next_blocks dma_cfg))
                  (set_channel_data channel cd0 d1) cd0) as (r & d' & Hsub).
      { apply (channel_data_set_same channel cd0 cd1 d1 Hcd1). }
      { change (num_descriptors cd2 = length (descriptors cd2)).
        rewrite Hn2, Hd2, Hl1, Hcd1eq. exact Hlen. }
      { change (0 < num_descriptors cd2)%nat. rewrite Hn2, Hcd1eq. exact Hpos. }
      rewrite Hsub in Hcfg. exists r, d'. split; [exact Hcfg|].
      apply submit_marked_code in Hsub. unfold ENOTSUP, EINVAL.
      split; [tauto|]. split; [split; [lia|tauto]|]. split; [lia|].
      split; [lia|]. intros (_ & H1 & H2). tauto.
    + eexists _, _. split; [exact Hcfg|]. unfold ENOTSUP, EINVAL.
      split; [tauto|]. split; [split; [intros ?; lia|tauto]|]. split; [intros ?; lia|].
      split; [|reflexivity]. intros _. split; [exact Hu|].
      unfold configure_offload in Hoff.
      destruct (Z.eqb_spec (linked_channel dma_cfg)
                  (XILINX_AXI_DMA_LINKED_CHANNEL_FULL_CSUM_OFFLOAD bc));
        [destruct (channel =? XILINX_AXI_DMA_TX_CHANNEL_NUM); discriminate|].
      destruct (Z.eqb_spec (linked_channel dma_cfg)
                  (XILINX_AXI_DMA_LINKED_CHANNEL_NO_CSUM_OFFLOAD bc)); [discriminate|].
      tauto.
Qed.

End Outcome.

Section Modes.
Variable bc : build_config.

Lemma configure_rejects_negative cfg channel dma_cfg e :
  configure_rejects cfg channel dma_cfg = Some e -> e < 0.
Proof.
  unfold configure_rejects, EINVAL, ENOTSUP. intros H.
  repeat match type of H with
         | (if ?c then _ else _) = _ => destruct c
         end; try discriminate H; injection H as <-; lia.
Qed.

Lemma trace_write_desc_reg_regs c c' r r_msb a d :
  channel_regs c' = channel_regs c ->
  write_desc_reg bc c' r r_msb a d = write_desc_reg bc c r r_msb a d.
Proof.
  intros H. unfold write_desc_reg, dma_xilinx_axi_dma_write_reg. rewrite H. reflexivity.
Qed.

(** X13. In a build without [CONFIG_ASSERT]: when [configure] rejects
    [linked_channel] with -EINVAL it has already reset both cursors (the
    producer cursor to [num_descriptors - 1] computed on [size_t], which
    is [SIZE_MAX] for an empty ring), rewritten the links of the ring,
    written the current-descriptor register and cleared
    [check_csum_in_isr]; the callback, its user data and [sg_desc_app0]
    are those of before. *)
Theorem configure_invalid_linked_channel cfg d channel dma_cfg cd :
  CONFIG_ASSERT bc = false ->
  channel_data d channel = Some cd ->
  num_descriptors cd = length (descriptors cd) ->
  channel < channels cfg ->
  ~ unsupported_config channel dma_cfg ->
  linked_channel dma_cfg <> XILINX_AXI_DMA_LINKED_CHANNEL_FULL_CSUM_OFFLOAD bc ->
  linked_channel dma_cfg <> XILINX_AXI_DMA_LINKED_CHANNEL_NO_CSUM_OFFLOAD bc ->
  exists d' cd',
    dma_xilinx_axi_dma_configure bc cfg d channel dma_cfg = Some (- EINVAL, d')
    /\ channel_data d' channel = Some cd'
    /\ populated_desc_index cd'
       = (if (num_descriptors cd =? 0)%nat
          then Z.to_nat (SIZE_MAX bc)
          else (num_descriptors cd - 1)%nat)
    /\ completion_desc_index cd' = 0%nat
    /\ check_csum_in_isr cd' = false
    /\ (forall j, descriptors cd' !! j = linked bc cd j <$> descriptors cd !! j)
    /\ (completion_callback cd', completion_callback_user_data cd', sg_desc_app0 cd')
       = (completion_callback cd, completion_callback_user_data cd, sg_desc_app0 cd)
    /\ trace d' = trace (write_desc_reg bc cd XILINX_AXI_DMA_REG_CURDESC
                           XILINX_AXI_DMA_REG_CURDESC_MSB (desc_addr cd 0) d).
Proof.
  intros Hassert Hcd Hlen Hch Hsup Hfull Hnone.
  destruct (configure_ring_returns bc d channel cd Hcd Hlen Hassert) as [d1 Hring].
  destruct (configure_result bc cfg d channel dma_cfg cd d1 Hcd Hlen Hring)
    as (cd1 & Hcd1 & Hcd1eq & Hlook & Htr & Hcfg).
  destruct (configure_rejects_cases cfg channel dma_cfg) as (_ & _ & Hno).
  rewrite (Hno Hch Hsup) in Hcfg.
  assert (Hoff : configure_offload bc channel (linked_channel dma_cfg) cd1 = None).
  { unfold configure_offload.
    destruct (Z.eqb_spec (linked_channel dma_cfg)
                (XILINX_AXI_DMA_LINKED_CHANNEL_FULL_CSUM_OFFLOAD bc)); [contradiction|].
    destruct (Z.eqb_spec (linked_channel dma_cfg)
                (XILINX_AXI_DMA_LINKED_CHANNEL_NO_CSUM_OFFLOAD bc)); [contradiction|].
    reflexivity. }
  rewrite Hoff in Hcfg.
  eexists _, _. split; [exact Hcfg|].
  split; [apply (channel_data_set_same channel _ cd1 d1 Hcd1)|].
  cbn [populated_desc_index completion_desc_index check_csum_in_isr descriptors
       completion_callback completion_callback_user_data sg_desc_app0
       set_check_csum_in_isr].
  split; [rewrite Hcd1eq; reflexivity|]. split; [rewrite Hcd1eq; reflexivity|].
  split; [reflexivity|]. split; [exact Hlook|].
  split; [rewrite Hcd1eq; reflexivity|].
  rewrite trace_set_channel_data, Htr. f_equal.
  rewrite (trace_write_desc_reg_regs cd cd1) by (rewrite Hcd1eq; reflexivity).
  f_equal. rewrite Hcd1eq. reflexivity.
Qed.

(** X14. When [configure] gets past its checks (it returns 0 or 1) the
    channel has the callback and user data of the configuration,
    [check_csum_in_isr] is set exactly for full checksum offload on the
    receive channel, and [sg_desc_app0] is the full-offload word for full
    offload on the send channel, unchanged for full offload on the receive
    channel, and the no-offload word otherwise. *)
Theorem configure_offload_modes cfg d channel dma_cfg cd r d' :
  channel_data d channel = Some cd ->
  num_descriptors cd = length (descriptors cd) ->
  dma_xilinx_axi_dma_configure bc cfg d channel dma_cfg = Some (r, d') ->
  0 <= r ->
  exists cd',
    channel_data d' channel = Some cd'
    /\ completion_callback cd' = dma_callback dma_cfg
    /\ completion_callback_user_data cd' = user_data dma_cfg
    /\ (check_csum_in_isr cd' = true
        <-> linked_channel dma_cfg = XILINX_AXI_DMA_LINKED_CHANNEL_FULL_CSUM_OFFLOAD bc
            /\ channel = XILINX_AXI_DMA_RX_CHANNEL_NUM)
    /\ sg_desc_app0 cd'
       = (if linked_channel dma_cfg =? XILINX_AXI_DMA_LINKED_CHANNEL_FULL_CSUM_OFFLOAD bc
          then if channel =? XILINX_AXI_DMA_TX_CHANNEL_NUM
               then XILINX_AXI_DMA_SG_DESCRIPTOR_APP0_CHECKSUM_OFFLOAD_FULL
               else sg_desc_app0 cd
          else XILINX_AXI_DMA_SG_DESCRIPTOR_APP0_CHECKSUM_OFFLOAD_NONE).
Proof.
  intros Hcd Hlen Hrun Hr.
  destruct (configure_ring bc d channel) as [d1|] eqn:Hring.
  2:{ rewrite (configure_stopped bc cfg d channel dma_cfg Hring) in Hrun.
      destruct (configure_rejects cfg channel dma_cfg) as [e|] eqn:Hrej;
        [|discriminate].
      apply configure_rejects_negative in Hrej. injection Hrun as -> _. lia. }
  destruct (configure_result bc cfg d channel dma_cfg cd d1 Hcd Hlen Hring)
    as (cd1 & Hcd1 & Hcd1eq & Hlook & _ & Hcfg).
  rewrite Hrun in Hcfg.
  destruct (configure_rejects cfg channel dma_cfg) as [e|] eqn:Hrej.
  { apply configure_rejects_negative in Hrej. injection Hcfg as -> _. lia. }
  destruct (configure_offload bc channel (linked_channel dma_cfg) cd1) as [cd2|] eqn:Hoff.
  2:{ injection Hcfg as -> _. unfold EINVAL in Hr. lia. }
  symmetry in Hcfg.
  set (cd0 := set_completion_callback (dma_callback dma_cfg) (user_data dma_cfg) cd2)
    in *.
  destruct (submit_marked_settings bc channel _ _ cd0 _ _
              (channel_data_set_same channel cd0 cd1 d1 Hcd1) Hcfg)
    as (cd' & Hcd' & Heq).
  exists cd'. split; [exact Hcd'|].
  pose proof (f_equal completion_callback Heq) as Hcb.
  pose proof (f_equal completion_callback_user_data Heq) as Hud.
  pose proof (f_equal check_csum_in_isr Heq) as Hck.
  pose proof (f_equal sg_desc_app0 Heq) as Hap.
  cbn in Hcb, Hud, Hck, Hap.
  split; [exact Hcb|]. split; [exact Hud|].
  rewrite Hck, Hap.
  assert (Hvalid := channel_data_valid d channel cd Hcd).
  assert (Happ1 : sg_desc_app0 cd1 = sg_desc_app0 cd) by (rewrite Hcd1eq; reflexivity).
  unfold configure_offload in Hoff.
  destruct (Z.eqb_spec (linked_channel dma_cfg)
              (XILINX_AXI_DMA_LINKED_CHANNEL_FULL_CSUM_OFFLOAD bc)) as [Hf|Hf].
  - destruct (Z.eqb_spec channel XILINX_AXI_DMA_TX_CHANNEL_NUM) as [Ht|Ht];
      injection Hoff as <-; cbn.
    + split; [|reflexivity]. split; [discriminate|].
      intros [_ E]. rewrite E in Ht. discriminate Ht.
    + split; [|exact Happ1]. split; [|reflexivity]. intros _.
      split; [exact Hf|]. destruct Hvalid; [contradiction|assumption].
  - destruct (Z.eqb_spec (linked_channel dma_cfg)
                (XILINX_AXI_DMA_LINKED_CHANNEL_NO_CSUM_OFFLOAD bc)) as [Hn|Hn];
      [|discriminate].
    injection Hoff as <-; cbn. split; [|reflexivity].
    split; [discriminate|]. intros [E _]. contradiction.
Qed.

End Modes.

(** *** The sweep and the interrupt handler *)

Lemma channel_data_same_rings d d2 channel :
  channels_tx d2 = channels_tx d -> channels_rx d2 = channels_rx d ->
  channel_data d2 channel = channel_data d channel.
Proof. intros Ht Hr. unfold channel_data. rewrite Ht, Hr. reflexivity. Qed.

Lemma set_channel_data_same_rings d d2 channel c :
  channels_tx d2 = channels_tx d -> channels_rx d2 = channels_rx d ->
  channels_tx (set_channel_data channel c d2) = channels_tx (set_channel_data channel c d)
  /\ channels_rx (set_channel_data channel c d2)
     = channels_rx (set_channel_data channel c d).
Proof.
  intros Ht Hr. unfold set_channel_data.
  destruct (channel =? XILINX_AXI_DMA_TX_CHANNEL_NUM); [split; [reflexivity|exact Hr]|].
  destruct (channel =? XILINX_AXI_DMA_RX_CHANNEL_NUM); split; first [reflexivity|assumption].
Qed.

Lemma new_events_app d d' ev : trace d' = trace d ++ ev -> new_events d d' = ev.
Proof. intros H. unfold new_events. rewrite H. apply drop_app_length. Qed.

(** The sweep reads and writes the rings only: on two devices with the
    same channels it reclaims the same descriptors and records the same
    events. *)
Lemma sweep_loop_frame channel fuel : forall d d2 acc,
  channels_tx d2 = channels_tx d -> channels_rx d2 = channels_rx d ->
  match sweep_loop fuel channel acc d, sweep_loop fuel channel acc d2 with
  | Some (k, d'), Some (k2, d2') =>
      k2 = k
      /\ channels_tx d2' = channels_tx d' /\ channels_rx d2' = channels_rx d'
      /\ irq_enabled d2' = irq_enabled d2 /\ irqs_locked d2' = irqs_locked d2
      /\ exists ev, trace d' = trace d ++ ev /\ trace d2' = trace d2 ++ ev
  | None, None => True
  | _, _ => False
  end.
Proof.
  induction fuel as [|fuel IH]; intros d d2 acc Ht Hr; cbn [sweep_loop]; [exact I|].
  rewrite (channel_data_same_rings d d2 channel Ht Hr).
  destruct (channel_data d channel) as [cd|]; [|exact I].
  destruct (descriptors cd !! completion_desc_index cd) as [cur|]; [|exact I].
  destruct (status_flagged (status cur)).
  - assert (Hb : channels_tx (sweep_body channel cd cur d2)
                 = channels_tx (sweep_body channel cd cur d)
                 /\ channels_rx (sweep_body channel cd cur d2)
                    = channels_rx (sweep_body channel cd cur d)).
    { unfold sweep_body. apply set_channel_data_same_rings;
        destruct (completion_callback _); cbn [emit channels_tx channels_rx]; assumption. }
    specialize (IH (sweep_body channel cd cur d) (sweep_body channel cd cur d2) (S acc)
                  (proj1 Hb) (proj2 Hb)).
    destruct (sweep_loop fuel channel (S acc) (sweep_body channel cd cur d))
      as [[k d']|], (sweep_loop fuel channel (S acc) (sweep_body channel cd cur d2))
      as [[k2 d2']|]; try exact IH.
    destruct IH as (Hk & Ht' & Hr' & Hen & Hlk & ev & He & He2).
    destruct (sweep_body_frame channel cd cur d2) as (Hen2 & Hlk2 & _).
    split; [exact Hk|]. split; [exact Ht'|]. split; [exact Hr'|].
    split; [congruence|]. split; [congruence|].
    assert (Htr : forall dx, trace (sweep_body channel cd cur dx)
                             = trace dx ++ drop (length (trace dx))
                                             (trace (sweep_body channel cd cur dx))).
    { intros dx. unfold sweep_body. rewrite trace_set_channel_data.
      destruct (completion_callback _); cbn [emit trace];
        rewrite <- ?app_assoc, drop_app_length; reflexivity. }
    assert (Hsame : drop (length (trace d)) (trace (sweep_body channel cd cur d))
                    = drop (length (trace d2)) (trace (sweep_body channel cd cur d2))).
    { unfold sweep_body. rewrite !trace_set_channel_data.
      destruct (completion_callback _); cbn [emit trace];
        rewrite <- ?app_assoc, !drop_app_length; reflexivity. }
    exists (drop (length (trace d)) (trace (sweep_body channel cd cur d)) ++ ev).
    split.
    + rewrite He. rewrite (Htr d) at 1. rewrite <- app_assoc. reflexivity.
    + rewrite He2. rewrite (Htr d2) at 1. rewrite <- app_assoc, Hsame. reflexivity.
  - split; [reflexivity|]. split; [exact Ht|]. split; [exact Hr|].
    split; [reflexivity|]. split; [reflexivity|].
    exists []. rewrite !app_nil_r. split; reflexivity.
Qed.

(** X15. On a well-formed channel the sweep returns, and a second
    sweep run right after it reclaims nothing and leaves the device as it
    is. *)
Theorem sweep_twice_finds_nothing d channel cd :
  channel_data d channel = Some cd ->
  channel_wf cd ->
  exists k d',
    dma_xilinx_axi_dma_clean_up_sg_descriptors d channel = Some (k, d')
    /\ dma_xilinx_axi_dma_clean_up_sg_descriptors d' channel = Some (0%nat, d').
Proof.
  intros Hcd (Hlen & _ & Hcom).
  destruct (clean_up_total d channel cd Hcd Hlen Hcom) as (k & d' & Hrun).
  exists k, d'. split; [exact Hrun|].
  unfold dma_xilinx_axi_dma_clean_up_sg_descriptors in Hrun. rewrite Hcd in Hrun.
  destruct (sweep_loop_spec channel _ d cd 0%nat k d' Hcd Hrun)
    as (m & cd' & ls & _ & Hcd' & _ & _ & _ & _ & _ & (cur & Hcur & Hnf) & _).
  unfold dma_xilinx_axi_dma_clean_up_sg_descriptors. rewrite Hcd'.
  cbn [sweep_loop]. rewrite Hcd', Hcur, Hnf. reflexivity.
Qed.

Lemma last_cons_nonempty {A} (x : A) l y : last l = Some y -> last (x :: l) = Some y.
Proof. destruct l; [discriminate|]. intros H. exact H. Qed.

(** The length the sweep leaves in [last_rx_size] is the transferred
    length of the last descriptor it reclaimed. *)
Lemma sweep_loop_last_size channel fuel : forall d cd acc k d',
  channel_data d channel = Some cd ->
  sweep_loop fuel channel acc d = Some (k, d') ->
  exists m cd',
    k = (acc + m)%nat
    /\ channel_data d' channel = Some cd'
    /\ match last (swept_slots cd m) with
       | None => m = 0%nat /\ last_rx_size cd' = last_rx_size cd
       | Some i =>
           exists cur,
             descriptors cd !! i = Some cur
             /\ status_flagged (status cur) = true
             /\ last_rx_size cd'
                = Z.land (status cur) XILINX_AXI_DMA_SG_DESCRIPTOR_STATUS_LENGTH_MASK
       end.
Proof.
  induction fuel as [|fuel IH]; intros d cd acc k d' Hcd Hrun; cbn [sweep_loop] in Hrun;
    [discriminate|].
  rewrite Hcd in Hrun.
  destruct (descriptors cd !! completion_desc_index cd) as [cur|] eqn:Hcur; [|discriminate].
  destruct (status_flagged (status cur)) eqn:Hfl.
  - pose proof (sweep_body_channel channel cd cur d Hcd) as Hcd1.
    destruct (IH _ _ _ _ _ Hcd1 Hrun) as (m & cd' & Hk & Hcd' & Hlast).
    exists (S m), cd'. split; [lia|]. split; [exact Hcd'|].
    unfold swept_slots in *.
    cbn [num_descriptors completion_desc_index set_completion_desc_index set_descriptors
         set_last_rx_size ring_walk] in *.
    destruct (last (ring_walk (num_descriptors cd)
                      (next_index (num_descriptors cd) (completion_desc_index cd)) m))
      as [i|] eqn:Hl.
    + rewrite (last_cons_nonempty _ _ _ Hl).
      destruct Hlast as (cur' & Hcur' & Hfl' & Hsz).
      cbn [descriptors set_completion_desc_index set_descriptors] in Hcur'.
      exists cur'. split; [|split; assumption].
      destruct (Nat.eq_dec i (completion_desc_index cd)) as [->|Hne].
      * rewrite list_lookup_insert_eq in Hcur' by (eapply lookup_lt_Some; exact Hcur).
        injection Hcur' as <-. rewrite status_flagged_released in Hfl'. discriminate.
      * rewrite list_lookup_insert_ne in Hcur' by congruence. exact Hcur'.
    + destruct Hlast as (-> & Hsz). cbn [ring_walk last].
      exists cur. split; [exact Hcur|]. split; [exact Hfl|]. rewrite Hsz. reflexivity.
  - injection Hrun as <- <-. exists 0%nat, cd. split; [lia|]. split; [exact Hcd|].
    cbn. split; reflexivity.
Qed.

(** X16. On a well-formed channel the sweep leaves in [last_rx_size]
    the transferred-length field (below 2^26) of the last descriptor it
    reclaimed, and leaves it unchanged when it reclaims none; for the
    receive channel this is what
    [dma_xilinx_axi_dma_last_received_frame_length] returns. *)
Theorem sweep_records_last_length d channel cd :
  channel_data d channel = Some cd ->
  channel_wf cd ->
  exists k d' cd',
    dma_xilinx_axi_dma_clean_up_sg_descriptors d channel = Some (k, d')
    /\ channel_data d' channel = Some cd'
    /\ match last (swept_slots cd k) with
       | None => k = 0%nat /\ last_rx_size cd' = last_rx_size cd
       | Some i =>
           exists cur,
             descriptors cd !! i = Some cur
             /\ status_flagged (status cur) = true
             /\ last_rx_size cd'
                = Z.land (status cur) XILINX_AXI_DMA_SG_DESCRIPTOR_STATUS_LENGTH_MASK
             /\ 0 <= last_rx_size cd' < 2 ^ 26
       end
    /\ (channel = XILINX_AXI_DMA_RX_CHANNEL_NUM ->
        dma_xilinx_axi_dma_last_received_frame_length d' = last_rx_size cd').
Proof.
  intros Hcd (Hlen & _ & Hcom).
  destruct (clean_up_total d channel cd Hcd Hlen Hcom) as (k & d' & Hrun).
  pose proof Hrun as Hrun0.
  unfold dma_xilinx_axi_dma_clean_up_sg_descriptors in Hrun. rewrite Hcd in Hrun.
  destruct (sweep_loop_last_size channel _ d cd 0%nat k d' Hcd Hrun)
    as (m & cd' & Hk & Hcd' & Hlast).
  cbn in Hk. subst m.
  exists k, d', cd'. split; [exact Hrun0|]. split; [exact Hcd'|]. split.
  - destruct (last (swept_slots cd k)); [|exact Hlast].
    destruct Hlast as (cur & Hcur & Hfl & Hsz). exists cur.
    split; [exact Hcur|]. split; [exact Hfl|]. split; [exact Hsz|].
    rewrite Hsz.
    change XILINX_AXI_DMA_SG_DESCRIPTOR_STATUS_LENGTH_MASK with (Z.ones 26).
    rewrite Z.land_ones by lia. apply Z.mod_pos_bound. lia.
  - intros ->. unfold dma_xilinx_axi_dma_last_received_frame_length.
    rewrite channel_data_rx in Hcd'. injection Hcd' as <-. reflexivity.
Qed.

Lemma irq_toggle_restores d d2 n :
  irq_enabled d2 = irq_enabled (irq_disable n d) ->
  irqs_locked d2 = irqs_locked d ->
  irq_state_restored d (if irq_is_enabled d n then irq_enable n d2 else d2).
Proof.
  intros Hen Hlk. unfold irq_is_enabled. split.
  - intros x. destruct (irq_enabled d n) eqn:Hn.
    + cbn. rewrite Hen. cbn. destruct (Z.eqb_spec x n) as [->|]; [congruence|reflexivity].
    + rewrite Hen. cbn. destruct (Z.eqb_spec x n) as [->|]; [congruence|reflexivity].
  - destruct (irq_enabled d n); cbn; exact Hlk.
Qed.

(** X17. On a well-formed channel the interrupt handler returns with
    the interrupt controller in the state it found.  It first writes the
    error bit back to the status register if the status read has it; if
    the read has the completion or the delay bit it writes back those of
    the two that are set and then reclaims exactly what the sweep reclaims
    on the device as it was, with the same events; otherwise it leaves
    both channels unchanged. *)
Theorem isr_acknowledges_and_sweeps channel d cd dmasr :
  channel_data d channel = Some cd ->
  channel_wf cd ->
  exists d',
    channel_isr channel d dmasr = Some d'
    /\ irq_state_restored d d'
    /\ (if tst dmasr isr_cause
        then exists k ds,
               dma_xilinx_axi_dma_clean_up_sg_descriptors d channel = Some (k, ds)
               /\ channels_tx d' = channels_tx ds /\ channels_rx d' = channels_rx ds
               /\ trace d' = trace d ++ isr_acknowledgements cd dmasr ++ new_events d ds
        else channels_tx d' = channels_tx d /\ channels_rx d' = channels_rx d
             /\ trace d' = trace d ++ isr_acknowledgements cd dmasr).
Proof.
  intros Hcd (Hlen & _ & Hcom).
  unfold channel_isr, isr_acknowledgements. rewrite Hcd. cbn zeta.
  fold isr_cause.
  set (da := if tst dmasr XILINX_AXI_DMA_REGS_DMASR_ERR_IRQ
             then dma_xilinx_axi_dma_write_reg cd XILINX_AXI_DMA_REG_DMASR
                    XILINX_AXI_DMA_REGS_DMASR_ERR_IRQ (irq_disable (irq cd) d)
             else irq_disable (irq cd) d).
  assert (Hda : channels_tx da = channels_tx d /\ channels_rx da = channels_rx d
                /\ irq_enabled da = irq_enabled (irq_disable (irq cd) d)
                /\ irqs_locked da = irqs_locked d
                /\ trace da = trace d
                     ++ (if tst dmasr XILINX_AXI_DMA_REGS_DMASR_ERR_IRQ
                         then [EvWriteReg (channel_regs cd + XILINX_AXI_DMA_REG_DMASR)
                                 XILINX_AXI_DMA_REGS_DMASR_ERR_IRQ]
                         else [])).
  { subst da. destruct (tst dmasr XILINX_AXI_DMA_REGS_DMASR_ERR_IRQ); cbn;
      rewrite ?app_nil_r; repeat split; reflexivity. }
  destruct Hda as (Hat & Har & Haen & Halk & Hatr).
  destruct (tst dmasr isr_cause).
  - set (dc := dma_xilinx_axi_dma_write_reg cd XILINX_AXI_DMA_REG_DMASR
                 (Z.land dmasr isr_cause) da).
    destruct (clean_up_total d channel cd Hcd Hlen Hcom) as (k & ds & Hrun).
    pose proof Hrun as Hrun0.
    unfold dma_xilinx_axi_dma_clean_up_sg_descriptors in Hrun |- *.
    rewrite Hcd in Hrun.
    assert (Hdc : channel_data dc channel = Some cd).
    { rewrite <- Hcd. apply channel_data_same_rings; assumption. }
    rewrite Hdc.
    pose proof (sweep_loop_frame channel (S (length (descriptors cd))) d dc 0%nat
                  Hat Har) as Hfr.
    rewrite Hrun in Hfr.
    destruct (sweep_loop (S (length (descriptors cd))) channel 0%nat dc)
      as [[k2 ds2]|]; [|contradiction].
    destruct Hfr as (_ & Ht & Hr & Hen & Hlk & ev & He & He2).
    eexists. split; [reflexivity|].
    split; [apply irq_toggle_restores; [rewrite Hen; exact Haen|rewrite Hlk; exact Halk]|].
    exists k, ds. split; [exact Hrun0|].
    rewrite (new_events_app d ds ev He).
    unfold irq_is_enabled.
    destruct (irq_enabled d (irq cd)); cbn [irq_enable set_irq_enabled channels_tx
      channels_rx trace]; (split; [exact Ht|]); (split; [exact Hr|]);
      rewrite He2; subst dc; cbn [dma_xilinx_axi_dma_write_reg emit trace];
      rewrite Hatr, <- !app_assoc; reflexivity.
  - eexists. split; [reflexivity|].
    split; [apply irq_toggle_restores; assumption|].
    unfold irq_is_enabled.
    destruct (irq_enabled d (irq cd)); cbn [irq_enable set_irq_enabled channels_tx
      channels_rx trace]; rewrite app_nil_r; repeat split; assumption.
Qed.

(** *** Links, exclusion and initialisation *)

Lemma links_of_insert c i cur x :
  descriptors c !! i = Some cur ->
  nxtdesc x = nxtdesc cur -> nxtdesc_msb x = nxtdesc_msb cur ->
  links_of (set_descriptors (<[i := x]> (descriptors c)) c) = links_of c.
Proof.
  intros Hi Hn Hm. unfold links_of. cbn [descriptors set_descriptors].
  change (map ?f ?l) with (f <$> l).
  rewrite list_fmap_insert, Hn, Hm. apply list_insert_id.
  rewrite list_lookup_fmap, Hi. reflexivity.
Qed.

Section Links.
Variable bc : build_config.

Lemma transfer_block_links d channel cd buffer_addr block_size is_first is_last r d' :
  channel_data d channel = Some cd ->
  dma_xilinx_axi_dma_transfer_block bc d channel buffer_addr block_size
    is_first is_last = Some (r, d') ->
  exists cd', channel_data d' channel = Some cd' /\ links_of cd' = links_of cd.
Proof.
  intros Hcd Hrun. apply transfer_block_result in Hrun.
  destruct Hrun as (cd0 & cur & cd' & Hcd0 & Hcur & Hcd' & _ & _ & Hcases).
  cbn zeta in *. rewrite Hcd in Hcd0. injection Hcd0 as <-.
  exists cd'. split; [exact Hcd'|].
  destruct Hcases as [(_ & _ & ->)|[(_ & _ & [-> | ->])|(_ & _ & _ & ->)]];
    try reflexivity.
  - apply (links_of_insert cd _ cur _ Hcur);
      unfold addressed_descriptor, write_buffer_address;
      destruct (CONFIG_DMA_64BIT bc); reflexivity.
  - change (links_of (set_populated_desc_index ?n ?c)) with (links_of c).
    apply (links_of_insert cd _ cur _ Hcur);
      unfold populated_descriptor, write_buffer_address;
      destruct (CONFIG_DMA_64BIT bc); reflexivity.
Qed.

Lemma sweep_links d channel cd k d' :
  channel_data d channel = Some cd ->
  dma_xilinx_axi_dma_clean_up_sg_descriptors d channel = Some (k, d') ->
  exists cd', channel_data d' channel = Some cd' /\ links_of cd' = links_of cd.
Proof.
  intros Hcd Hrun. unfold dma_xilinx_axi_dma_clean_up_sg_descriptors in Hrun.
  rewrite Hcd in Hrun.
  destruct (sweep_loop_spec channel _ d cd 0%nat k d' Hcd Hrun)
    as (m & cd' & ls & _ & Hcd' & _ & _ & _ & _ & Hlook & _).
  exists cd'. split; [exact Hcd'|].
  unfold links_of. change (map ?f ?l) with (f <$> l).
  apply list_eq. intros i. rewrite !list_lookup_fmap, Hlook.
  destruct (bool_decide (i ∈ swept_slots cd m)); [|reflexivity].
  destruct (descriptors cd !! i); reflexivity.
Qed.

Lemma hardware_store_links d channel cd i st :
  channel_data d channel = Some cd ->
  exists cd', channel_data (hardware_store channel i st d) channel = Some cd'
              /\ links_of cd' = links_of cd.
Proof.
  intros Hcd. unfold hardware_store. rewrite Hcd.
  destruct (descriptors cd !! i) as [cur|] eqn:Hcur.
  - eexists. split; [apply (channel_data_set_same channel _ cd d Hcd)|].
    apply (links_of_insert cd i cur _ Hcur); reflexivity.
  - exists cd. split; [exact Hcd|reflexivity].
Qed.

(** X18. Submissions, sweeps and stores of the engine never change the
    next-descriptor links of the ring: after any run they are those the
    run started with. *)
Theorem run_keeps_links channel ops : forall s cd s',
  channel_data (run_dev s) channel = Some cd ->
  run_ops bc channel s ops = Some s' ->
  exists cd', channel_data (run_dev s') channel = Some cd' /\ links_of cd' = links_of cd.
Proof.
  induction ops as [|op ops IH]; intros s cd s' Hcd Hrun; cbn [run_ops] in Hrun.
  - injection Hrun as <-. exists cd. split; [exact Hcd|reflexivity].
  - destruct (run_op bc channel s op) as [s1|] eqn:Hop; [|discriminate].
    assert (H1 : exists cd1, channel_data (run_dev s1) channel = Some cd1
                             /\ links_of cd1 = links_of cd).
    { destruct op as [a sz f l| |i st]; cbn [run_op] in Hop.
      - destruct (dma_xilinx_axi_dma_transfer_block bc (run_dev s) channel a sz f l)
          as [[r d1]|] eqn:Htb; [|discriminate].
        injection Hop as <-. cbn [run_dev].
        exact (transfer_block_links _ _ _ _ _ _ _ _ _ Hcd Htb).
      - destruct (dma_xilinx_axi_dma_clean_up_sg_descriptors (run_dev s) channel)
          as [[k d1]|] eqn:Hsw; [|discriminate].
        injection Hop as <-. cbn [run_dev].
        exact (sweep_links _ _ _ _ _ Hcd Hsw).
      - rewrite Hcd in Hop.
        destruct (in_flight (num_descriptors cd) (completed s) (submitted s) i).
        + injection Hop as <-. cbn [run_dev]. apply hardware_store_links. exact Hcd.
        + injection Hop as <-. exists cd. split; [exact Hcd|reflexivity]. }
    destruct H1 as (cd1 & Hcd1 & Hl1).
    destruct (IH s1 cd1 s' Hcd1 Hrun) as (cd' & Hcd' & Hl').
    exists cd'. split; [exact Hcd'|congruence].
Qed.

(** X19. After [lock_irq] on a channel either all interrupts are
    locked or the channel's interrupt line is disabled.  With
    [LOCK_ALL_IRQS] no line changes; with [LOCK_DMA_IRQS] both lines of
    the device are disabled and no other; with [LOCK_CHANNEL_IRQ] no line
    but the channel's changes. *)
Theorem lock_irq_masks_channel d channel cd :
  channel_data d channel = Some cd ->
  exists key dl,
  dma_xilinx_axi_dma_lock_irq bc d channel = Some (key, dl)
  /\ (irqs_locked dl = true \/ irq_enabled dl (irq cd) = false)
  /\ match CONFIG_DMA_XILINX_AXI_DMA_LOCK bc with
     | LOCK_ALL_IRQS => irqs_locked dl = true /\ irq_enabled dl = irq_enabled d
     | LOCK_DMA_IRQS =>
         irq_enabled dl (irq (channels_tx d)) = false
         /\ irq_enabled dl (irq (channels_rx d)) = false
         /\ irqs_locked dl = irqs_locked d
         /\ forall n, n <> irq (channels_tx d) -> n <> irq (channels_rx d) ->
                      irq_enabled dl n = irq_enabled d n
     | LOCK_CHANNEL_IRQ =>
         irqs_locked dl = irqs_locked d
         /\ forall n, n <> irq cd -> irq_enabled dl n = irq_enabled d n
     end.
Proof.
  intros Hcd. unfold dma_xilinx_axi_dma_lock_irq, chan_irq. rewrite Hcd.
  destruct (channel_data_valid d channel cd Hcd) as [-> | ->];
    [rewrite channel_data_tx in Hcd|rewrite channel_data_rx in Hcd];
    injection Hcd as <-;
    destruct (CONFIG_DMA_XILINX_AXI_DMA_LOCK bc); cbn;
    rewrite ?Z.eqb_refl.
  all: eexists; eexists; split; [reflexivity|]; cbn; rewrite ?Z.eqb_refl.
  all: repeat split; try (left; reflexivity); try (right; reflexivity);
    try reflexivity.
  all: try (destruct (_ =? _); reflexivity).
  all: try (right; destruct (_ =? _); reflexivity).
  all: try (intros n; intros;
    repeat match goal with
           | |- context [n =? ?x] => destruct (Z.eqb_spec n x); [contradiction|]
           end; reflexivity).
Qed.

End Links.

(** The poll sleeps once for each read that shows the reset bit, up to the
    first read that shows it cleared. *)
Lemma reset_poll_first_clear count : forall i reads d m,
  (m < count)%nat ->
  (forall k, (k < m)%nat -> tst (reads (i + k)%nat) XILINX_AXI_DMA_REGS_DMACR_RESET = true) ->
  tst (reads (i + m)%nat) XILINX_AXI_DMA_REGS_DMACR_RESET = false ->
  reset_poll count i reads d = (true, Nat.iter m (emit (EvSleep 1)) d).
Proof.
  induction count as [|count IH]; intros i reads d m Hm Hset Hclr; [lia|].
  cbn [reset_poll]. destruct m as [|m].
  - rewrite Nat.add_0_r in Hclr. rewrite Hclr. reflexivity.
  - pose proof (Hset 0%nat ltac:(lia)) as H0. rewrite Nat.add_0_r in H0. rewrite H0.
    rewrite (IH (S i) reads (emit (EvSleep 1) d) m); [| lia | |].
    + rewrite iter_emit_shift. reflexivity.
    + intros k Hk. replace (S i + k)%nat with (i + S k)%nat by lia. apply Hset. lia.
    + replace (S i + m)%nat with (i + S m)%nat by lia. exact Hclr.
Qed.

Lemma reset_poll_sleeps count : forall i reads d,
  exists m, (m <= count)%nat
            /\ snd (reset_poll count i reads d) = Nat.iter m (emit (EvSleep 1)) d.
Proof.
  induction count as [|count IH]; intros i reads d; cbn [reset_poll].
  - exists 0%nat. split; [lia|reflexivity].
  - destruct (tst (reads i) XILINX_AXI_DMA_REGS_DMACR_RESET).
    + destruct (IH (S i) reads (emit (EvSleep 1) d)) as (m & Hm & Heq).
      exists (S m). split; [lia|]. rewrite Heq, iter_emit_shift. reflexivity.
    + exists 0%nat. split; [lia|reflexivity].
Qed.

(** X20. [init] returns -EINVAL and does nothing unless the
    configuration has two channels.  Otherwise it returns 0 or -EIO, and
    in both cases each channel is bound to its descriptor storage, with
    the length of the storage as [num_descriptors], and to its register
    window (offset 0 for send, 0x30 for receive); the cursors are not
    touched. *)
Theorem init_binds_channels cfg d reads :
  let r := dma_xilinx_axi_dma_init cfg d reads in
  (channels cfg <> XILINX_AXI_DMA_NUM_CHANNELS -> r = (- EINVAL, d))
  /\ (channels cfg = XILINX_AXI_DMA_NUM_CHANNELS ->
      (fst r = 0 \/ fst r = - EIO)
      /\ descriptors (channels_tx (snd r)) = descriptors_tx d
      /\ descriptors (channels_rx (snd r)) = descriptors_rx d
      /\ num_descriptors (channels_tx (snd r)) = length (descriptors_tx d)
      /\ num_descriptors (channels_rx (snd r)) = length (descriptors_rx d)
      /\ descriptors_addr (channels_tx (snd r)) = descriptors_tx_addr d
      /\ descriptors_addr (channels_rx (snd r)) = descriptors_rx_addr d
      /\ channel_regs (channels_tx (snd r)) = reg cfg + XILINX_AXI_DMA_MM2S_REG_OFFSET
      /\ channel_regs (channels_rx (snd r)) = reg cfg + XILINX_AXI_DMA_S2MM_REG_OFFSET
      /\ (populated_desc_index (channels_tx (snd r)),
          completion_desc_index (channels_tx (snd r)),
          populated_desc_index (channels_rx (snd r)),
          completion_desc_index (channels_rx (snd r)))
         = (populated_desc_index (channels_tx d), completion_desc_index (channels_tx d),
            populated_desc_index (channels_rx d), completion_desc_index (channels_rx d))).
Proof.
  intros r. subst r. unfold dma_xilinx_axi_dma_init. split.
  - intros Hne. destruct (Z.eqb_spec (channels cfg) XILINX_AXI_DMA_NUM_CHANNELS);
      [contradiction|reflexivity].
  - intros ->. rewrite Z.eqb_refl. cbn [negb].
    match goal with
    | |- context [reset_poll ?c ?i ?rd ?d0] =>
        destruct (reset_poll_sleeps c i rd d0) as (m & _ & Hs);
        destruct (reset_poll c i rd d0) as [ok dp]
    end.
    cbn [snd] in Hs. subst dp.
    match goal with
    | |- context [Nat.iter m ?f ?d0] =>
        destruct (iter_emit_frame m (EvSleep 1) d0) as (_ & _ & Ht & Hr)
    end.
    destruct ok; cbn [negb fst snd].
    + split; [left; reflexivity|].
      unfold irq_configure.
      cbn [channels_tx channels_rx irq_enable set_irq_enabled emit set_channels_tx
           set_channels_rx].
      rewrite Ht, Hr. cbn. repeat split; reflexivity.
    + split; [right; reflexivity|]. rewrite Ht, Hr. cbn. repeat split; reflexivity.
Qed.

(** X21. When read number [m] (below 1000) of the control register is
    the first to show the reset bit cleared, [init] returns 0 and its
    events are: the reset written to the receive channel's control
    register, [m] sleeps of one millisecond, and the connection of the
    send and of the receive interrupt line. *)
Theorem init_sleeps_until_clear cfg d reads m :
  channels cfg = XILINX_AXI_DMA_NUM_CHANNELS ->
  (m < RESET_POLL_RETRIES)%nat ->
  (forall i, (i < m)%nat -> tst (reads i) XILINX_AXI_DMA_REGS_DMACR_RESET = true) ->
  tst (reads m) XILINX_AXI_DMA_REGS_DMACR_RESET = false ->
  let r := dma_xilinx_axi_dma_init cfg d reads in
  fst r = 0
  /\ trace (snd r)
     = trace d
       ++ EvWriteReg (reg cfg + XILINX_AXI_DMA_S2MM_REG_OFFSET + XILINX_AXI_DMA_REG_DMACR)
            XILINX_AXI_DMA_REGS_DMACR_RESET
          :: replicate m (EvSleep 1)
       ++ [EvIrqConnect (irqn_tx cfg) XILINX_AXI_DMA_TX_CHANNEL_NUM;
           EvIrqConnect (irqn_rx cfg) XILINX_AXI_DMA_RX_CHANNEL_NUM].
Proof.
  intros Hch Hm Hset Hclr r. subst r. unfold dma_xilinx_axi_dma_init.
  rewrite Hch, Z.eqb_refl. cbn [negb].
  match goal with
  | |- context [reset_poll ?c ?i ?rd ?d0] =>
      rewrite (reset_poll_first_clear c i rd d0 m Hm Hset Hclr)
  end.
  cbn [negb fst snd]. split; [reflexivity|].
  unfold irq_configure.
  cbn [trace irq_enable set_irq_enabled emit set_channels_tx set_channels_rx].
  rewrite iter_emit_trace.
  cbn [trace dma_xilinx_axi_dma_write_reg emit set_channels_tx set_channels_rx
       channel_regs bind_storage set_direction].
  rewrite <- !app_assoc. reflexivity.
Qed.

(** *** Instances on the sample devices *)

Lemma stop_clears_run_stop_witness :
  exists w,
    dma_xilinx_axi_dma_stop sample_config (ready_device 2 2) 0 0x10017003
    = Some (0, emit (EvWriteReg
                       (channel_regs (channels_tx (ready_device 2 2))
                        + XILINX_AXI_DMA_REG_DMACR) w)
                 (ready_device 2 2))
    /\ Z.testbit w 0 = false
    /\ forall n, n <> 0 -> Z.testbit w n = Z.testbit 0x10017003 n.
Proof.
  apply (stop_clears_run_stop sample_config (ready_device 2 2) 0
           (channels_tx (ready_device 2 2)) 0x10017003).
  - reflexivity.
  - reflexivity.
  - lia.
Defined.

Lemma get_status_reports_witness :
  exists st,
    dma_xilinx_axi_dma_get_status sample_config (booted_device 2 2) 1
      {| busy := false; dir := MEMORY_TO_MEMORY |} 0x10000 0x10002 = Some (0, st)
    /\ dir st = direction (channels_rx (booted_device 2 2))
    /\ (busy st = false
        <-> Z.testbit 0x10000 1 = true \/ Z.testbit 0x10002 0 = true).
Proof.
  apply (get_status_reports sample_config (booted_device 2 2) 1
           (channels_rx (booted_device 2 2))).
  - reflexivity.
  - reflexivity.
Defined.

Lemma invalid_channel_rejected_witness :
  (forall dmacr,
      dma_xilinx_axi_dma_stop sample_config (ready_device 2 2) 2 dmacr
      = Some (- EINVAL, ready_device 2 2))
  /\ (forall stat dmasr1 dmasr2,
         dma_xilinx_axi_dma_get_status sample_config (ready_device 2 2) 2 stat
           dmasr1 dmasr2
         = Some (- EINVAL, stat))
  /\ (forall src dst size,
         dma_xilinx_axi_dma_config_reload sample_build sample_config (ready_device 2 2)
           2 src dst size
         = Some (- EINVAL, ready_device 2 2))
  /\ (forall dma_cfg,
         dma_xilinx_axi_dma_configure sample_build sample_config (ready_device 2 2)
           2 dma_cfg
         = Some (- EINVAL, ready_device 2 2))
  /\ (forall dmasr,
         exists d',
           dma_xilinx_axi_dma_start shared_lock_build sample_config (ready_device 2 2)
             2 dmasr = Some (- EINVAL, d')
           /\ channels_tx d' = channels_tx (ready_device 2 2)
           /\ channels_rx d' = channels_rx (ready_device 2 2)
           /\ List.filter (fun e => negb (is_lock_event e)) (trace d')
              = List.filter (fun e => negb (is_lock_event e))
                  (trace (ready_device 2 2)))
  /\ (forall dmasr,
         dma_xilinx_axi_dma_start sample_build sample_config (ready_device 2 2)
           2 dmasr = None).
Proof.
  assert (Hch : 2 >= channels sample_config) by (vm_compute; discriminate).
  pose proof (invalid_channel_rejected sample_build sample_config (ready_device 2 2) 2 Hch)
    as (Hstop & Hstat & Hreload & Hconf & _ & Hnone).
  pose proof (invalid_channel_rejected shared_lock_build sample_config (ready_device 2 2) 2
                Hch) as (_ & _ & _ & _ & Hstart & _).
  split; [exact Hstop|]. split; [exact Hstat|]. split; [exact Hreload|].
  split; [exact Hconf|]. split.
  - intros dmasr. apply Hstart. left. discriminate.
  - intros dmasr. apply Hnone; reflexivity.
Defined.

Lemma start_control_fields_witness :
  let sc := start_control sample_build in
  0 <= sc < 2 ^ 32
  /\ Z.testbit sc 0 = true
  /\ Z.testbit sc 2 = false /\ Z.testbit sc 3 = false /\ Z.testbit sc 4 = false
  /\ Z.testbit sc 12 = true /\ Z.testbit sc 13 = true /\ Z.testbit sc 14 = true
  /\ Z.land (Z.shiftr sc 16) 0xFF = 1
  /\ Z.shiftr sc 24 = 16.
Proof.
  apply (start_control_fields sample_build); cbn; lia.
Defined.

Lemma start_writes_tail_witness :
  exists d',
    dma_xilinx_axi_dma_start sample_build sample_config (ready_device 4 2) 0 1
    = Some (0, d')
    /\ channels_tx d' = channels_tx (ready_device 4 2)
    /\ channels_rx d' = channels_rx (ready_device 4 2)
    /\ List.filter (fun e => negb (is_lock_event e)) (trace d')
       = List.filter (fun e => negb (is_lock_event e)) (trace (ready_device 4 2))
         ++ (if Z.testbit 1 0
             then [EvWriteReg (channel_regs (channels_tx (ready_device 4 2))
                               + XILINX_AXI_DMA_REG_DMACR)
                     (start_control sample_build)]
             else [])
         ++ tail_writes sample_build (channels_tx (ready_device 4 2))
              (desc_addr (channels_tx (ready_device 4 2))
                 (populated_desc_index (channels_tx (ready_device 4 2)))).
Proof.
  apply (start_writes_tail sample_build sample_config (ready_device 4 2) 0
           (channels_tx (ready_device 4 2)) 1).
  - reflexivity.
  - reflexivity.
Defined.

Lemma transfer_block_return_code_witness :
  let cur := {| nxtdesc := 0x10040; nxtdesc_msb := 0; buffer_address := 0;
                buffer_address_msb := 0; reserved1 := 0; reserved2 := 0;
                control := 0; status := 0; app0 := 0; app1 := 0;
                app2 := 0; app3 := 0; app4 := 0 |} in
  exists r d',
    dma_xilinx_axi_dma_transfer_block sample_build (ready_device 4 2) 0
      0x80000000 (2 ^ 32) true true = Some (r, d')
    /\ (r = - EBUSY <-> ~ slot_free cur)
    /\ (r = 0 <-> slot_free cur /\ block_acceptable sample_build 0 0x80000000 (2 ^ 32))
    /\ (r = - EINVAL
        <-> slot_free cur /\ ~ block_acceptable sample_build 0 0x80000000 (2 ^ 32)).
Proof.
  intros cur.
  apply (transfer_block_return_code sample_build (ready_device 4 2) 0
           (channels_tx (ready_device 4 2)) cur).
  - reflexivity.
  - vm_compute. reflexivity.
Defined.

Lemma rejected_submission_keeps_ring_witness :
  let d := ready_device 2 2 in
  let d' := match dma_xilinx_axi_dma_transfer_block sample_build d 1
                    0x80001001 64 true true with
            | Some (_, d') => d'
            | None => d
            end in
  exists cd',
    channel_data d' 1 = Some cd'
    /\ populated_desc_index cd' = populated_desc_index (channels_rx d)
    /\ completion_desc_index cd' = completion_desc_index (channels_rx d)
    /\ words_of cd' = words_of (channels_rx d)
    /\ links_of cd' = links_of (channels_rx d)
    /\ (forall channel', channel' <> 1 -> channel_data d' channel' = channel_data d channel').
Proof.
  intros d d'.
  apply (rejected_submission_keeps_ring sample_build d 1 (channels_rx d)
           0x80001001 64 true true (- EINVAL) d').
  - reflexivity.
  - vm_compute. reflexivity.
  - vm_compute. discriminate.
Defined.

Lemma transfer_block_stores_descriptor_witness :
  let d := ready_device 4 2 in
  let d' := match dma_xilinx_axi_dma_transfer_block sample_build d 0
                    0x80000000 1500 true false with
            | Some (_, d') => d'
            | None => d
            end in
  let next := next_index (num_descriptors (channels_tx d))
                (populated_desc_index (channels_tx d)) in
  exists cd' cur cur',
    channel_data d' 0 = Some cd'
    /\ populated_desc_index cd' = next
    /\ completion_desc_index cd' = completion_desc_index (channels_tx d)
    /\ descriptors (channels_tx d) !! next = Some cur
    /\ descriptors cd' !! next = Some cur'
    /\ (forall i, i <> next -> descriptors cd' !! i = descriptors (channels_tx d) !! i)
    /\ Z.land (control cur') XILINX_AXI_DMA_SG_DESCRIPTOR_CTRL_LENGTH_MASK = 1500
    /\ tst (control cur') XILINX_AXI_DMA_SG_DESCRIPTOR_CTRL_SOF_MASK = true
    /\ tst (control cur') XILINX_AXI_DMA_SG_DESCRIPTOR_CTRL_EOF_MASK = false
    /\ status cur' = 0
    /\ buffer_address cur' = 0x80000000 mod 2 ^ 32
    /\ app0 cur' = sg_desc_app0 (channels_tx d)
    /\ (nxtdesc cur', nxtdesc_msb cur') = (nxtdesc cur, nxtdesc_msb cur).
Proof.
  intros d d'.
  apply (transfer_block_stores_descriptor sample_build d 0 (channels_tx d)
           0x80000000 1500 true false d').
  - reflexivity.
  - vm_compute. split; discriminate.
  - vm_compute. reflexivity.
Defined.


Lemma configure_accepts_chain_witness :
  let dma_cfg := sample_dma_config 0 (Some 5) [sample_block 200; sample_block 300] in
  let chain := head_block dma_cfg :: next_blocks dma_cfg in
  exists d' cd',
    dma_xilinx_axi_dma_configure sample_build sample_config (booted_device 4 2) 0 dma_cfg
    = Some (0, d')
    /\ channel_data d' 0 = Some cd'
    /\ populated_desc_index cd' = (length chain - 1)%nat
    /\ completion_desc_index cd' = 0%nat
    /\ completion_callback cd' = dma_callback dma_cfg
    /\ (forall i b, chain !! i = Some b ->
          exists cur', descriptors cd' !! i = Some cur'
                       /\ control cur'
                          = control_word (block_size b) (i =? 0)%nat
                              (S i =? length chain)%nat
                       /\ status cur' = 0).
Proof.
  intros dma_cfg chain.
  apply (configure_accepts_chain sample_build sample_config (booted_device 4 2) 0
           dma_cfg (channels_tx (booted_device 4 2))).
  - reflexivity.
  - reflexivity.
  - reflexivity.
  - apply ring_drainedb_spec. vm_compute. reflexivity.
  - reflexivity.
  - unfold unsupported_config. vm_compute.
    intros [[H _]|[[H _]|[[_ H]|[H _]]]]; first [apply H; reflexivity | discriminate H].
  - right. reflexivity.
  - vm_compute. lia.
  - repeat constructor; solve [vm_compute; discriminate | left; reflexivity].
Defined.

Lemma configure_return_values_witness :
  let dma_cfg := sample_dma_config 7 None [] in
  (exists r d',
    dma_xilinx_axi_dma_configure sample_build sample_config (booted_device 4 2) 0 dma_cfg
    = Some (r, d')
    /\ (r = 0 \/ r = 1 \/ r = - EINVAL \/ r = - ENOTSUP)
    /\ (r = - ENOTSUP <-> unsupported_config 0 dma_cfg)
    /\ (r = - ENOTSUP -> d' = booted_device 4 2)
    /\ (r = - EINVAL
        <-> ~ unsupported_config 0 dma_cfg
            /\ linked_channel dma_cfg
               <> XILINX_AXI_DMA_LINKED_CHANNEL_FULL_CSUM_OFFLOAD sample_build
            /\ linked_channel dma_cfg
               <> XILINX_AXI_DMA_LINKED_CHANNEL_NO_CSUM_OFFLOAD sample_build))
  /\ dma_xilinx_axi_dma_configure assert_build sample_config (booted_device 4 2) 0 dma_cfg
     = None.
Proof.
  intros dma_cfg.
  assert (Hpos : (0 < num_descriptors (channels_tx (booted_device 4 2)))%nat)
    by (vm_compute; lia).
  split.
  - apply (configure_return_values sample_build sample_config (booted_device 4 2) 0
             dma_cfg (channels_tx (booted_device 4 2)));
      [reflexivity|reflexivity|exact Hpos|reflexivity|reflexivity].
  - apply (configure_return_values assert_build sample_config (booted_device 4 2) 0
             dma_cfg (channels_tx (booted_device 4 2)));
      [reflexivity|reflexivity|exact Hpos|reflexivity|reflexivity|].
    unfold unsupported_config. vm_compute.
    intros [[H _]|[[H _]|[[_ H]|[H _]]]]; first [apply H; reflexivity | discriminate H].
Defined.

Lemma configure_invalid_linked_channel_witness :
  let d := completed_device (Some 5) in
  let dma_cfg := sample_dma_config 7 None [] in
  exists d' cd',
    dma_xilinx_axi_dma_configure sample_build sample_config d 0 dma_cfg
    = Some (- EINVAL, d')
    /\ channel_data d' 0 = Some cd'
    /\ populated_desc_index cd'
       = (if (num_descriptors (channels_tx d) =? 0)%nat
          then Z.to_nat (SIZE_MAX sample_build)
          else (num_descriptors (channels_tx d) - 1)%nat)
    /\ completion_desc_index cd' = 0%nat
    /\ check_csum_in_isr cd' = false
    /\ (forall j, descriptors cd' !! j
                  = linked sample_build (channels_tx d) j
                      <$> descriptors (channels_tx d) !! j)
    /\ (completion_callback cd', completion_callback_user_data cd', sg_desc_app0 cd')
       = (completion_callback (channels_tx d),
          completion_callback_user_data (channels_tx d), sg_desc_app0 (channels_tx d))
    /\ trace d' = trace (write_desc_reg sample_build (channels_tx d)
                           XILINX_AXI_DMA_REG_CURDESC XILINX_AXI_DMA_REG_CURDESC_MSB
                           (desc_addr (channels_tx d) 0) d).
Proof.
  intros d dma_cfg.
  apply (configure_invalid_linked_channel sample_build sample_config d 0 dma_cfg
           (channels_tx d)).
  - reflexivity.
  - reflexivity.
  - reflexivity.
  - reflexivity.
  - unfold unsupported_config. vm_compute.
    intros [[H _]|[[H _]|[[_ H]|[H _]]]]; first [apply H; reflexivity | discriminate H].
  - vm_compute. discriminate.
  - vm_compute. discriminate.
Defined.

Lemma configure_offload_modes_witness :
  let d := booted_device 4 2 in
  let dma_cfg :=
    {| channel_direction := PERIPHERAL_TO_MEMORY; linked_channel := 1;
       head_block := sample_block 1536; next_blocks := [];
       dma_callback := Some 5; user_data := 7 |} in
  let d' := match dma_xilinx_axi_dma_configure sample_build sample_config d 1 dma_cfg with
            | Some (_, d') => d'
            | None => d
            end in
  exists cd',
    channel_data d' 1 = Some cd'
    /\ completion_callback cd' = dma_callback dma_cfg
    /\ completion_callback_user_data cd' = user_data dma_cfg
    /\ (check_csum_in_isr cd' = true
        <-> linked_channel dma_cfg
            = XILINX_AXI_DMA_LINKED_CHANNEL_FULL_CSUM_OFFLOAD sample_build
            /\ 1 = XILINX_AXI_DMA_RX_CHANNEL_NUM)
    /\ sg_desc_app0 cd'
       = (if linked_channel dma_cfg
             =? XILINX_AXI_DMA_LINKED_CHANNEL_FULL_CSUM_OFFLOAD sample_build
          then if 1 =? XILINX_AXI_DMA_TX_CHANNEL_NUM
               then XILINX_AXI_DMA_SG_DESCRIPTOR_APP0_CHECKSUM_OFFLOAD_FULL
               else sg_desc_app0 (channels_rx d)
          else XILINX_AXI_DMA_SG_DESCRIPTOR_APP0_CHECKSUM_OFFLOAD_NONE).
Proof.
  intros d dma_cfg d'.
  apply (configure_offload_modes sample_build sample_config d 1 dma_cfg
           (channels_rx d) 0 d').
  - reflexivity.
  - reflexivity.
  - vm_compute. reflexivity.
  - lia.
Defined.

Lemma sweep_twice_finds_nothing_witness :
  exists k d',
    dma_xilinx_axi_dma_clean_up_sg_descriptors (completed_device (Some 5)) 0
    = Some (k, d')
    /\ dma_xilinx_axi_dma_clean_up_sg_descriptors d' 0 = Some (0%nat, d').
Proof.
  apply (sweep_twice_finds_nothing (completed_device (Some 5)) 0
           (channels_tx (completed_device (Some 5)))).
  - reflexivity.
  - vm_compute. repeat split; lia.
Defined.

Lemma sweep_records_last_length_witness :
  let d := completed_device (Some 5) in
  exists k d' cd',
    dma_xilinx_axi_dma_clean_up_sg_descriptors d 0 = Some (k, d')
    /\ channel_data d' 0 = Some cd'
    /\ match last (swept_slots (channels_tx d) k) with
       | None => k = 0%nat /\ last_rx_size cd' = last_rx_size (channels_tx d)
       | Some i =>
           exists cur,
             descriptors (channels_tx d) !! i = Some cur
             /\ status_flagged (status cur) = true
             /\ last_rx_size cd'
                = Z.land (status cur) XILINX_AXI_DMA_SG_DESCRIPTOR_STATUS_LENGTH_MASK
             /\ 0 <= last_rx_size cd' < 2 ^ 26
       end
    /\ (0 = XILINX_AXI_DMA_RX_CHANNEL_NUM ->
        dma_xilinx_axi_dma_last_received_frame_length d' = last_rx_size cd').
Proof.
  intros d.
  apply (sweep_records_last_length d 0 (channels_tx d)).
  - reflexivity.
  - vm_compute. repeat split; lia.
Defined.

Lemma isr_acknowledges_and_sweeps_witness :
  let d := completed_device (Some 5) in
  exists d',
    channel_isr 0 d 0x5000 = Some d'
    /\ irq_state_restored d d'
    /\ (if tst 0x5000 isr_cause
        then exists k ds,
               dma_xilinx_axi_dma_clean_up_sg_descriptors d 0 = Some (k, ds)
               /\ channels_tx d' = channels_tx ds /\ channels_rx d' = channels_rx ds
               /\ trace d' = trace d ++ isr_acknowledgements (channels_tx d) 0x5000
                               ++ new_events d ds
        else channels_tx d' = channels_tx d /\ channels_rx d' = channels_rx d
             /\ trace d' = trace d ++ isr_acknowledgements (channels_tx d) 0x5000).
Proof.
  intros d.
  apply (isr_acknowledges_and_sweeps 0 d (channels_tx d) 0x5000).
  - reflexivity.
  - vm_compute. repeat split; lia.
Defined.

Lemma run_keeps_links_witness :
  let s := {| run_dev := ready_device 4 2; submitted := 0; completed := 0 |} in
  let s' := match run_ops sample_build 0 s full_ring_scenario with
            | Some s' => s'
            | None => s
            end in
  exists cd',
    channel_data (run_dev s') 0 = Some cd'
    /\ links_of cd' = links_of (channels_tx (ready_device 4 2)).
Proof.
  intros s s'.
  apply (run_keeps_links sample_build 0 full_ring_scenario s
           (channels_tx (ready_device 4 2)) s').
  - reflexivity.
  - vm_compute. reflexivity.
Defined.

Lemma lock_irq_masks_channel_witness :
  let d := ready_device 2 2 in
  exists key dl,
  dma_xilinx_axi_dma_lock_irq sample_build d 0 = Some (key, dl)
  /\ (irqs_locked dl = true \/ irq_enabled dl (irq (channels_tx d)) = false)
  /\ match CONFIG_DMA_XILINX_AXI_DMA_LOCK sample_build with
     | LOCK_ALL_IRQS => irqs_locked dl = true /\ irq_enabled dl = irq_enabled d
     | LOCK_DMA_IRQS =>
         irq_enabled dl (irq (channels_tx d)) = false
         /\ irq_enabled dl (irq (channels_rx d)) = false
         /\ irqs_locked dl = irqs_locked d
         /\ forall n, n <> irq (channels_tx d) -> n <> irq (channels_rx d) ->
                      irq_enabled dl n = irq_enabled d n
     | LOCK_CHANNEL_IRQ =>
         irqs_locked dl = irqs_locked d
         /\ forall n, n <> irq (channels_tx d) -> irq_enabled dl n = irq_enabled d n
     end.
Proof.
  intros d.
  apply (lock_irq_masks_channel sample_build d 0 (channels_tx d)).
  reflexivity.
Defined.

Lemma init_sleeps_until_clear_witness :
  let r := dma_xilinx_axi_dma_init sample_config (zero_device 2 2) reset_after_three in
  fst r = 0
  /\ trace (snd r)
     = trace (zero_device 2 2)
       ++ EvWriteReg (reg sample_config + XILINX_AXI_DMA_S2MM_REG_OFFSET
                      + XILINX_AXI_DMA_REG_DMACR)
            XILINX_AXI_DMA_REGS_DMACR_RESET
          :: replicate 3 (EvSleep 1)
       ++ [EvIrqConnect (irqn_tx sample_config) XILINX_AXI_DMA_TX_CHANNEL_NUM;
           EvIrqConnect (irqn_rx sample_config) XILINX_AXI_DMA_RX_CHANNEL_NUM].
Proof.
  apply (init_sleeps_until_clear sample_config (zero_device 2 2) reset_after_three 3).
  - reflexivity.
  - vm_compute. lia.
  - intros [|[|[|i]]] Hi; solve [reflexivity | lia].
  - reflexivity.
Defined.
